(** * ControlMedica: the stock ledger of [app_firebase.py]

    The Flask routes and helpers of [app_firebase.py] as functions over an
    explicit process state.

    - Documents are dictionaries of Python values ([gmap string value]); a
      collection lists its documents, with their identifiers, in the order
      in which [stream()] yields them.
    - The state ([world]) holds the module-level [db], which is [None] when
      Firebase was not initialised, and the lines printed on the console.
      A client carries the flag [reachable]: while it is [false] every call
      on the client raises.
    - Python exceptions are the [Raise] of an error monad; [try_except] and
      [route] are the [try]/[except] blocks of the source.
    - What the environment chooses is an argument: the identifier that
      Firestore draws for a new document, the current time, today's date.
      Query parameters arrive parsed, JSON bodies as dictionaries.
    - A text is the sequence of the bytes of its UTF-8 encoding, which
      orders texts as Python orders them by code point. *)

From stdpp Require Import gmap strings list fin_maps.
From Stdlib Require Import ZArith QArith Lia Permutation Sorted.

Local Open Scope Z_scope.

(** ** Python values held in documents and JSON bodies

    The universe covers [None], booleans, integers, strings and the
    timestamps written by [datetime.now()], which Firestore hands back
    with the UTC time zone.  Floats and nested containers are left out:
    where a statement depends on a number being an integer, it says so in
    a hypothesis. *)

Inductive value : Type :=
  | VNone
  | VBool (b : bool)
  | VInt (z : Z)
  | VStr (s : string)
  | VTime (t : Z).

#[global] Instance value_eq_dec : EqDecision value.
Proof. solve_decision. Defined.

(** Exceptions that the modelled code can raise. *)
Inductive exn : Type :=
  | TypeError
  | AttributeError
  | ValueError
  | ZeroDivisionError
  | OverflowError
  | IllegalCharacterError
  | ServiceUnavailable
  | InvalidArgument.

(** The error monad: [Ok] is normal completion, [Raise] a Python exception
    in flight. *)
Inductive result (A : Type) : Type :=
  | Ok (a : A)
  | Raise (e : exn).
Arguments Ok {A} a.
Arguments Raise {A} e.

Definition bindR {A B : Type} (m : result A) (k : A -> result B) : result B :=
  match m with
  | Ok a => k a
  | Raise e => Raise e
  end.

Notation "'let+' x := m 'in' k" := (bindR m (fun x => k))
  (at level 10, x pattern, m at level 100, k at level 200).

Fixpoint foldM {A B : Type} (f : A -> B -> result A) (acc : A) (l : list B)
  : result A :=
  match l with
  | [] => Ok acc
  | x :: l' => let+ acc' := f acc x in foldM f acc' l'
  end.

Module Py.

(** [bool(v)] *)
Definition truthy (v : value) : bool :=
  match v with
  | VNone => false
  | VBool b => b
  | VInt z => negb (z =? 0)
  | VStr s => negb (String.eqb s "")
  | VTime _ => true
  end.

(** The integer a numeric value stands for ([True] is [1]). *)
Definition as_int (v : value) : option Z :=
  match v with
  | VInt z => Some z
  | VBool b => Some (Z.b2z b)
  | _ => None
  end.

(** [a == b] *)
Definition eqb (a b : value) : bool :=
  match as_int a, as_int b with
  | Some x, Some y => x =? y
  | _, _ => bool_decide (a = b)
  end.

(** [acc + v] for an [int] accumulator. *)
Definition add (acc : Z) (v : value) : result Z :=
  match as_int v with
  | Some z => Ok (acc + z)
  | None => Raise TypeError
  end.

(** [v <= n], [v < n] and [n < v] against an [int]. *)
Definition le_int (v : value) (n : Z) : result bool :=
  match as_int v with
  | Some z => Ok (z <=? n)
  | None => Raise TypeError
  end.

Definition lt_int (v : value) (n : Z) : result bool :=
  match as_int v with
  | Some z => Ok (z <? n)
  | None => Raise TypeError
  end.

Definition int_lt (n : Z) (v : value) : result bool :=
  match as_int v with
  | Some z => Ok (n <? z)
  | None => Raise TypeError
  end.

(** [d.get(k, default)] and [d.get(k)] *)
Definition get (d : gmap string value) (k : string) (default : value) : value :=
  match d !! k with
  | Some v => v
  | None => default
  end.

Definition get_none (d : gmap string value) (k : string) : value :=
  get d k VNone.

(** [v + n] for an [int] literal [n]. *)
Definition add_int (v : value) (n : Z) : result value :=
  match as_int v with
  | Some z => Ok (VInt (z + n))
  | None => Raise TypeError
  end.

(** Ordering of two values: defined between numbers, between strings and
    between timestamps; a [TypeError] otherwise. *)
Definition compare (a b : value) : result comparison :=
  match as_int a, as_int b, a, b with
  | Some x, Some y, _, _ => Ok (x ?= y)
  | _, _, VStr x, VStr y => Ok (String.compare x y)
  | _, _, VTime x, VTime y => Ok (x ?= y)
  | _, _, _, _ => Raise TypeError
  end.

(** [a > b], [a >= b], [a <= b] *)
Definition gt (a b : value) : result bool :=
  let+ c := compare a b in Ok (match c with Gt => true | _ => false end).

Definition ge (a b : value) : result bool :=
  let+ c := compare a b in Ok (match c with Lt => false | _ => true end).

Definition le (a b : value) : result bool :=
  let+ c := compare a b in Ok (match c with Gt => false | _ => true end).

(** [a or b] *)
Definition or (a b : value) : value := if truthy a then a else b.

(** [all(vs)] *)
Definition all (vs : list value) : bool := forallb truthy vs.

(** [v in ss] for a list of [str] literals. *)
Definition in_strs (v : value) (ss : list string) : bool :=
  existsb (fun s => eqb v (VStr s)) ss.

(** The white space that [str.strip()] removes: the characters for which
    [str.isspace()] holds.  In UTF-8, U+0009 to U+000D and U+001C to
    U+0020 take one byte, U+0085 and U+00A0 two, and U+1680, U+2000 to
    U+200A, U+2028, U+2029, U+202F, U+205F and U+3000 three. *)
Definition byte (c : Ascii.ascii) : Z := Z.of_nat (Ascii.nat_of_ascii c).

Definition is_space (c : Ascii.ascii) : bool :=
  let n := Z.of_nat (Ascii.nat_of_ascii c) in
  ((9 <=? n) && (n <=? 13)) || ((28 <=? n) && (n <=? 32)).

Definition is_space2 (c1 c2 : Ascii.ascii) : bool :=
  (byte c1 =? 194) && ((byte c2 =? 133) || (byte c2 =? 160)).

Definition is_space3 (c1 c2 c3 : Ascii.ascii) : bool :=
  ((byte c1 =? 225) && (byte c2 =? 154) && (byte c3 =? 128))
  || ((byte c1 =? 226) && (byte c2 =? 128)
      && (((128 <=? byte c3) && (byte c3 <=? 138))
          || (byte c3 =? 168) || (byte c3 =? 169) || (byte c3 =? 175)))
  || ((byte c1 =? 226) && (byte c2 =? 129) && (byte c3 =? 159))
  || ((byte c1 =? 227) && (byte c2 =? 128) && (byte c3 =? 128)).

Fixpoint lstrip (s : string) : string :=
  match s with
  | String c1 s1 =>
      if is_space c1 then lstrip s1
      else
        match s1 with
        | String c2 s2 =>
            if is_space2 c1 c2 then lstrip s2
            else
              match s2 with
              | String c3 s3 => if is_space3 c1 c2 c3 then lstrip s3 else s
              | EmptyString => s
              end
        | EmptyString => s
        end
  | EmptyString => EmptyString
  end.

(** The text is one white-space character. *)
Definition is_space_char (s : string) : bool :=
  match s with
  | String c1 EmptyString => is_space c1
  | String c1 (String c2 EmptyString) => is_space2 c1 c2
  | String c1 (String c2 (String c3 EmptyString)) => is_space3 c1 c2 c3
  | _ => false
  end.

Fixpoint rstrip (s : string) : string :=
  match s with
  | String c s' =>
      let r := String c (rstrip s') in
      if is_space_char r then EmptyString else r
  | EmptyString => EmptyString
  end.

(** [v.strip()]: only [str] has the method. *)
Definition strip (v : value) : result string :=
  match v with
  | VStr s => Ok (rstrip (lstrip s))
  | _ => Raise AttributeError
  end.

End Py.

(** ** The Firestore store *)

(** A collection is the list of its documents, each with its identifier,
    in the order [stream()] yields them. *)
Record firestore : Type := {
  reachable : bool;
  medicamentos : list (string * gmap string value);
  movimientos : list (string * gmap string value)
}.

(** Lines printed on the console. *)
Inductive log_entry : Type :=
  | ErrorCalculandoStock (e : exn)
  | ErrorCreandoReporte (e : exn).

(** The process state: the module-level [db] ([None] when Firebase was
    not initialised) and what has been printed. *)
Record world : Type := {
  db : option firestore;
  consola : list log_entry
}.

(** ** Computations over the process state that may raise *)

Definition M (A : Type) : Type := world -> result A * world.

Definition ret {A : Type} (a : A) : M A := fun w => (Ok a, w).

Definition raise {A : Type} (e : exn) : M A := fun w => (Raise e, w).

Definition bindM {A B : Type} (m : M A) (k : A -> M B) : M B :=
  fun w =>
    match m w with
    | (Ok a, w') => k a w'
    | (Raise e, w') => (Raise e, w')
    end.

Notation "'let*' x := m 'in' k" := (bindM m (fun x => k))
  (at level 10, x pattern, m at level 100, k at level 200).

Definition lift {A : Type} (r : result A) : M A := fun w => (r, w).

(** [try: body except Exception as e: handler(e)] *)
Definition try_except {A : Type} (body : M A) (handler : exn -> M A) : M A :=
  fun w =>
    match body w with
    | (Ok a, w') => (Ok a, w')
    | (Raise e, w') => handler e w'
    end.

Definition print (l : log_entry) : M unit :=
  fun w => (Ok tt, {| db := db w; consola := consola w ++ [l] |}).

Definition read_db : M (option firestore) := fun w => (Ok (db w), w).

Module Firestore.

(** [.where(field, '==', v)] *)
Definition where_eq (field : string) (v : value)
    (c : list (string * gmap string value)) : list (string * gmap string value) :=
  List.filter (fun p => bool_decide (snd p !! field = Some v)) c.

(** Any call on the client: [db] must be a client and the backend must
    answer. *)
Definition client : M firestore :=
  fun w =>
    match db w with
    | None => (Raise AttributeError, w)
    | Some fs => if reachable fs then (Ok fs, w) else (Raise ServiceUnavailable, w)
    end.

(** [db.collection('movimientos')...stream()] with query [q]. *)
Definition stream_movimientos
    (q : list (string * gmap string value) -> list (string * gmap string value))
    : M (list (string * gmap string value)) :=
  let* fs := client in ret (q (movimientos fs)).

Definition stream_medicamentos
    (q : list (string * gmap string value) -> list (string * gmap string value))
    : M (list (string * gmap string value)) :=
  let* fs := client in ret (q (medicamentos fs)).

(** [.document(id).get()]: [None] when the snapshot does not exist. *)
Definition lookup (id : string) (c : list (string * gmap string value))
    : option (gmap string value) :=
  snd <$> List.find (fun p => String.eqb (fst p) id) c.

Definition get_movimiento (id : string) : M (option (gmap string value)) :=
  let* fs := client in ret (lookup id (movimientos fs)).

Definition get_medicamento (id : string) : M (option (gmap string value)) :=
  let* fs := client in ret (lookup id (medicamentos fs)).

Definition write_movimientos
    (f : list (string * gmap string value) -> list (string * gmap string value))
    : M unit :=
  let* fs := client in
  fun w => (Ok tt, {| db := Some {| reachable := reachable fs;
                                     medicamentos := medicamentos fs;
                                     movimientos := f (movimientos fs) |};
                      consola := consola w |}).

Definition write_medicamentos
    (f : list (string * gmap string value) -> list (string * gmap string value))
    : M unit :=
  let* fs := client in
  fun w => (Ok tt, {| db := Some {| reachable := reachable fs;
                                     medicamentos := f (medicamentos fs);
                                     movimientos := movimientos fs |};
                      consola := consola w |}).

(** [.add(data)]; [id] is the automatic identifier the client draws.  The
    new document is put last in the streaming order. *)
Definition add (id : string) (data : gmap string value)
    (c : list (string * gmap string value)) : list (string * gmap string value) :=
  c ++ [(id, data)].

(** [.document(id).delete()]: succeeds whether or not the document exists. *)
Definition delete (id : string)
    (c : list (string * gmap string value)) : list (string * gmap string value) :=
  List.filter (fun p => negb (String.eqb (fst p) id)) c.

(** [.document(id).update(fields)]: the given fields overwrite, the others
    stay. *)
Definition update (id : string) (fields : gmap string value)
    (c : list (string * gmap string value)) : list (string * gmap string value) :=
  List.map (fun p => if String.eqb (fst p) id then (fst p, fields ∪ snd p) else p) c.

End Firestore.

(** ** [calcular_stock_medicamento] *)

(** One iteration of the loop over the streamed movements. *)
Definition acumular_stock (acc : Z * Z) (mov : gmap string value) : result (Z * Z) :=
  let '(ingresos, salidas) := acc in
  let tipo := Py.get mov "tipo" (VStr "") in
  let cantidad := Py.get mov "cantidad" (VInt 0) in
  if Py.eqb tipo (VStr "INGRESO") then
    let+ i := Py.add ingresos cantidad in Ok (i, salidas)
  else if Py.eqb tipo (VStr "SALIDA") then
    let+ s := Py.add salidas cantidad in Ok (ingresos, s)
  else Ok (ingresos, salidas).

Definition calcular_stock_medicamento (medicamento_id : value) : M Z :=
  let* d := read_db in
  match d with
  | None => ret 0
  | Some _ =>
      try_except
        (let* docs := Firestore.stream_movimientos
                        (Firestore.where_eq "medicamento_id" medicamento_id) in
         let* acc := lift (foldM acumular_stock (0, 0) (snd <$> docs)) in
         ret (fst acc - snd acc))
        (fun e => let* _ := print (ErrorCalculandoStock e) in ret 0)
  end.

(** ** Report and analysis data *)

(** The part of the worksheet that the report fills per medication: the
    columns of the two trailing totals and one row per medication, a row
    being its cells by column number ([VNone] is an empty cell).  Titles,
    header texts, merges and styles are not represented. *)
Record workbook : Type := {
  col_demanda : Z;
  col_stock : Z;
  filas : list (gmap Z value)
}.

(** One entry of the demand ranking.  [promedio_diario] keeps the operands
    of [round(cantidad / dias, 2)]. *)
Record entrada_demanda : Type := {
  nombre : value;
  total_dispensado : Z;
  frecuencia : Z;
  promedio_diario : Z * Z
}.

(** ** HTTP responses *)

Inductive payload : Type :=
  | JError (msg : string)
  | JExcepcion (e : exn)
  | JMensaje (msg : string)
  | JMedicamentoAgregado (id nombre : string) (stock_minimo : value)
  | JNoSePuedeEliminar (count : Z)
  | JStockInsuficiente (stock_actual : Z) (cantidad_solicitada : value)
  | JMovimientoRegistrado (id : string)
  | JArchivo (wb : workbook)
  | JDemanda (resultado : list entrada_demanda).

Definition response : Type := payload * Z.

(** The outermost [try ... except Exception as e: return jsonify({'error':
    str(e)}), 500] of a route, run on a process state. *)
Definition route (body : M response) (w : world) : response * world :=
  match body w with
  | (Ok r, w') => (r, w')
  | (Raise e, w') => ((JExcepcion e, 500), w')
  end.

Definition no_disponible : response := (JError "Base de datos no disponible", 500).

(** ** Medication routes *)

(** Firestore's order on field values of different types. *)
Definition value_rank (v : value) : Z :=
  match v with
  | VNone => 0
  | VBool _ => 1
  | VInt _ => 2
  | VTime _ => 3
  | VStr _ => 4
  end.

Definition value_leb (a b : value) : bool :=
  match a, b with
  | VBool x, VBool y => implb x y
  | VInt x, VInt y => x <=? y
  | VTime x, VTime y => x <=? y
  | VStr x, VStr y => String.leb x y
  | _, _ => value_rank a <=? value_rank b
  end.

(** The value of [field] in the last document of an ascending
    [order_by(field)], that is in the first of a descending one; documents
    without the field are not part of the query. *)
Fixpoint max_field (field : string) (c : list (string * gmap string value))
  : option value :=
  match c with
  | [] => None
  | p :: c' =>
      match snd p !! field, max_field field c' with
      | Some v, Some m => Some (if value_leb m v then v else m)
      | Some v, None => Some v
      | None, r => r
      end
  end.

Definition crear_medicamento (data : gmap string value) (new_id : string) (now : Z)
  : world -> response * world :=
  route (
    let* d := read_db in
    match d with
    | None => ret no_disponible
    | Some _ =>
        let* nombre := lift (Py.strip (Py.get data "nombre" (VStr ""))) in
        let stock_minimo := Py.get data "stock_minimo" (VInt 10) in
        if negb (Py.truthy (VStr nombre)) then
          ret (JError "El nombre del medicamento es obligatorio", 400)
        else
        let* bajo := lift (Py.lt_int stock_minimo 1) in
        if bajo then
          ret (JError "El stock mínimo debe ser mayor a 0", 400)
        else
        let* existing := Firestore.stream_medicamentos
                           (Firestore.where_eq "nombre" (VStr nombre)) in
        if 0 <? Z.of_nat (length existing) then
          ret (JError "El medicamento ya existe", 409)
        else
        let* fs := Firestore.client in
        let max_orden :=
          match max_field "orden" (medicamentos fs) with
          | Some v => v
          | None => VInt 0
          end in
        let* orden := lift (Py.add_int max_orden 1) in
        let* _ := Firestore.write_medicamentos
                    (Firestore.add new_id
                       {[ "nombre" := VStr nombre;
                          "stock_minimo" := stock_minimo;
                          "orden" := orden;
                          "fecha_creacion" := VTime now ]}) in
        ret (JMedicamentoAgregado new_id nombre stock_minimo, 201)
    end).

Definition eliminar_medicamento_ruta (id : string) : world -> response * world :=
  route (
    let* d := read_db in
    match d with
    | None => ret no_disponible
    | Some _ =>
        let* movs := Firestore.stream_movimientos
                       (Firestore.where_eq "medicamento_id" (VStr id)) in
        let count := Z.of_nat (length movs) in
        if 0 <? count then
          ret (JNoSePuedeEliminar count, 400)
        else
        let* _ := Firestore.write_medicamentos (Firestore.delete id) in
        ret (JMensaje "Medicamento eliminado exitosamente", 200)
    end).

(** ** Movement routes *)

(** The document that [crear_movimiento] adds. *)
Definition documento_movimiento (data : gmap string value) (now : Z)
  : gmap string value :=
  {[ "tipo" := Py.get_none data "tipo";
     "fecha" := Py.get_none data "fecha";
     "medicamento_id" := Py.get_none data "medicamento_id";
     "cantidad" := Py.get_none data "cantidad";
     "turno" := Py.get_none data "turno";
     "fecha_vencimiento" := Py.get_none data "fecha_vencimiento";
     "observaciones" := Py.get_none data "observaciones";
     "fecha_registro" := VTime now ]}.

Definition crear_movimiento (data : gmap string value) (new_id : string) (now : Z)
  : world -> response * world :=
  route (
    let* d := read_db in
    match d with
    | None => ret no_disponible
    | Some _ =>
        let tipo := Py.get_none data "tipo" in
        let fecha := Py.get_none data "fecha" in
        let medicamento_id := Py.get_none data "medicamento_id" in
        let cantidad := Py.get_none data "cantidad" in
        if negb (Py.all [tipo; fecha; medicamento_id; cantidad]) then
          ret (JError "Datos incompletos", 400)
        else if negb (Py.in_strs tipo ["INGRESO"; "SALIDA"]) then
          ret (JError "Tipo inválido", 400)
        else
        let* no_positiva := lift (Py.le_int cantidad 0) in
        if no_positiva then
          ret (JError "Cantidad debe ser mayor a 0", 400)
        else
        let* insuficiente :=
          (if Py.eqb tipo (VStr "SALIDA") then
             let* stock_actual := calcular_stock_medicamento medicamento_id in
             let* falta := lift (Py.int_lt stock_actual cantidad) in
             ret (if falta then Some stock_actual else None)
           else ret None) in
        match insuficiente with
        | Some stock_actual => ret (JStockInsuficiente stock_actual cantidad, 400)
        | None =>
            let* _ := Firestore.write_movimientos
                        (Firestore.add new_id (documento_movimiento data now)) in
            ret (JMovimientoRegistrado new_id, 201)
        end
    end).

Definition eliminar_movimiento (id : string) : world -> response * world :=
  route (
    let* d := read_db in
    match d with
    | None => ret no_disponible
    | Some _ =>
        let* _ := Firestore.write_movimientos (Firestore.delete id) in
        ret (JMensaje "Movimiento eliminado", 200)
    end).

(** The fields that [actualizar_movimiento] overwrites. *)
Definition update_data (data : gmap string value) : gmap string value :=
  let nueva_cantidad := Py.get_none data "cantidad" in
  let nueva_fecha := Py.get_none data "fecha" in
  let nuevo_turno := Py.get_none data "turno" in
  let update_data : gmap string value :=
    {[ "cantidad" := nueva_cantidad; "fecha" := nueva_fecha ]} in
  if Py.truthy nuevo_turno then <["turno" := nuevo_turno]> update_data
  else update_data.

Definition actualizar_movimiento (id : string) (data : gmap string value)
  : world -> response * world :=
  route (
    let* d := read_db in
    match d with
    | None => ret no_disponible
    | Some _ =>
        let nueva_cantidad := Py.get_none data "cantidad" in
        let nueva_fecha := Py.get_none data "fecha" in
        let nuevo_turno := Py.get_none data "turno" in
        let* invalida :=
          (if negb (Py.truthy nueva_cantidad) then ret true
           else lift (Py.lt_int nueva_cantidad 1)) in
        if invalida then
          ret (JError "Cantidad inválida", 400)
        else if negb (Py.truthy nueva_fecha) then
          ret (JError "Fecha requerida", 400)
        else
        let* mov_doc := Firestore.get_movimiento id in
        match mov_doc with
        | None => ret (JError "Movimiento no encontrado", 404)
        | Some _ =>
            let* _ := Firestore.write_movimientos
                        (Firestore.update id (update_data data)) in
            ret (JMensaje "Movimiento actualizado", 200)
        end
    end).

(** ** Calendar dates

    A [datetime.date] is its proleptic Gregorian ordinal (day 1 is
    0001-01-01), as in the standard library's own [date.toordinal]. *)

Module Fecha.

Definition MAXORDINAL : Z := 3652059.

Definition DAYS_BEFORE_MONTH (month : Z) : Z :=
  nth (Z.to_nat month) [0; 0; 31; 59; 90; 120; 151; 181; 212; 243; 273; 304; 334] 0.

Definition DAYS_IN_MONTH (month : Z) : Z :=
  nth (Z.to_nat month) [0; 31; 28; 31; 30; 31; 30; 31; 31; 30; 31; 30; 31] 0.

(** [_ord2ymd]: ordinal to (year, month, day). *)
Definition ord2ymd (ordinal : Z) : Z * Z * Z :=
  let n := ordinal - 1 in
  let n400 := n / 146097 in
  let n := n mod 146097 in
  let year := n400 * 400 + 1 in
  let n100 := n / 36524 in
  let n := n mod 36524 in
  let n4 := n / 1461 in
  let n := n mod 1461 in
  let n1 := n / 365 in
  let n := n mod 365 in
  let year := year + n100 * 100 + n4 * 4 + n1 in
  if (n1 =? 4) || (n100 =? 4) then (year - 1, 12, 31)
  else
    let leapyear := (n1 =? 3) && (negb (n4 =? 24) || (n100 =? 3)) in
    let month := (n + 50) / 32 in
    let preceding :=
      DAYS_BEFORE_MONTH month + Z.b2z ((2 <? month) && leapyear) in
    if n <? preceding then
      let month := month - 1 in
      let preceding :=
        preceding - (DAYS_IN_MONTH month + Z.b2z ((month =? 2) && leapyear)) in
      (year, month, n - preceding + 1)
    else (year, month, n - preceding + 1).

Definition digit (d : Z) : Ascii.ascii :=
  Ascii.ascii_of_nat (48 + Z.to_nat (d mod 10)).

(** ["%04d-%02d-%02d"] *)
Definition isoformat (ordinal : Z) : string :=
  let '(y, m, d) := ord2ymd ordinal in
  String (digit (y / 1000)) (String (digit (y / 100)) (String (digit (y / 10))
    (String (digit y) (String (Ascii.ascii_of_nat 45) (String (digit (m / 10)) (String (digit m)
      (String (Ascii.ascii_of_nat 45) (String (digit (d / 10)) (String (digit d) EmptyString))))))))).

(** [date + timedelta(days=k)] *)
Definition add_days (ordinal k : Z) : result Z :=
  if (1 <=? ordinal + k) && (ordinal + k <=? MAXORDINAL) then Ok (ordinal + k)
  else Raise OverflowError.

End Fecha.

(** ** Inventory status ([get_inventario]) *)

Inductive estado : Type := AGOTADO | CRITICO | BAJO | OK.

(** The binary64 numbers that the chain meets: [int * 1.5] turns the
    integer into a float, rounding it to 53 significant bits with ties to
    even, and multiplies, rounding again.  The results are integers or
    halves of integers, or an infinity. *)
Module Doble.

Inductive t : Type :=
  | Finito (q : Q)
  | Infinito (negativo : bool).

(** The nearest integer with at most 53 significant bits, ties to even. *)
Definition redondear (n : Z) : Z :=
  let a := Z.abs n in
  let e := Z.log2 a - 52 in
  if e <=? 0 then n
  else
    let q := a / 2 ^ e in
    let r := a mod 2 ^ e in
    let mitad := 2 ^ (e - 1) in
    let q' := if (mitad <? r) || ((r =? mitad) && Z.odd q) then q + 1 else q in
    Z.sgn n * (q' * 2 ^ e).

(** The first power of two that binary64 cannot hold. *)
Definition LIMITE : Z := 2 ^ 1024.

(** [float(n)], the value being an integer: "int too large to convert to
    float" otherwise. *)
Definition de_entero (n : Z) : result Z :=
  let r := redondear n in
  if LIMITE <=? Z.abs r then Raise OverflowError else Ok r.

(** [x * 1.5] for a float [x] whose value is an integer. *)
Definition por_1_5 (x : Z) : t :=
  let r := redondear (3 * x) in
  if 2 * LIMITE <=? Z.abs r then Infinito (r <? 0) else Finito (r # 2).

(** [n <= x] for an [int] [n]: Python compares the two exactly. *)
Definition entero_le (n : Z) (x : t) : bool :=
  match x with
  | Finito q => Qle_bool (inject_Z n) q
  | Infinito negativo => negb negativo
  end.

End Doble.

(** The [if]/[elif] chain that classifies a medication, for an integer
    minimum. *)
Definition get_inventario_estado (stock stock_minimo : Z) : result estado :=
  if stock <=? 0 then Ok AGOTADO
  else if stock <=? stock_minimo then Ok CRITICO
  else
    let+ x := Doble.de_entero stock_minimo in
    if Doble.entero_le stock (Doble.por_1_5 x) then Ok BAJO else Ok OK.

(** The four bands as the specification words them, at one stock and one
    minimum. *)
Definition bandas_exactas (s m : Z) : Prop :=
  (get_inventario_estado s m = Ok AGOTADO <-> s <= 0)
  /\ (get_inventario_estado s m = Ok CRITICO <-> 0 < s <= m)
  /\ (get_inventario_estado s m = Ok BAJO
      <-> m < s /\ (inject_Z s <= (3 # 2) * inject_Z m)%Q)
  /\ (get_inventario_estado s m = Ok OK
      <-> ~ (inject_Z s <= (3 # 2) * inject_Z m)%Q).

(** ** Sorting *)

(** Stable insertion sort: [before y x] says that [y] has to stay in front
    of a later [x]. *)
Fixpoint insert_by {A : Type} (before : A -> A -> bool) (x : A) (l : list A) : list A :=
  match l with
  | [] => [x]
  | y :: l' => if before y x then y :: insert_by before x l' else x :: y :: l'
  end.

Definition sort_by {A : Type} (before : A -> A -> bool) (l : list A) : list A :=
  foldr (insert_by before) [] l.

(** [.order_by(field)]: the documents that have the field, ascending by its
    value and then by identifier. *)
Definition order_by (field : string) (c : list (string * gmap string value))
  : list (string * gmap string value) :=
  let key (p : string * gmap string value) := Py.get_none (snd p) field in
  sort_by
    (fun y x =>
       negb (value_leb (key x) (key y))
       || (value_leb (key y) (key x) && String.ltb (fst y) (fst x)))
    (List.filter (fun p => bool_decide (is_Some (snd p !! field))) c).

(** ** Excel report ([crear_reporte_excel]) *)

Fixpoint mapM {A B : Type} (f : A -> M B) (l : list A) : M (list B) :=
  match l with
  | [] => ret []
  | x :: l' => let* y := f x in let* ys := mapM f l' in ret (y :: ys)
  end.

(** The search for the latest [INGRESO] of a medication. *)
Definition ultimo_ingreso_paso (ultimo_ingreso : option (gmap string value))
    (mov : gmap string value) : result (option (gmap string value)) :=
  if Py.eqb (Py.get_none mov "tipo") (VStr "INGRESO") then
    match ultimo_ingreso with
    | None => Ok (Some mov)
    | Some u =>
        let+ later := Py.gt (Py.get mov "fecha" (VStr ""))
                      (Py.or (Py.get u "fecha" (VStr "")) (VStr "")) in
        Ok (if later then Some mov else ultimo_ingreso)
    end
  else Ok ultimo_ingreso.

(** The cell of one day and one shift: the quantity dispensed. *)
Definition total_turno (movimientos_salida : list (gmap string value))
    (fecha_dia : string) (turno : string) : result Z :=
  foldM (fun total mov =>
           if Py.eqb (Py.get_none mov "fecha") (VStr fecha_dia)
              && Py.eqb (Py.get_none mov "turno") (VStr turno)
           then Py.add total (Py.get mov "cantidad" (VInt 0))
           else Ok total)
        0 movimientos_salida.

(** The three shift cells of one day; the state is the row and [col_idx]. *)
Definition celdas_dia (movimientos_salida : list (gmap string value))
    (fecha_inicio : Z) (acc : gmap Z value * Z) (dia_offset : Z)
  : result (gmap Z value * Z) :=
  let+ fecha_dia := Fecha.add_days fecha_inicio dia_offset in
  foldM (fun (acc : gmap Z value * Z) turno =>
           let+ total := total_turno movimientos_salida (Fecha.isoformat fecha_dia) turno in
           Ok (if 0 <? total then <[snd acc := VInt total]> (fst acc) else fst acc,
               snd acc + 1))
        acc ["M"; "T"; "N"].

(** The demand of the whole period. *)
Definition demanda_periodo (movimientos_salida : list (gmap string value))
    (fecha_inicio fecha_fin : Z) : result Z :=
  foldM (fun demanda mov =>
           let mov_fecha := Py.get mov "fecha" (VStr "") in
           let+ desde := Py.ge mov_fecha (VStr (Fecha.isoformat fecha_inicio)) in
           if desde then
             let+ hasta := Py.le mov_fecha (VStr (Fecha.isoformat fecha_fin)) in
             if hasta then Py.add demanda (Py.get mov "cantidad" (VInt 0))
             else Ok demanda
           else Ok demanda)
        0 movimientos_salida.

(** The characters that a worksheet refuses: the control characters other
    than tab, line feed and carriage return. *)
Definition ilegal (c : Ascii.ascii) : bool :=
  (Py.byte c <=? 8) || ((11 <=? Py.byte c) && (Py.byte c <=? 12))
  || ((14 <=? Py.byte c) && (Py.byte c <=? 31)).

Fixpoint contiene_ilegal (s : string) : bool :=
  match s with
  | EmptyString => false
  | String c s' => ilegal c || contiene_ilegal s'
  end.

(** [s[:n]]: the first [n] characters of a text.  The bytes 128 to 191
    continue the character that the byte before them began. *)
Fixpoint primeros (n : Z) (s : string) : string :=
  match s with
  | EmptyString => EmptyString
  | String c s' =>
      if (128 <=? Py.byte c) && (Py.byte c <=? 191) then String c (primeros n s')
      else if n <=? 0 then EmptyString
      else String c (primeros (n - 1) s')
  end.

(** [cell.value = v]: what the cell holds afterwards.  A text is cut
    after 32767 characters and refused when what is left has a character
    that a worksheet cannot hold. *)
Definition valor_celda (v : value) : result value :=
  match v with
  | VStr s =>
      let s := primeros 32767 s in
      if contiene_ilegal s then Raise IllegalCharacterError else Ok (VStr s)
  | _ => Ok v
  end.

Definition es_tiempo (v : value) : bool :=
  match v with
  | VTime _ => true
  | _ => false
  end.

(** [ws.cell(row=data_row, column=c)]: the cell is created when missing. *)
Definition ws_cell (fila : gmap Z value) (c : Z) : gmap Z value :=
  match fila !! c with
  | Some _ => fila
  | None => <[c := VNone]> fila
  end.

(** The cells of the latest [INGRESO]: its date and, when it has one, its
    expiry date. *)
Definition celdas_ingreso (ultimo_ingreso : option (gmap string value))
    (fila : gmap Z value) : result (gmap Z value) :=
  match ultimo_ingreso with
  | Some u =>
      if bool_decide (u = ∅) then Ok fila
      else
        let+ fecha := valor_celda (Py.get_none u "fecha") in
        let fila := <[2 := fecha]> fila in
        if Py.truthy (Py.get_none u "fecha_vencimiento")
        then
          let+ fecha_vencimiento := valor_celda (Py.get_none u "fecha_vencimiento") in
          Ok (<[3 := fecha_vencimiento]> fila)
        else Ok fila
  | None => Ok fila
  end.

(** The body of the loop over the medications: one row of the sheet. *)
Definition fila_medicamento (fecha_inicio fecha_fin dias col_demanda col_stock : Z)
    (med_doc : string * gmap string value) : M (gmap Z value) :=
  let med := snd med_doc in
  let med_id := fst med_doc in
  let* nombre := lift (valor_celda (Py.get_none med "nombre")) in
  let fila : gmap Z value := {[ 1 := nombre ]} in
  let* movs := Firestore.stream_movimientos
                 (Firestore.where_eq "medicamento_id" (VStr med_id)) in
  let* ultimo_ingreso := lift (foldM ultimo_ingreso_paso None (snd <$> movs)) in
  let* fila := lift (celdas_ingreso ultimo_ingreso fila) in
  let* stock_inicial := calcular_stock_medicamento (VStr med_id) in
  let fila := <[4 := VInt stock_inicial]> fila in
  let* movs := Firestore.stream_movimientos
                 (Firestore.where_eq "medicamento_id" (VStr med_id)) in
  let movimientos_salida :=
    List.filter (fun mov => Py.eqb (Py.get_none mov "tipo") (VStr "SALIDA"))
                (snd <$> movs) in
  let* celdas := lift (foldM (celdas_dia movimientos_salida fecha_inicio)
                             (fila, 5) (seqZ 0 dias)) in
  let fila := fst celdas in
  let* demanda := lift (demanda_periodo movimientos_salida fecha_inicio fecha_fin) in
  let fila := <[col_demanda := VInt demanda]> fila in
  let* stock_actual := calcular_stock_medicamento (VStr med_id) in
  let fila := <[col_stock := VInt stock_actual]> fila in
  ret (foldl ws_cell fila (seqZ 1 col_stock)).

(** [get_column_letter(col)]: a sheet has the columns 1 to 18278. *)
Definition get_column_letter (col : Z) : result unit :=
  if (1 <=? col) && (col <=? 18278) then Ok tt else Raise ValueError.

(** The header of one day: the date, then the three columns [M], [T], [N]. *)
Definition columnas_dia (fecha_inicio col dia_offset : Z) : result Z :=
  let+ _ := Fecha.add_days fecha_inicio dia_offset in
  let+ _ := get_column_letter col in
  let+ _ := get_column_letter (col + 2) in
  let+ _ := get_column_letter (col + 1) in
  Ok (col + 3).

(** The header loop: three columns per day, starting at column 5. *)
Definition columnas_dias (fecha_inicio dias : Z) : result Z :=
  foldM (columnas_dia fecha_inicio) 5 (seqZ 0 dias).

Definition crear_reporte_excel (fecha_inicio fecha_fin : Z) : M (option workbook) :=
  let* d := read_db in
  match d with
  | None => ret None
  | Some _ =>
      try_except
        (let dias := fecha_fin - fecha_inicio + 1 in
         let* col := lift (columnas_dias fecha_inicio dias) in
         let* _ := lift (get_column_letter col) in
         let col_demanda := col in
         let col := col + 1 in
         let* _ := lift (get_column_letter col) in
         let col_stock := col in
         let* meds := Firestore.stream_medicamentos (order_by "orden") in
         let* filas := mapM (fila_medicamento fecha_inicio fecha_fin dias
                                              col_demanda col_stock) meds in
         ret (Some {| col_demanda := col_demanda;
                      col_stock := col_stock;
                      filas := filas |}))
        (fun e => let* _ := print (ErrorCreandoReporte e) in ret None)
  end.

(** [wb.save(output)]: a timestamp that carries a time zone, as those of
    Firestore do, cannot be written to the file. *)
Definition save (wb : workbook) : result unit :=
  if forallb (fun fila : gmap Z value =>
                bool_decide (map_Forall (fun _ v => es_tiempo v = false) fila))
             (filas wb)
  then Ok tt
  else Raise TypeError.

(** The weekly route.  [fecha_inicio] is the query parameter once parsed by
    [strptime], an ordinal between 1 and [Fecha.MAXORDINAL]: [None] when it
    is missing. *)
Definition generar_reporte_semanal_excel (fecha_inicio : option Z)
  : world -> response * world :=
  route (
    match fecha_inicio with
    | None => ret (JError "Fecha de inicio requerida", 400)
    | Some fecha_inicio =>
        let* fecha_fin := lift (Fecha.add_days fecha_inicio 6) in
        let* wb := crear_reporte_excel fecha_inicio fecha_fin in
        match wb with
        | None => ret (JError "Error creando reporte", 500)
        | Some wb => let* _ := lift (save wb) in ret (JArchivo wb, 200)
        end
    end).

(** ** Demand analysis ([analisis_demanda]) *)

(** [demanda[med_id]['cantidad'] += cantidad; demanda[med_id]['frecuencia']
    += 1] on the dictionary kept in insertion order, the entry being
    created first when the key is new. *)
Fixpoint demanda_sumar (med_id cantidad : value) (demanda : list (value * (Z * Z)))
  : result (list (value * (Z * Z))) :=
  match demanda with
  | [] => let+ c := Py.add 0 cantidad in Ok [(med_id, (c, 1))]
  | (k, (c, f)) :: rest =>
      if Py.eqb k med_id then
        let+ c' := Py.add c cantidad in Ok ((k, (c', f + 1)) :: rest)
      else
        let+ rest' := demanda_sumar med_id cantidad rest in Ok ((k, (c, f)) :: rest')
  end.

Definition acumular_demanda (fecha_desde : string) (demanda : list (value * (Z * Z)))
    (mov : gmap string value) : result (list (value * (Z * Z))) :=
  let+ desde := Py.ge (Py.get mov "fecha" (VStr "")) (VStr fecha_desde) in
  if desde then
    demanda_sumar (Py.get_none mov "medicamento_id")
                  (Py.get mov "cantidad" (VInt 0)) demanda
  else Ok demanda.

(** Identifiers that name a document of a collection. *)
Fixpoint has_slash (s : string) : bool :=
  match s with
  | EmptyString => false
  | String c s' => (Nat.eqb (Ascii.nat_of_ascii c) 47) || has_slash s'
  end.

Definition valid_id (s : string) : bool :=
  negb (String.eqb s "") && negb (has_slash s).

(** The elements that [/] separates in an identifier. *)
Fixpoint segmentos (s : string) : list string :=
  match s with
  | EmptyString => [EmptyString]
  | String c s' =>
      if Nat.eqb (Ascii.nat_of_ascii c) 47 then EmptyString :: segmentos s'
      else match segmentos s' with
           | x :: l => String c x :: l
           | [] => [String c EmptyString]
           end
  end.

(** [db.collection('medicamentos').document(med_id).get()].  With [None]
    the client draws a new identifier, whose document does not exist.  The
    client splits a text at its [/] and refuses a path with an odd number
    of elements, the collection included; a path with an even number of
    them names a document of a nested collection, of which the store has
    none, and the backend refuses an empty element.  What is not a text
    cannot be joined to the path. *)
Definition document_medicamento (med_id : value) : M (option (gmap string value)) :=
  match med_id with
  | VNone => let* _ := Firestore.client in ret None
  | VStr s =>
      if valid_id s then Firestore.get_medicamento s
      else if Nat.even (length (segmentos s)) then raise ValueError
      else
        let* _ := Firestore.client in
        if forallb (fun x => negb (String.eqb x "")) (segmentos s) then ret None
        else raise InvalidArgument
  | _ => raise TypeError
  end.

Fixpoint foldM_M {A B : Type} (f : A -> B -> M A) (acc : A) (l : list B) : M A :=
  match l with
  | [] => ret acc
  | x :: l' => let* acc' := f acc x in foldM_M f acc' l'
  end.

Definition resultado_paso (dias : Z) (resultado : list entrada_demanda)
    (item : value * (Z * Z)) : M (list entrada_demanda) :=
  let* med_doc := document_medicamento (fst item) in
  match med_doc with
  | None => ret resultado
  | Some med =>
      if dias =? 0 then raise ZeroDivisionError
      else ret (resultado ++
                  [{| nombre := Py.get med "nombre" (VStr "Desconocido");
                      total_dispensado := fst (snd item);
                      frecuencia := snd (snd item);
                      promedio_diario := (fst (snd item), dias) |}])
  end.

(** The route; [dias] is the parsed query parameter and [hoy] the date of
    [datetime.now()], an ordinal between 1 and [Fecha.MAXORDINAL]. *)
Definition analisis_demanda (dias : Z) (hoy : Z) : world -> response * world :=
  route (
    let* d := read_db in
    match d with
    | None => ret no_disponible
    | Some _ =>
        let* desde := lift (Fecha.add_days hoy (- dias)) in
        let fecha_desde := Fecha.isoformat desde in
        let* movs := Firestore.stream_movimientos
                       (Firestore.where_eq "tipo" (VStr "SALIDA")) in
        let* demanda := lift (foldM (acumular_demanda fecha_desde) [] (snd <$> movs)) in
        let* resultado := foldM_M (resultado_paso dias) [] demanda in
        let resultado :=
          sort_by (fun y x => total_dispensado x <? total_dispensado y) resultado in
        ret (JDemanda (take 10 resultado), 200)
    end).

(** ** The ledger as the specification words it *)

Definition sumZ (l : list Z) : Z := foldr Z.add 0 l.

(** The movement references the medication. *)
Definition referencia (medicamento_id : value) (mov : gmap string value) : bool :=
  bool_decide (mov !! "medicamento_id" = Some medicamento_id).

Definition es_tipo (tipo : string) (mov : gmap string value) : bool :=
  bool_decide (mov !! "tipo" = Some (VStr tipo)).

(** The quantity of a movement; an absent one counts as [0]. *)
Definition cantidad_de (mov : gmap string value) : Z :=
  match Py.as_int (Py.get mov "cantidad" (VInt 0)) with
  | Some q => q
  | None => 0
  end.

(** The quantity, when stored, is a number. *)
Definition cantidad_numerica (mov : gmap string value) : bool :=
  bool_decide (is_Some (Py.as_int (Py.get mov "cantidad" (VInt 0)))).

(** Every movement that references the medication has a numeric quantity. *)
Definition movimientos_numericos (medicamento_id : value)
    (movs : list (string * gmap string value)) : bool :=
  forallb (fun p => implb (referencia medicamento_id (snd p)) (cantidad_numerica (snd p)))
          movs.

(** Sum of the quantities of the movements of kind [tipo] that reference
    the medication. *)
Definition suma_cantidades (tipo : string) (medicamento_id : value)
    (movs : list (string * gmap string value)) : Z :=
  sumZ (cantidad_de <$>
          List.filter (fun mov => referencia medicamento_id mov && es_tipo tipo mov)
                      (snd <$> movs)).

(** [stock = Σ quantity(INCOMING) − Σ quantity(OUTGOING)] *)
Definition stock_of (medicamento_id : value)
    (movs : list (string * gmap string value)) : Z :=
  suma_cantidades "INGRESO" medicamento_id movs
  - suma_cantidades "SALIDA" medicamento_id movs.

(** What a movement adds to the two running sums of the ledger loop. *)
Definition aporte (mov : gmap string value) : Z * Z :=
  if Py.eqb (Py.get mov "tipo" (VStr "")) (VStr "INGRESO") then (cantidad_de mov, 0)
  else if Py.eqb (Py.get mov "tipo" (VStr "")) (VStr "SALIDA") then (0, cantidad_de mov)
  else (0, 0).

(** The ledger loop does not raise on this movement. *)
Definition aporta_sin_error (mov : gmap string value) : bool :=
  implb (Py.in_strs (Py.get mov "tipo" (VStr "")) ["INGRESO"; "SALIDA"])
        (cantidad_numerica mov).

(** A movement whose kind is not counted, or whose quantity is absent. *)
Definition sin_aporte (mov : gmap string value) : Prop :=
  Py.in_strs (Py.get mov "tipo" (VStr "")) ["INGRESO"; "SALIDA"] = false
  \/ mov !! "cantidad" = None.

(** ** Sample data *)

Module Ejemplo.

Definition movimiento (tipo medicamento_id : string) (cantidad : Z)
    (fecha turno : string) : gmap string value :=
  {[ "tipo" := VStr tipo;
     "medicamento_id" := VStr medicamento_id;
     "cantidad" := VInt cantidad;
     "fecha" := VStr fecha;
     "turno" := VStr turno ]}.

Definition medicamento (nombre : string) (stock_minimo orden : Z)
  : gmap string value :=
  {[ "nombre" := VStr nombre;
     "stock_minimo" := VInt stock_minimo;
     "orden" := VInt orden ]}.

(** Two medications; ten units of the first came in and five went out. *)
Definition fs : firestore :=
  {| reachable := true;
     medicamentos := [("m1", medicamento "Atropina" 10 1);
                      ("m2", medicamento "Morfina" 10 2)];
     movimientos := [("a", movimiento "INGRESO" "m1" 10 "2024-01-01" "M");
                     ("b", movimiento "SALIDA" "m1" 3 "2024-01-02" "T");
                     ("c", movimiento "SALIDA" "m2" 3 "2024-01-03" "N");
                     ("d", movimiento "SALIDA" "m1" 2 "2024-01-10" "N")] |}.

Definition w : world := {| db := Some fs; consola := [] |}.

(** The JSON body of a request that dispenses [cantidad] units. *)
Definition peticion_salida (medicamento_id : string) (cantidad : Z)
  : gmap string value :=
  {[ "tipo" := VStr "SALIDA";
     "fecha" := VStr "2024-01-11";
     "medicamento_id" := VStr medicamento_id;
     "cantidad" := VInt cantidad ]}.

(** The JSON body of a request that registers a medication. *)
Definition peticion_medicamento (nombre : string) (stock_minimo : Z)
  : gmap string value :=
  {[ "nombre" := VStr nombre; "stock_minimo" := VInt stock_minimo ]}.

(** The JSON body of a request that rewrites a movement. *)
Definition peticion_actualizar (cantidad : Z) : gmap string value :=
  {[ "cantidad" := VInt cantidad; "fecha" := VStr "2024-01-02" ]}.

(** A movement without kind or quantity. *)
Definition movimiento_vacio : gmap string value :=
  {[ "medicamento_id" := VStr "m1" ]}.

(** A stored quantity that is a text. *)
Definition movimiento_texto : gmap string value :=
  {[ "tipo" := VStr "INGRESO";
     "medicamento_id" := VStr "m1";
     "cantidad" := VStr "diez" ]}.

Definition w_texto : world :=
  {| db := Some {| reachable := true;
                   medicamentos := medicamentos fs;
                   movimientos := [("x", movimiento_texto)] |};
     consola := [] |}.

(** Today is 2024-01-15 (ordinal 738900).  One unit of [m1] went out
    inside the last 30 days and four are dated next March. *)
Definition hoy : Z := 738900.

Definition fs_futuro : firestore :=
  {| reachable := true;
     medicamentos := [("m1", medicamento "Atropina" 10 1)];
     movimientos := [("a", movimiento "SALIDA" "m1" 1 "2024-01-10" "M");
                     ("b", movimiento "SALIDA" "m1" 4 "2024-03-01" "M")] |}.

(** Firebase was not initialised. *)
Definition w_sin_db : world := {| db := None; consola := [] |}.

(** The backend does not answer. *)
Definition w_caido : world :=
  {| db := Some {| reachable := false;
                   medicamentos := medicamentos fs;
                   movimientos := movimientos fs |};
     consola := [] |}.

End Ejemplo.

(** ** The ledger's failure policy as the specification words it *)

(** The storage cannot be read: there is no client, or the backend does not
    answer. *)
Definition inalcanzable (w : world) : Prop :=
  match db w with
  | None => True
  | Some fs => reachable fs = false
  end.

(** Every movement of the medication that the ledger counts has a numeric
    quantity. *)
Definition cantidades_contables (medicamento_id : value)
    (movs : list (string * gmap string value)) : bool :=
  forallb (fun p => implb (referencia medicamento_id (snd p)) (aporta_sin_error (snd p)))
          movs.

(** "Fails only if the underlying storage is unreachable, in which case it
    returns a neutral value and logs, rather than propagating an error." *)
Definition falla_solo_si_inalcanzable (w : world) (medicamento_id : value) : Prop :=
  (exists z : Z, fst (calcular_stock_medicamento medicamento_id w) = Ok z)
  /\ (inalcanzable w ->
      exists e : exn,
        calcular_stock_medicamento medicamento_id w
        = (Ok 0, {| db := db w; consola := consola w ++ [ErrorCalculandoStock e] |}))
  /\ (~ inalcanzable w ->
      consola (snd (calcular_stock_medicamento medicamento_id w)) = consola w).

(** ** Well-formed medication collections *)

(** A stored medication already has this name. *)
Definition nombre_registrado (nombre : string)
    (meds : list (string * gmap string value)) : bool :=
  existsb (fun p => bool_decide (snd p !! "nombre" = Some (VStr nombre))) meds.

(** Every display order that is stored is a number. *)
Definition ordenes_numericos (meds : list (string * gmap string value)) : bool :=
  forallb (fun p => match snd p !! "orden" with
                    | Some v => bool_decide (is_Some (Py.as_int v))
                    | None => true
                    end) meds.

(** The display order given to a new medication: one more than the largest
    stored one, [1] when there is none. *)
Definition siguiente_orden (meds : list (string * gmap string value)) : Z :=
  match max_field "orden" meds with
  | Some v => match Py.as_int v with Some z => z + 1 | None => 0 end
  | None => 1
  end.

(** ** The demand ranking, in words *)

(** The date of the movement is a text that is not before [fecha_desde]. *)
Definition desde (fecha_desde : string) (mov : gmap string value) : bool :=
  match Py.get mov "fecha" (VStr "") with
  | VStr f => negb (String.ltb f fecha_desde)
  | _ => false
  end.

(** The [SALIDA] movements of a medication dated [fecha_desde] or later. *)
Definition salidas_desde (fecha_desde : string) (id : string)
    (movs : list (string * gmap string value)) : list (gmap string value) :=
  List.filter (fun mov => es_tipo "SALIDA" mov && desde fecha_desde mov
                          && referencia (VStr id) mov)
              (snd <$> movs).

Definition total_desde (fecha_desde : string) (id : string)
    (movs : list (string * gmap string value)) : Z :=
  sumZ (cantidad_de <$> salidas_desde fecha_desde id movs).

Definition frecuencia_desde (fecha_desde : string) (id : string)
    (movs : list (string * gmap string value)) : Z :=
  Z.of_nat (length (salidas_desde fecha_desde id movs)).

(** The entry of the ranking for the medication [id]. *)
Definition entrada_de (fs : firestore) (fecha_desde : string) (dias : Z) (id : string)
  : entrada_demanda :=
  {| nombre := match Firestore.lookup id (medicamentos fs) with
               | Some med => Py.get med "nombre" (VStr "Desconocido")
               | None => VNone
               end;
     total_dispensado := total_desde fecha_desde id (movimientos fs);
     frecuencia := frecuencia_desde fecha_desde id (movimientos fs);
     promedio_diario := (total_desde fecha_desde id (movimientos fs), dias) |}.

(** A [SALIDA] has a text (or no) date and, when it is dated [fecha_desde]
    or later, a numeric quantity and the identifier of a document as its
    medication. *)
Definition salida_bien_formada (fecha_desde : string) (mov : gmap string value) : bool :=
  implb (es_tipo "SALIDA" mov)
        (match Py.get mov "fecha" (VStr "") with
         | VStr _ =>
             implb (desde fecha_desde mov)
                   (cantidad_numerica mov
                    && match Py.get_none mov "medicamento_id" with
                       | VStr s => valid_id s
                       | _ => false
                       end)
         | _ => false
         end).

(** The trailing window of the specification: from [hoy - dias] to [hoy]. *)
Definition en_ventana (hoy dias : Z) (mov : gmap string value) : bool :=
  desde (Fecha.isoformat (hoy - dias)) mov
  && match Py.get mov "fecha" (VStr "") with
     | VStr f => negb (String.ltb (Fecha.isoformat hoy) f)
     | _ => false
     end.

Definition salidas_en_ventana (hoy dias : Z) (id : string)
    (movs : list (string * gmap string value)) : list (gmap string value) :=
  List.filter (fun mov => es_tipo "SALIDA" mov && en_ventana hoy dias mov
                          && referencia (VStr id) mov)
              (snd <$> movs).

(** "Aggregates OUTGOING movements whose date falls within the trailing
    window, grouped by medication, sorted descending by total dispensed,
    truncated to top 10": every entry of the answer is the entry of a
    stored medication whose total and frequency are those of its [SALIDA]
    movements dated inside the window. *)
Definition demanda_en_ventana (fs : firestore) (dias hoy : Z) : Prop :=
  forall (resultado : list entrada_demanda) (code : Z) (w' : world),
    analisis_demanda dias hoy {| db := Some fs; consola := [] |}
      = ((JDemanda resultado, code), w') ->
    (length resultado <= 10)%nat
    /\ forall e : entrada_demanda, e ∈ resultado ->
         exists (id : string) (med : gmap string value),
           Firestore.lookup id (medicamentos fs) = Some med
           /\ nombre e = Py.get med "nombre" (VStr "Desconocido")
           /\ total_dispensado e
              = sumZ (cantidad_de <$> salidas_en_ventana hoy dias id (movimientos fs))
           /\ frecuencia e
              = Z.of_nat (length (salidas_en_ventana hoy dias id (movimientos fs))).

(** ** Grouping by key *)

(** The pure counterpart of [demanda_sumar] on text keys. *)
Fixpoint sumar_par (k : string) (q : Z) (d : list (string * (Z * Z)))
  : list (string * (Z * Z)) :=
  match d with
  | [] => [(k, (q, 1))]
  | (k', (c, f)) :: rest =>
      if String.eqb k' k then (k', (c + q, f + 1)) :: rest
      else (k', (c, f)) :: sumar_par k q rest
  end.

Definition agrupar (pares : list (string * Z)) (d : list (string * (Z * Z)))
  : list (string * (Z * Z)) :=
  foldl (fun d p => sumar_par (fst p) (snd p) d) d pares.

(** Lookup in an association list. *)
Fixpoint buscar (k : string) (d : list (string * (Z * Z))) : option (Z * Z) :=
  match d with
  | [] => None
  | (k', v) :: rest => if String.eqb k' k then Some v else buscar k rest
  end.

(** The medication a movement names, when it is a text. *)
Definition id_de (mov : gmap string value) : string :=
  match Py.get_none mov "medicamento_id" with
  | VStr s => s
  | _ => ""
  end.

(** The (key, quantity) pairs that the first loop of [analisis_demanda]
    adds up. *)
Definition pares_desde (fecha_desde : string) (movs : list (gmap string value))
  : list (string * Z) :=
  (fun mov => (id_de mov, cantidad_de mov)) <$> List.filter (desde fecha_desde) movs.

(** The dictionary with its keys as Python values. *)
Definition claves_py (d : list (string * (Z * Z))) : list (value * (Z * Z)) :=
  (fun p => (VStr (fst p), snd p)) <$> d.

(** Sum and number of the quantities paired with a key. *)
Definition suma_clave (k : string) (pares : list (string * Z)) : Z :=
  sumZ (snd <$> List.filter (fun p => String.eqb (fst p) k) pares).

Definition cuenta_clave (k : string) (pares : list (string * Z)) : Z :=
  Z.of_nat (length (List.filter (fun p => String.eqb (fst p) k) pares)).

(** What the second loop of [analisis_demanda] appends for one key. *)
Definition entrada_par (fs : firestore) (dias : Z) (p : string * (Z * Z))
  : option entrada_demanda :=
  match Firestore.lookup (fst p) (medicamentos fs) with
  | Some med =>
      Some {| nombre := Py.get med "nombre" (VStr "Desconocido");
              total_dispensado := fst (snd p);
              frecuencia := snd (snd p);
              promedio_diario := (fst (snd p), dias) |}
  | None => None
  end.

(** ** Movements that the report can read *)

(** The date is a text or is absent, and the quantity is a number or is
    absent. *)
Definition movimiento_legible (mov : gmap string value) : bool :=
  match mov !! "fecha" with
  | None | Some (VStr _) => true
  | Some _ => false
  end
  && cantidad_numerica mov.

(** ** Further sample data *)

Module Casos.

(** The JSON body of a request that takes [cantidad] units in. *)
Definition peticion_ingreso (medicamento_id : string) (cantidad : Z)
  : gmap string value :=
  {[ "tipo" := VStr "INGRESO";
     "fecha" := VStr "2024-01-11";
     "medicamento_id" := VStr medicamento_id;
     "cantidad" := VInt cantidad ]}.

End Casos.

(** ** Names of the stored medications *)

(** The names stored in a collection of medications, in streaming order. *)
Definition nombres (meds : list (string * gmap string value)) : list value :=
  omap (fun p => snd p !! "nombre") meds.

(** ** Routes that answer with data *)

(** The outermost [try]/[except] of a route whose normal answer is a JSON
    document of type [A] with status 200 ([inl]); [inr] is an error
    answer with its status. *)
Definition route_de {A : Type} (body : M (A + response)) (w : world)
  : (A + response) * world :=
  match body w with
  | (Ok r, w') => (r, w')
  | (Raise e, w') => (inr (JExcepcion e, 500), w')
  end.

(** [data = doc.to_dict(); data['id'] = doc.id] *)
Definition con_id (p : string * gmap string value) : gmap string value :=
  <["id" := VStr (fst p)]> (snd p).

Definition get_medicamentos : world -> (list (gmap string value) + response) * world :=
  route_de (
    let* d := read_db in
    match d with
    | None => ret (inr no_disponible)
    | Some _ =>
        let* docs := Firestore.stream_medicamentos (order_by "orden") in
        ret (inl (con_id <$> docs))
    end).

(** ** [actualizar_medicamento_ruta] *)

(** Errors of the Firestore client that are not built-in exceptions:
    [update] on a document that does not exist. *)
Inductive api_error : Type := NotFound.

(** [db.collection('medicamentos').document(id).update(fields)]; a
    [NotFound] is handed on as a value. *)
Definition update_medicamento (id : string) (fields : gmap string value)
  : M (option api_error) :=
  let* doc := Firestore.get_medicamento id in
  match doc with
  | None => ret (Some NotFound)
  | Some _ =>
      let* _ := Firestore.write_medicamentos (Firestore.update id fields) in
      ret None
  end.

(** The fields that [actualizar_medicamento_ruta] overwrites. *)
Definition update_data_medicamento (nombre : string) (stock_minimo : value)
  : gmap string value :=
  let update_data : gmap string value := {[ "nombre" := VStr nombre ]} in
  if bool_decide (stock_minimo = VNone) then update_data
  else <["stock_minimo" := stock_minimo]> update_data.

(** The answer is a payload, or the [NotFound] that the handler of the
    route turns into a 500. *)
Definition actualizar_medicamento_ruta (id : string) (data : gmap string value)
    (w : world) : ((payload + api_error) * Z) * world :=
  match
    (let* d := read_db in
     match d with
     | None => ret (inl (fst no_disponible), snd no_disponible)
     | Some _ =>
         let* nombre := lift (Py.strip (Py.get data "nombre" (VStr ""))) in
         let stock_minimo := Py.get_none data "stock_minimo" in
         if negb (Py.truthy (VStr nombre)) then
           ret (inl (JError "El nombre del medicamento es obligatorio"), 400)
         else
         let* bajo :=
           (if bool_decide (stock_minimo = VNone) then ret false
            else lift (Py.lt_int stock_minimo 1)) in
         if bajo then
           ret (inl (JError "El stock mínimo debe ser mayor a 0"), 400)
         else
         let* err := update_medicamento id
                       (update_data_medicamento nombre stock_minimo) in
         match err with
         | Some e => ret (inr e, 500)
         | None => ret (inl (JMensaje "Medicamento actualizado exitosamente"), 200)
         end
     end) w
  with
  | (Ok r, w') => (r, w')
  | (Raise e, w') => ((inl (JExcepcion e), 500), w')
  end.

(** Every display order that is stored is an [int]. *)
Definition ordenes_enteros (meds : list (string * gmap string value)) : bool :=
  forallb (fun p => match snd p !! "orden" with
                    | Some (VInt _) | None => true
                    | Some _ => false
                    end) meds.

(** ** The other report routes *)

(** The fortnightly workbook: the period ends 14 days after its start. *)
Definition generar_reporte_quincenal_excel (fecha_inicio : option Z)
  : world -> response * world :=
  route (
    match fecha_inicio with
    | None => ret (JError "Fecha de inicio requerida", 400)
    | Some fecha_inicio =>
        let* fecha_fin := lift (Fecha.add_days fecha_inicio 14) in
        let* wb := crear_reporte_excel fecha_inicio fecha_fin in
        match wb with
        | None => ret (JError "Error creando reporte", 500)
        | Some wb => let* _ := lift (save wb) in ret (JArchivo wb, 200)
        end
    end).

(** [.limit(n)] for the literal [20]. *)
Definition limit (n : nat) (c : list (string * gmap string value))
  : list (string * gmap string value) :=
  take n c.

(** The [SALIDA] movements of a medication, collected by the weekly PDF. *)
Definition movimientos_salida_de (med_id : string) : M (list (gmap string value)) :=
  let* movs := Firestore.stream_movimientos
                 (Firestore.where_eq "medicamento_id" (VStr med_id)) in
  ret (List.filter (fun mov => Py.eqb (Py.get_none mov "tipo") (VStr "SALIDA"))
                   (snd <$> movs)).

(** The demand of one day in the weekly PDF. *)
Definition demanda_dia (movimientos_salida : list (gmap string value))
    (fecha_dia : string) : result Z :=
  foldM (fun demanda_dia mov =>
           if Py.eqb (Py.get_none mov "fecha") (VStr fecha_dia)
           then Py.add demanda_dia (Py.get mov "cantidad" (VInt 0))
           else Ok demanda_dia)
        0 movimientos_salida.

(** The loop over the seven days: the state is the row and the running
    total. *)
Definition dia_pdf (movimientos_salida : list (gmap string value)) (fecha_inicio : Z)
    (acc : list value * Z) (i : Z) : result (list value * Z) :=
  let+ fecha_dia := Fecha.add_days fecha_inicio i in
  let+ demanda := demanda_dia movimientos_salida (Fecha.isoformat fecha_dia) in
  Ok (fst acc ++ [VInt demanda], snd acc + demanda).

(** One row of the table of the weekly PDF. *)
Definition fila_pdf_semanal (fecha_inicio : Z) (med_doc : string * gmap string value)
  : M (list value) :=
  let med := snd med_doc in
  let med_id := fst med_doc in
  let* stock_inicial := calcular_stock_medicamento (VStr med_id) in
  let row := [Py.get med "nombre" (VStr "N/A"); VInt stock_inicial] in
  let* movimientos_salida := movimientos_salida_de med_id in
  let* acc := lift (foldM (dia_pdf movimientos_salida fecha_inicio) (row, 0)
                          (seqZ 0 7)) in
  let row := fst acc in
  let total_demanda := snd acc in
  let row := row ++ [VInt total_demanda] in
  let stock_final := stock_inicial - total_demanda in
  ret (row ++ [VInt stock_final]).

(** The weekly PDF: the answer is the table below its header row.  The
    route does not look at [db] before it uses it. *)
Definition generar_reporte_semanal_pdf (fecha_inicio : option Z)
  : world -> (list (list value) + response) * world :=
  route_de (
    match fecha_inicio with
    | None => ret (inr (JError "Fecha de inicio requerida", 400))
    | Some fecha_inicio =>
        let* fecha_fin := lift (Fecha.add_days fecha_inicio 6) in
        let* meds := Firestore.stream_medicamentos
                       (fun c => limit 20 (order_by "orden" c)) in
        let* data := mapM (fila_pdf_semanal fecha_inicio) meds in
        ret (inl data)
    end).

(** The sum of the [SALIDA] movements dated between two days, both
    included: the total of the fortnightly PDF and the month's total of the
    inventory. *)
Definition sumar_salidas_entre (fecha_inicio fecha_fin : Z)
    (movs : list (gmap string value)) : result Z :=
  foldM (fun total_demanda mov =>
           if Py.eqb (Py.get_none mov "tipo") (VStr "SALIDA") then
             let+ desde := Py.ge (Py.get mov "fecha" (VStr ""))
                                 (VStr (Fecha.isoformat fecha_inicio)) in
             if desde then
               let+ hasta := Py.le (Py.get mov "fecha" (VStr ""))
                                   (VStr (Fecha.isoformat fecha_fin)) in
               if hasta then Py.add total_demanda (Py.get mov "cantidad" (VInt 0))
               else Ok total_demanda
             else Ok total_demanda
           else Ok total_demanda)
        0 movs.

(** One row of the table of the fortnightly PDF. *)
Definition fila_pdf_quincenal (fecha_inicio fecha_fin : Z)
    (med_doc : string * gmap string value) : M (list value) :=
  let med := snd med_doc in
  let med_id := fst med_doc in
  let* stock_inicial := calcular_stock_medicamento (VStr med_id) in
  let* movs := Firestore.stream_movimientos
                 (Firestore.where_eq "medicamento_id" (VStr med_id)) in
  let* total_demanda :=
    lift (sumar_salidas_entre fecha_inicio fecha_fin (snd <$> movs)) in
  let stock_final := stock_inicial - total_demanda in
  ret [Py.get med "nombre" (VStr "N/A"); VInt stock_inicial; VInt total_demanda;
       VInt stock_final].

Definition generar_reporte_quincenal_pdf (fecha_inicio : option Z)
  : world -> (list (list value) + response) * world :=
  route_de (
    match fecha_inicio with
    | None => ret (inr (JError "Fecha de inicio requerida", 400))
    | Some fecha_inicio =>
        let* fecha_fin := lift (Fecha.add_days fecha_inicio 14) in
        let* meds := Firestore.stream_medicamentos (order_by "orden") in
        let* data := mapM (fila_pdf_quincenal fecha_inicio fecha_fin) meds in
        ret (inl data)
    end).

(** The date of the movement is a text between the two days, both
    included. *)
Definition en_periodo (fecha_inicio fecha_fin : Z) (mov : gmap string value) : bool :=
  match Py.get mov "fecha" (VStr "") with
  | VStr f =>
      negb (String.ltb f (Fecha.isoformat fecha_inicio))
      && String.leb f (Fecha.isoformat fecha_fin)
  | _ => false
  end.

(** The demand of a medication in a period: the sum of the quantities of
    its [SALIDA] movements dated in the period. *)
Definition demanda_de (fs : firestore) (fecha_inicio fecha_fin : Z) (med_id : string)
  : Z :=
  sumZ (cantidad_de <$>
          List.filter (fun mov => referencia (VStr med_id) mov && es_tipo "SALIDA" mov
                                  && en_periodo fecha_inicio fecha_fin mov)
                      (snd <$> movimientos fs)).

(** What a row of the workbook holds for its medication in a given store:
    the stock that the ledger derives, twice, and the demand of the
    period. *)
Definition fila_de (fs : firestore) (fecha_inicio fecha_fin col_demanda col_stock : Z)
    (med_doc : string * gmap string value) (fila : gmap Z value) : Prop :=
  exists stock : Z,
    fst (calcular_stock_medicamento (VStr (fst med_doc)) {| db := Some fs; consola := [] |})
    = Ok stock
    /\ fila !! 4 = Some (VInt stock)
    /\ fila !! col_demanda = Some (VInt (demanda_de fs fecha_inicio fecha_fin (fst med_doc)))
    /\ fila !! col_stock = Some (VInt stock).

(** What a row of the weekly PDF holds for its medication in a given
    store: the name, the stock the ledger derives, the demand of each of
    the seven days, their sum, and the stock less that sum. *)
Definition fila_pdf_semanal_de (fs : firestore) (fecha_inicio : Z)
    (med_doc : string * gmap string value) (row : list value) : Prop :=
  exists (stock : Z) (dias : list Z),
    fst (calcular_stock_medicamento (VStr (fst med_doc)) {| db := Some fs; consola := [] |})
    = Ok stock
    /\ length dias = 7%nat
    /\ Forall2 (fun i demanda =>
                  demanda_dia
                    (List.filter
                       (fun mov => Py.eqb (Py.get_none mov "tipo") (VStr "SALIDA"))
                       (snd <$> Firestore.where_eq "medicamento_id" (VStr (fst med_doc))
                                  (movimientos fs)))
                    (Fecha.isoformat (fecha_inicio + i)) = Ok demanda)
               (seqZ 0 7) dias
    /\ row = [Py.get (snd med_doc) "nombre" (VStr "N/A"); VInt stock]
             ++ (VInt <$> dias) ++ [VInt (sumZ dias); VInt (stock - sumZ dias)].

(** What a row of the fortnightly PDF holds. *)
Definition fila_pdf_quincenal_de (fs : firestore) (fecha_inicio fecha_fin : Z)
    (med_doc : string * gmap string value) (row : list value) : Prop :=
  exists stock : Z,
    fst (calcular_stock_medicamento (VStr (fst med_doc)) {| db := Some fs; consola := [] |})
    = Ok stock
    /\ row = [Py.get (snd med_doc) "nombre" (VStr "N/A"); VInt stock;
              VInt (demanda_de fs fecha_inicio fecha_fin (fst med_doc));
              VInt (stock - demanda_de fs fecha_inicio fecha_fin (fst med_doc))].

(** ** Statistics and inventory *)

(** [n <= v] for an [int] [n]. *)
Definition int_le (n : Z) (v : value) : result bool :=
  match Py.as_int v with
  | Some z => Ok (n <=? z)
  | None => Raise TypeError
  end.

(** The answer of [get_estadisticas]. *)
Record estadisticas : Type := {
  total_medicamentos : Z;
  alertas_stock_bajo : Z;
  movimientos_hoy : Z
}.

(** One iteration of the loop that counts the alerts. *)
Definition alerta_paso (alertas : Z) (med_doc : string * gmap string value) : M Z :=
  let med := snd med_doc in
  let* stock := calcular_stock_medicamento (VStr (fst med_doc)) in
  let* bajo := lift (int_le stock (Py.get med "stock_minimo" (VInt 10))) in
  ret (if bajo then alertas + 1 else alertas).

(** The route; [hoy] is the date of [datetime.now()]. *)
Definition get_estadisticas (hoy : Z) : world -> (estadisticas + response) * world :=
  route_de (
    let* d := read_db in
    match d with
    | None => ret (inr no_disponible)
    | Some _ =>
        let* meds := Firestore.stream_medicamentos (fun c => c) in
        let total_medicamentos := Z.of_nat (length meds) in
        let* meds := Firestore.stream_medicamentos (fun c => c) in
        let* alertas := foldM_M alerta_paso 0 meds in
        let hoy := Fecha.isoformat hoy in
        let* movs := Firestore.stream_movimientos
                       (Firestore.where_eq "fecha" (VStr hoy)) in
        ret (inl {| total_medicamentos := total_medicamentos;
                    alertas_stock_bajo := alertas;
                    movimientos_hoy := Z.of_nat (length movs) |})
    end).

(** [v * 1.5] in binary64. *)
Definition mul_1_5 (v : value) : result Doble.t :=
  match Py.as_int v with
  | Some z => let+ x := Doble.de_entero z in Ok (Doble.por_1_5 x)
  | None => Raise TypeError
  end.

(** The [if]/[elif] chain of [get_inventario] on the stored minimum. *)
Definition estado_de (stock : Z) (stock_minimo : value) : result estado :=
  if stock <=? 0 then Ok AGOTADO
  else
    let+ critico := int_le stock stock_minimo in
    if critico then Ok CRITICO
    else
      let+ limite := mul_1_5 stock_minimo in
      if Doble.entero_le stock limite then Ok BAJO else Ok OK.

(** The search for the latest [INGRESO]: its date and its remark. *)
Definition ultimo_ingreso_inventario (ultimo_ingreso : option (value * value))
    (mov : gmap string value) : result (option (value * value)) :=
  if Py.eqb (Py.get_none mov "tipo") (VStr "INGRESO") then
    match ultimo_ingreso with
    | None => Ok (Some (Py.get_none mov "fecha", Py.get_none mov "observaciones"))
    | Some u =>
        let+ later := Py.gt (Py.get mov "fecha" (VStr "")) (Py.or (fst u) (VStr "")) in
        Ok (if later
            then Some (Py.get_none mov "fecha", Py.get_none mov "observaciones")
            else ultimo_ingreso)
    end
  else Ok ultimo_ingreso.

Module Mes.

Definition is_leap (year : Z) : bool :=
  (year mod 4 =? 0) && (negb (year mod 100 =? 0) || (year mod 400 =? 0)).

Definition days_before_year (year : Z) : Z :=
  let y := year - 1 in
  y * 365 + y / 4 - y / 100 + y / 400.

Definition days_before_month (year month : Z) : Z :=
  Fecha.DAYS_BEFORE_MONTH month + Z.b2z ((2 <? month) && is_leap year).

(** [_ymd2ord] *)
Definition ymd2ord (year month day : Z) : Z :=
  days_before_year year + days_before_month year month + day.

(** [datetime(hoy.year, hoy.month, 1)] *)
Definition primer_dia (hoy : Z) : Z :=
  let '(year, month, _) := Fecha.ord2ymd hoy in
  ymd2ord year month 1.

(** [(datetime(hoy.year, hoy.month, 1) + timedelta(days=31)).replace(day=1)
    - timedelta(days=1)] *)
Definition ultimo_dia (hoy : Z) : result Z :=
  let+ siguiente := Fecha.add_days (primer_dia hoy) 31 in
  let '(year, month, _) := Fecha.ord2ymd siguiente in
  Fecha.add_days (ymd2ord year month 1) (-1).

End Mes.

(** One entry of the inventory. *)
Record entrada_inventario : Type := {
  inv_id : string;
  inv_nombre : value;
  inv_stock_actual : Z;
  inv_stock_minimo : value;
  inv_estado : estado;
  inv_ultimo_ingreso : option (value * value);
  inv_egresos_mes : Z
}.

(** The body of the loop over the medications. *)
Definition entrada_inventario_de (hoy : Z) (med_doc : string * gmap string value)
  : M entrada_inventario :=
  let med := snd med_doc in
  let med_id := fst med_doc in
  let* stock := calcular_stock_medicamento (VStr med_id) in
  let stock_minimo := Py.get med "stock_minimo" (VInt 10) in
  let* estado := lift (estado_de stock stock_minimo) in
  let* movs := Firestore.stream_movimientos
                 (Firestore.where_eq "medicamento_id" (VStr med_id)) in
  let* ultimo_ingreso := lift (foldM ultimo_ingreso_inventario None (snd <$> movs)) in
  let primer_dia := Mes.primer_dia hoy in
  let* ultimo_dia := lift (Mes.ultimo_dia hoy) in
  let* movs := Firestore.stream_movimientos
                 (Firestore.where_eq "medicamento_id" (VStr med_id)) in
  let* egresos_mes := lift (sumar_salidas_entre primer_dia ultimo_dia (snd <$> movs)) in
  ret {| inv_id := med_id;
         inv_nombre := Py.get_none med "nombre";
         inv_stock_actual := stock;
         inv_stock_minimo := stock_minimo;
         inv_estado := estado;
         inv_ultimo_ingreso := ultimo_ingreso;
         inv_egresos_mes := egresos_mes |}.

(** The route; [hoy] is the date of [datetime.now()]. *)
Definition get_inventario (hoy : Z)
  : world -> (list entrada_inventario + response) * world :=
  route_de (
    let* d := read_db in
    match d with
    | None => ret (inr no_disponible)
    | Some _ =>
        let* meds := Firestore.stream_medicamentos (order_by "orden") in
        let* inventario := mapM (entrada_inventario_de hoy) meds in
        ret (inl inventario)
    end).

(** The states that the statistics count as an alert. *)
Definition estado_alerta (e : estado) : bool :=
  match e with
  | AGOTADO | CRITICO => true
  | BAJO | OK => false
  end.

(** The medication counts as an alert in [get_estadisticas]. *)
Definition en_alerta (fs : firestore) (med_doc : string * gmap string value) : bool :=
  match fst (calcular_stock_medicamento (VStr (fst med_doc))
               {| db := Some fs; consola := [] |}),
        Py.as_int (Py.get (snd med_doc) "stock_minimo" (VInt 10)) with
  | Ok stock, Some stock_minimo => stock <=? stock_minimo
  | _, _ => false
  end.

(** Every stored medication has a display order. *)
Definition todos_con_orden (meds : list (string * gmap string value)) : bool :=
  forallb (fun p => bool_decide (is_Some (snd p !! "orden"))) meds.

(** Every minimum stock, the default of 10 included, is a number that is
    not negative. *)
Definition minimos_no_negativos (meds : list (string * gmap string value)) : bool :=
  forallb (fun p => match Py.as_int (Py.get (snd p) "stock_minimo" (VInt 10)) with
                    | Some stock_minimo => 0 <=? stock_minimo
                    | None => false
                    end) meds.

(** What an entry of the inventory holds for its medication in a given
    store. *)
Definition entrada_de_medicamento (fs : firestore)
    (med_doc : string * gmap string value) (e : entrada_inventario) : Prop :=
  inv_id e = fst med_doc
  /\ inv_nombre e = Py.get_none (snd med_doc) "nombre"
  /\ inv_stock_minimo e = Py.get (snd med_doc) "stock_minimo" (VInt 10)
  /\ fst (calcular_stock_medicamento (VStr (fst med_doc))
            {| db := Some fs; consola := [] |}) = Ok (inv_stock_actual e)
  /\ estado_de (inv_stock_actual e) (inv_stock_minimo e) = Ok (inv_estado e).


(** ** Values that the workbook can hold *)

(** The value can be put in a cell and written to the file: a text has no
    character that a worksheet refuses among its first 32767, and the
    value is not a timestamp. *)
Definition celda_valida (v : value) : bool :=
  match valor_celda v with
  | Ok v' => negb (es_tiempo v')
  | Raise _ => false
  end.

(** The cells that the report takes from a medication and from a
    movement can be written. *)
Definition medicamento_escribible (med : gmap string value) : bool :=
  celda_valida (Py.get_none med "nombre").

Definition movimiento_escribible (mov : gmap string value) : bool :=
  celda_valida (Py.get_none mov "fecha")
  && celda_valida (Py.get_none mov "fecha_vencimiento").

(** * Properties *)

(** ** Generic facts *)

Lemma filter_Permutation {A : Type} (f : A -> bool) (l l' : list A) :
  l ≡ₚ l' -> List.filter f l ≡ₚ List.filter f l'.
Proof.
  induction 1 as [|x l l' _ IH|x y l|l l' l'' _ IH1 _ IH2]; simpl.
  - constructor.
  - destruct (f x); [by constructor | done].
  - destruct (f x), (f y); try done; [apply perm_swap | by constructor..].
  - by etransitivity.
Qed.

Lemma sumZ_Permutation (l l' : list Z) : l ≡ₚ l' -> sumZ l = sumZ l'.
Proof.
  induction 1; simpl; unfold sumZ in *; simpl in *; lia.
Qed.

Lemma sumZ_cons (x : Z) (l : list Z) : sumZ (x :: l) = x + sumZ l.
Proof. reflexivity. Qed.

Lemma sumZ_app (l l' : list Z) : sumZ (l ++ l') = sumZ l + sumZ l'.
Proof. induction l; simpl; unfold sumZ in *; simpl in *; lia. Qed.

Lemma filter_app_list {A : Type} (f : A -> bool) (l l' : list A) :
  List.filter f (l ++ l') = List.filter f l ++ List.filter f l'.
Proof. induction l; simpl; [done|]. destruct (f a); simpl; congruence. Qed.

(** ** The calendar on known dates *)

Lemma isoformat_ejemplos :
  Fecha.isoformat 1 = "0001-01-01"
  /\ Fecha.isoformat 719163 = "1970-01-01"
  /\ Fecha.isoformat 730179 = "2000-02-29"
  /\ Fecha.isoformat 738886 = "2024-01-01"
  /\ Fecha.isoformat Ejemplo.hoy = "2024-01-15"
  /\ Fecha.isoformat (Ejemplo.hoy - 30) = "2023-12-16"
  /\ Fecha.isoformat Fecha.MAXORDINAL = "9999-12-31".
Proof. repeat split; reflexivity. Qed.

(** ** Facts on [calcular_stock_medicamento] *)

Lemma py_eqb_str (v : value) (s : string) :
  Py.eqb v (VStr s) = bool_decide (v = VStr s).
Proof. unfold Py.eqb. by destruct (Py.as_int v). Qed.

Lemma tipo_es (tipo : string) (mov : gmap string value) :
  tipo ≠ "" ->
  Py.eqb (Py.get mov "tipo" (VStr "")) (VStr tipo) = es_tipo tipo mov.
Proof.
  intros Hne. rewrite py_eqb_str. unfold es_tipo, Py.get.
  destruct (mov !! "tipo") as [v|]; apply bool_decide_ext; split; congruence.
Qed.

Lemma acumular_stock_ok (i s : Z) (mov : gmap string value) :
  aporta_sin_error mov = true ->
  acumular_stock (i, s) mov = Ok (i + fst (aporte mov), s + snd (aporte mov)).
Proof.
  unfold aporta_sin_error, cantidad_numerica, acumular_stock, aporte, cantidad_de,
    Py.in_strs, Py.add.
  simpl.
  destruct (Py.eqb _ (VStr "INGRESO")); simpl.
  - intros [q ->]%bool_decide_eq_true. simpl. do 2 f_equal; lia.
  - destruct (Py.eqb _ (VStr "SALIDA")); simpl.
    + intros [q ->]%bool_decide_eq_true. simpl. do 2 f_equal; lia.
    + intros _. do 2 f_equal; lia.
Qed.

Lemma acumular_stock_error (i s : Z) (mov : gmap string value) :
  aporta_sin_error mov = false ->
  acumular_stock (i, s) mov = Raise TypeError.
Proof.
  unfold aporta_sin_error, cantidad_numerica, acumular_stock, Py.in_strs, Py.add. simpl.
  destruct (Py.eqb _ (VStr "INGRESO")); simpl.
  - intros H%bool_decide_eq_false.
    destruct (Py.as_int _); [destruct H; eauto | done].
  - destruct (Py.eqb _ (VStr "SALIDA")); simpl; [|done].
    intros H%bool_decide_eq_false.
    destruct (Py.as_int _); [destruct H; eauto | done].
Qed.

(** The loop as a whole: the two sums, or a [TypeError] as soon as one
    counted movement has a quantity that is not a number. *)
Lemma foldM_acumular_stock (l : list (gmap string value)) (i s : Z) :
  foldM acumular_stock (i, s) l =
    if forallb aporta_sin_error l
    then Ok (i + sumZ (fst <$> (aporte <$> l)), s + sumZ (snd <$> (aporte <$> l)))
    else Raise TypeError.
Proof.
  revert i s. induction l as [|mov l IH]; intros i s; cbn [foldM forallb].
  - simpl. do 2 f_equal; lia.
  - destruct (aporta_sin_error mov) eqn:Hmov; cbn [andb].
    + rewrite acumular_stock_ok by done. cbn [bindR]. rewrite IH.
      destruct (forallb _ l); [|done].
      rewrite !fmap_cons. unfold sumZ. cbn [foldr]. fold (sumZ (fst <$> (aporte <$> l))).
      fold (sumZ (snd <$> (aporte <$> l))). do 2 f_equal; lia.
    + by rewrite acumular_stock_error.
Qed.

Lemma forallb_Permutation {A : Type} (f : A -> bool) (l l' : list A) :
  l ≡ₚ l' -> forallb f l = forallb f l'.
Proof.
  induction 1; simpl; try congruence.
  by destruct (f x), (f y).
Qed.

Lemma where_eq_snd (field : string) (v : value) (c : list (string * gmap string value)) :
  snd <$> Firestore.where_eq field v c =
  List.filter (fun mov => bool_decide (mov !! field = Some v)) (snd <$> c).
Proof.
  unfold Firestore.where_eq. induction c as [|p c IH]; [done|].
  rewrite fmap_cons. cbn [List.filter].
  destruct (bool_decide (p.2 !! field = Some v)); [rewrite fmap_cons|]; by rewrite IH.
Qed.

Lemma sum_aporte_ingresos (med : value) (l : list (gmap string value)) :
  sumZ (fst <$> (aporte <$> List.filter (referencia med) l)) =
  sumZ (cantidad_de <$>
          List.filter (fun mov => referencia med mov && es_tipo "INGRESO" mov) l).
Proof.
  induction l as [|mov l IH]; [done|]. cbn [List.filter].
  destruct (referencia med mov); cbn [andb]; [|done].
  rewrite !fmap_cons, sumZ_cons, IH. unfold aporte. rewrite !tipo_es by done.
  destruct (es_tipo "INGRESO" mov) eqn:E; [by rewrite fmap_cons, sumZ_cons|].
  destruct (es_tipo "SALIDA" mov); cbn [fst]; lia.
Qed.

Lemma sum_aporte_salidas (med : value) (l : list (gmap string value)) :
  sumZ (snd <$> (aporte <$> List.filter (referencia med) l)) =
  sumZ (cantidad_de <$>
          List.filter (fun mov => referencia med mov && es_tipo "SALIDA" mov) l).
Proof.
  induction l as [|mov l IH]; [done|]. cbn [List.filter].
  destruct (referencia med mov); cbn [andb]; [|done].
  rewrite !fmap_cons, sumZ_cons, IH. unfold aporte. rewrite !tipo_es by done.
  destruct (es_tipo "INGRESO" mov) eqn:E.
  - assert (es_tipo "SALIDA" mov = false) as ->; [|cbn [snd]; lia].
    unfold es_tipo in *. apply bool_decide_eq_true in E.
    apply bool_decide_eq_false. congruence.
  - destruct (es_tipo "SALIDA" mov); [by rewrite fmap_cons, sumZ_cons|cbn [snd]; lia].
Qed.

(** The function unfolded on a world: the guard, the query, the loop and
    the handler. *)
Lemma calcular_stock_medicamento_eq (med : value) (w : world) :
  calcular_stock_medicamento med w =
    match db w with
    | None => (Ok 0, w)
    | Some fs =>
        if reachable fs then
          let movs := List.filter (referencia med) (snd <$> movimientos fs) in
          if forallb aporta_sin_error movs
          then (Ok (stock_of med (movimientos fs)), w)
          else (Ok 0, {| db := db w; consola := consola w ++ [ErrorCalculandoStock TypeError] |})
        else (Ok 0, {| db := db w;
                       consola := consola w ++ [ErrorCalculandoStock ServiceUnavailable] |})
    end.
Proof.
  unfold calcular_stock_medicamento, bindM, read_db, try_except,
    Firestore.stream_movimientos, Firestore.client, bindM, ret, lift, print.
  destruct w as [[fs|] log]; cbn [db consola]; [|done].
  destruct (reachable fs); [|done].
  rewrite where_eq_snd, foldM_acumular_stock.
  change (List.filter (fun mov => bool_decide (mov !! "medicamento_id" = Some med)))
    with (List.filter (referencia med)).
  destruct (forallb _ _); [|done].
  cbn [fst snd]. rewrite sum_aporte_ingresos, sum_aporte_salidas. done.
Qed.

Lemma stock_of_Permutation (med : value) (movs movs' : list (string * gmap string value)) :
  movs ≡ₚ movs' -> stock_of med movs = stock_of med movs'.
Proof.
  intros Hp. unfold stock_of, suma_cantidades.
  f_equal; apply sumZ_Permutation, fmap_Permutation, filter_Permutation,
    fmap_Permutation, Hp.
Qed.

Lemma movimientos_numericos_sin_error (med : value)
    (movs : list (string * gmap string value)) :
  movimientos_numericos med movs = true ->
  forallb aporta_sin_error (List.filter (referencia med) (snd <$> movs)) = true.
Proof.
  unfold movimientos_numericos. induction movs as [|p movs IH]; [done|].
  rewrite fmap_cons. cbn [forallb List.filter].
  intros [Hp Hm]%andb_true_iff. destruct (referencia med p.2); [|by apply IH].
  cbn [forallb]. rewrite IH by done. unfold aporta_sin_error.
  cbn [implb] in Hp. rewrite Hp. by destruct (Py.in_strs _ _).
Qed.

(** The function always returns to its caller. *)
Lemma calcular_stock_medicamento_Ok (med : value) (w : world) :
  exists z : Z, fst (calcular_stock_medicamento med w) = Ok z.
Proof.
  rewrite calcular_stock_medicamento_eq. destruct (db w) as [fs|]; [|eauto].
  destruct (reachable fs); [|eauto]. cbn zeta. destruct (forallb _ _); eauto.
Qed.

(** On a healthy store the function returns the signed sum and changes
    nothing. *)
Lemma calcular_stock_medicamento_sano (fs : firestore) (log : list log_entry)
    (med : value) :
  reachable fs = true ->
  movimientos_numericos med (movimientos fs) = true ->
  calcular_stock_medicamento med {| db := Some fs; consola := log |}
  = (Ok (stock_of med (movimientos fs)), {| db := Some fs; consola := log |}).
Proof.
  intros Hr Hn. rewrite calcular_stock_medicamento_eq. cbn [db]. rewrite Hr.
  cbn zeta. by rewrite movimientos_numericos_sin_error.
Qed.

(** ** C1: the derived stock *)

(** C1.  For a reachable store in which the movements that reference the
    medication carry numeric quantities, [calcular_stock_medicamento]
    returns the sum of the quantities of its [INGRESO] movements minus the
    sum of the quantities of its [SALIDA] movements and leaves the state
    (the movement log included) as it was; the value is the same for every
    order in which the collection is streamed. *)
Theorem calcular_stock_medicamento_suma
    (fs : firestore) (log : list log_entry) (medicamento_id : value) :
  reachable fs = true ->
  movimientos_numericos medicamento_id (movimientos fs) = true ->
  let w := {| db := Some fs; consola := log |} in
  calcular_stock_medicamento medicamento_id w
    = (Ok (stock_of medicamento_id (movimientos fs)), w)
  /\ forall movs' : list (string * gmap string value),
       movs' ≡ₚ movimientos fs ->
       let w' := {| db := Some {| reachable := true;
                                  medicamentos := medicamentos fs;
                                  movimientos := movs' |};
                    consola := log |} in
       calcular_stock_medicamento medicamento_id w'
         = (Ok (stock_of medicamento_id (movimientos fs)), w').
Proof.
  intros Hreach Hnum w. split.
  - by apply calcular_stock_medicamento_sano.
  - intros movs' Hp w'. unfold w'.
    rewrite calcular_stock_medicamento_sano; cbn [reachable movimientos]; [|done|].
    + by rewrite (stock_of_Permutation _ _ _ Hp).
    + unfold movimientos_numericos in *. by rewrite (forallb_Permutation _ _ _ Hp).
Qed.

Lemma calcular_stock_medicamento_suma_witness :
  calcular_stock_medicamento (VStr "m1") Ejemplo.w = (Ok 5, Ejemplo.w).
Proof.
  apply (calcular_stock_medicamento_suma Ejemplo.fs [] (VStr "m1")); reflexivity.
Defined.

(** ** C3: status classification *)

Lemma Qle_bool_3_2 (s m : Z) :
  Qle_bool (inject_Z s) (3 * m # 2) = (2 * s <=? 3 * m).
Proof.
  unfold Qle_bool, inject_Z. cbn [Qnum Qden].
  apply eq_true_iff_eq. rewrite !Z.leb_le. lia.
Qed.

Lemma Qle_3_2 (s m : Z) :
  (inject_Z s <= (3 # 2) * inject_Z m)%Q <-> 2 * s <= 3 * m.
Proof. unfold Qle, inject_Z, Qmult. cbn [Qnum Qden Pos.mul]. lia. Qed.

(** Integers below [2 ^ 53] are binary64 numbers. *)
Lemma redondear_exacto (n : Z) : Z.abs n < 2 ^ 53 -> Doble.redondear n = n.
Proof.
  intros Hn. unfold Doble.redondear.
  destruct (Z.leb_spec (Z.log2 (Z.abs n) - 52) 0) as [|He]; [done|].
  destruct (Z.eq_dec (Z.abs n) 0) as [H0|H0].
  - rewrite H0 in He. cbn in He. lia.
  - assert (Z.log2 (Z.abs n) < 53) by (apply Z.log2_lt_pow2; lia). lia.
Qed.

(** While [3 * m] stays below [2 ^ 53] the product [m * 1.5] is exact. *)
Lemma get_inventario_estado_exacto (s m : Z) :
  1 <= m -> 3 * m < 2 ^ 53 ->
  get_inventario_estado s m
  = Ok (if s <=? 0 then AGOTADO
        else if s <=? m then CRITICO
        else if 2 * s <=? 3 * m then BAJO
        else OK).
Proof.
  intros Hm Hb. unfold get_inventario_estado.
  destruct (s <=? 0); [done|]. destruct (s <=? m); [done|].
  assert (2 ^ 53 < Doble.LIMITE) as Hlim
    by (unfold Doble.LIMITE; apply Z.pow_lt_mono_r; lia).
  unfold Doble.de_entero, Doble.por_1_5.
  rewrite (redondear_exacto m) by lia.
  destruct (Z.leb_spec Doble.LIMITE (Z.abs m)); [lia|]. cbn [bindR].
  rewrite (redondear_exacto (3 * m)) by lia.
  destruct (Z.leb_spec (2 * Doble.LIMITE) (Z.abs (3 * m))); [lia|].
  cbn [Doble.entero_le]. rewrite Qle_bool_3_2. by destruct (2 * s <=? 3 * m).
Qed.

(** C3 as stated fails: the minimum [2 ^ 53 + 1] becomes the float
    [2 ^ 53], so that the product is 13510798882111488 while one and a
    half times the minimum is 13510798882111489.5; a stock of
    13510798882111489 is therefore [OK], inside the band that the
    specification gives to [BAJO]. *)
Lemma get_inventario_estado_bandas_counterexample :
  1 <= 9007199254740993
  /\ get_inventario_estado 13510798882111489 9007199254740993 = Ok OK
  /\ ~ bandas_exactas 13510798882111489 9007199254740993.
Proof.
  assert (get_inventario_estado 13510798882111489 9007199254740993 = Ok OK) as Hrun
    by (vm_compute; reflexivity).
  split; [lia|]. split; [exact Hrun|].
  intros (_ & _ & _ & Hok). apply Hok; [exact Hrun|]. apply Qle_3_2. lia.
Qed.

(** C3.  For every integer stock [s] and minimum [m ≥ 1] with
    [3·m < 2^53] the status is [AGOTADO] exactly when [s ≤ 0], [CRITICO]
    exactly when [0 < s ≤ m], [BAJO] exactly when [m < s ≤ 1.5·m] and
    [OK] exactly when [s > 1.5·m]; [s = m] gives [CRITICO] and
    [s = 1.5·m] gives [BAJO].  Up to that bound the float product
    [m * 1.5] is exact. *)
Theorem get_inventario_estado_bandas (s m : Z) :
  1 <= m ->
  3 * m < 2 ^ 53 ->
  bandas_exactas s m
  /\ get_inventario_estado m m = Ok CRITICO
  /\ ((inject_Z s == (3 # 2) * inject_Z m)%Q -> get_inventario_estado s m = Ok BAJO).
Proof.
  intros Hm Hb. unfold bandas_exactas. rewrite Qle_3_2.
  assert ((inject_Z s == (3 # 2) * inject_Z m)%Q <-> 2 * s = 3 * m) as Heq.
  { unfold Qeq, inject_Z, Qmult. cbn [Qnum Qden Pos.mul]. lia. }
  rewrite Heq, !get_inventario_estado_exacto by done.
  destruct (Z.leb_spec s 0), (Z.leb_spec s m), (Z.leb_spec (2 * s) (3 * m)),
    (Z.leb_spec m 0), (Z.leb_spec m m);
    repeat split; intros; try discriminate; try lia; try done.
Qed.

Lemma get_inventario_estado_bandas_witness :
  get_inventario_estado 10 10 = Ok CRITICO /\ get_inventario_estado 15 10 = Ok BAJO
  /\ get_inventario_estado 16 10 = Ok OK /\ get_inventario_estado 0 10 = Ok AGOTADO.
Proof.
  assert (1 <= 10) as H1 by lia.
  assert (3 * 10 < 2 ^ 53) as H2 by (vm_compute; reflexivity).
  pose proof (get_inventario_estado_bandas 10 10 H1 H2) as (_ & Ha & _).
  pose proof (get_inventario_estado_bandas 15 10 H1 H2) as (_ & _ & Hb).
  pose proof (get_inventario_estado_bandas 16 10 H1 H2) as ((_ & _ & _ & Hc) & _).
  pose proof (get_inventario_estado_bandas 0 10 H1 H2) as ((Hd & _) & _).
  split; [exact Ha|]. split; [apply Hb; reflexivity|].
  split; [apply Hc; vm_compute; congruence | apply Hd; lia].
Defined.

(** ** C10: movements without a kind or without a quantity *)

Lemma suma_cantidades_cons (tipo : string) (med : value)
    (p : string * gmap string value) (movs : list (string * gmap string value)) :
  suma_cantidades tipo med (p :: movs) =
    (if referencia med p.2 && es_tipo tipo p.2 then cantidad_de p.2 else 0)
    + suma_cantidades tipo med movs.
Proof.
  unfold suma_cantidades. rewrite fmap_cons. cbn [List.filter].
  destruct (referencia med p.2 && es_tipo tipo p.2); [by rewrite fmap_cons, sumZ_cons|lia].
Qed.

Lemma sin_aporte_sin_error (mov : gmap string value) :
  sin_aporte mov -> aporta_sin_error mov = true.
Proof.
  unfold aporta_sin_error. intros [-> | Hnone]; [done|].
  assert (Py.get mov "cantidad" (VInt 0) = VInt 0) as Hg
    by (unfold Py.get; by rewrite Hnone).
  unfold cantidad_numerica. rewrite Hg. by destruct (Py.in_strs _ _).
Qed.

Lemma sin_aporte_cero (tipo : string) (med : value) (mov : gmap string value) :
  tipo = "INGRESO" \/ tipo = "SALIDA" ->
  sin_aporte mov ->
  (if referencia med mov && es_tipo tipo mov then cantidad_de mov else 0) = 0.
Proof.
  intros Htipo [Hno | Hnone].
  - assert (es_tipo tipo mov = false) as ->; [|by rewrite andb_false_r].
    unfold Py.in_strs in Hno. cbn [existsb] in Hno.
    rewrite !tipo_es in Hno by done.
    destruct Htipo as [-> | ->]; destruct (es_tipo "INGRESO" mov), (es_tipo "SALIDA" mov);
      done.
  - unfold cantidad_de, Py.get. rewrite Hnone. by destruct (_ && _).
Qed.

Lemma stock_of_sin_aporte (med : value) (pre post : list (string * gmap string value))
    (id : string) (mov : gmap string value) :
  sin_aporte mov ->
  stock_of med (pre ++ (id, mov) :: post) = stock_of med (pre ++ post).
Proof.
  intros Hmov.
  rewrite (stock_of_Permutation med (pre ++ (id, mov) :: post) ((id, mov) :: pre ++ post))
    by (symmetry; apply Permutation_middle).
  unfold stock_of. rewrite !suma_cantidades_cons. cbn [snd].
  rewrite !sin_aporte_cero by auto. lia.
Qed.

(** C10.  A stored movement whose kind is neither [INGRESO] nor [SALIDA],
    or which has no quantity field, adds nothing to the derived stock and
    raises nothing: with it or without it in the collection,
    [calcular_stock_medicamento] returns the same integer and prints the
    same lines.  And whatever the stored movements are, the function
    returns an integer to its caller. *)
Theorem calcular_stock_medicamento_sin_aporte
    (fs : firestore) (log : list log_entry) (medicamento_id : value)
    (pre post : list (string * gmap string value))
    (id : string) (mov : gmap string value) :
  movimientos fs = pre ++ (id, mov) :: post ->
  Py.in_strs (Py.get mov "tipo" (VStr "")) ["INGRESO"; "SALIDA"] = false
    \/ mov !! "cantidad" = None ->
  let w := {| db := Some fs; consola := log |} in
  let w_sin := {| db := Some {| reachable := reachable fs;
                                medicamentos := medicamentos fs;
                                movimientos := pre ++ post |};
                  consola := log |} in
  (exists stock : Z,
      fst (calcular_stock_medicamento medicamento_id w) = Ok stock
      /\ fst (calcular_stock_medicamento medicamento_id w_sin) = Ok stock)
  /\ consola (snd (calcular_stock_medicamento medicamento_id w))
     = consola (snd (calcular_stock_medicamento medicamento_id w_sin))
  /\ (forall w0 : world,
        exists z : Z, fst (calcular_stock_medicamento medicamento_id w0) = Ok z).
Proof.
  intros Hmovs Hmov w w_sin.
  cut ((exists stock : Z,
           fst (calcular_stock_medicamento medicamento_id w) = Ok stock
           /\ fst (calcular_stock_medicamento medicamento_id w_sin) = Ok stock)
       /\ consola (snd (calcular_stock_medicamento medicamento_id w))
          = consola (snd (calcular_stock_medicamento medicamento_id w_sin))).
  { intros [H1 H2]. split; [done|]. split; [done|].
    intros w0. apply calcular_stock_medicamento_Ok. }
  rewrite !calcular_stock_medicamento_eq. cbn [db w w_sin reachable movimientos].
  rewrite Hmovs. cbn zeta.
  assert (forallb aporta_sin_error
            (List.filter (referencia medicamento_id) (pre ++ (id, mov) :: post).*2)
          = forallb aporta_sin_error
              (List.filter (referencia medicamento_id) (pre ++ post).*2)) as ->.
  { rewrite !fmap_app, fmap_cons, !filter_app_list, !forallb_app.
    cbn [List.filter snd]. destruct (referencia medicamento_id mov); [|done].
    cbn [forallb]. by rewrite sin_aporte_sin_error. }
  rewrite stock_of_sin_aporte by done.
  destruct (reachable fs); [|eauto].
  destruct (forallb _ _); eauto.
Qed.

Lemma calcular_stock_medicamento_sin_aporte_witness :
  fst (calcular_stock_medicamento (VStr "m1")
         {| db := Some {| reachable := true;
                          medicamentos := [];
                          movimientos :=
                            [("a", Ejemplo.movimiento "INGRESO" "m1" 10 "2024-01-01" "M");
                             ("v", Ejemplo.movimiento_vacio)] |};
            consola := [] |}) = Ok 10.
Proof.
  destruct (calcular_stock_medicamento_sin_aporte
              {| reachable := true;
                 medicamentos := [];
                 movimientos :=
                   [("a", Ejemplo.movimiento "INGRESO" "m1" 10 "2024-01-01" "M");
                    ("v", Ejemplo.movimiento_vacio)] |}
              [] (VStr "m1")
              [("a", Ejemplo.movimiento "INGRESO" "m1" 10 "2024-01-01" "M")] []
              "v" Ejemplo.movimiento_vacio eq_refl (or_intror eq_refl))
    as ((stock & H1 & H2) & _).
  rewrite H1. rewrite <- H2. reflexivity.
Defined.

(** ** C6: what the ledger does when it cannot compute *)

Lemma cantidades_contables_filter (med : value)
    (movs : list (string * gmap string value)) :
  forallb aporta_sin_error (List.filter (referencia med) (snd <$> movs))
  = cantidades_contables med movs.
Proof.
  unfold cantidades_contables. induction movs as [|p movs IH]; [done|].
  rewrite fmap_cons. cbn [List.filter forallb].
  destruct (referencia med p.2); cbn [forallb implb]; by rewrite IH.
Qed.

(** C6 as stated fails twice: without a client the function returns [0]
    and prints nothing; and on a reachable store it takes the same fallback
    (returns [0] and prints) when a stored quantity is a text. *)
Lemma falla_solo_si_inalcanzable_counterexample :
  ~ falla_solo_si_inalcanzable Ejemplo.w_sin_db (VStr "m1")
  /\ ~ falla_solo_si_inalcanzable Ejemplo.w_texto (VStr "m1").
Proof.
  split.
  - intros (_ & H & _). destruct (H I) as [e He]. vm_compute in He. discriminate.
  - intros (_ & _ & H).
    assert (~ inalcanzable Ejemplo.w_texto) as Hr by (vm_compute; discriminate).
    specialize (H Hr). vm_compute in H. discriminate.
Qed.

(** C6, amended.  [calcular_stock_medicamento] never raises.  Without a
    client it returns [0] and prints nothing.  With a client, it returns
    [0] and prints the error when the backend does not answer or when a
    counted movement of the medication has a quantity that is not a number;
    otherwise it returns the signed sum and prints nothing. *)
Theorem calcular_stock_medicamento_fallo (w : world) (medicamento_id : value) :
  (exists z : Z, fst (calcular_stock_medicamento medicamento_id w) = Ok z)
  /\ (db w = None -> calcular_stock_medicamento medicamento_id w = (Ok 0, w))
  /\ (forall fs : firestore, db w = Some fs ->
      reachable fs = false ->
      calcular_stock_medicamento medicamento_id w
      = (Ok 0, {| db := db w;
                  consola := consola w ++ [ErrorCalculandoStock ServiceUnavailable] |}))
  /\ (forall fs : firestore, db w = Some fs ->
      reachable fs = true ->
      cantidades_contables medicamento_id (movimientos fs) = false ->
      calcular_stock_medicamento medicamento_id w
      = (Ok 0, {| db := db w;
                  consola := consola w ++ [ErrorCalculandoStock TypeError] |}))
  /\ (forall fs : firestore, db w = Some fs ->
      reachable fs = true ->
      cantidades_contables medicamento_id (movimientos fs) = true ->
      calcular_stock_medicamento medicamento_id w
      = (Ok (stock_of medicamento_id (movimientos fs)), w)).
Proof.
  split; [apply calcular_stock_medicamento_Ok|].
  rewrite calcular_stock_medicamento_eq. cbn zeta.
  destruct (db w) as [fs|].
  - rewrite cantidades_contables_filter.
    destruct (reachable fs) eqn:Hr;
      [destruct (cantidades_contables medicamento_id (movimientos fs)) eqn:Hc|];
      repeat split; try done; intros fs' [= <-]; congruence.
  - repeat split; done.
Qed.

Lemma calcular_stock_medicamento_fallo_witness :
  calcular_stock_medicamento (VStr "m1") Ejemplo.w_sin_db = (Ok 0, Ejemplo.w_sin_db)
  /\ calcular_stock_medicamento (VStr "m1") Ejemplo.w_caido
     = (Ok 0, {| db := db Ejemplo.w_caido;
                 consola := [ErrorCalculandoStock ServiceUnavailable] |})
  /\ calcular_stock_medicamento (VStr "m1") Ejemplo.w_texto
     = (Ok 0, {| db := db Ejemplo.w_texto;
                 consola := [ErrorCalculandoStock TypeError] |}).
Proof.
  split; [|split].
  - apply (calcular_stock_medicamento_fallo Ejemplo.w_sin_db (VStr "m1")). reflexivity.
  - pose proof (calcular_stock_medicamento_fallo Ejemplo.w_caido (VStr "m1"))
      as (_ & _ & H & _).
    apply (H _ eq_refl). reflexivity.
  - pose proof (calcular_stock_medicamento_fallo Ejemplo.w_texto (VStr "m1"))
      as (_ & _ & _ & H & _).
    apply (H _ eq_refl); reflexivity.
Defined.

(** ** C2: the stock check of [crear_movimiento] *)

Lemma get_none_lookup (d : gmap string value) (k : string) (v : value) :
  d !! k = Some v -> Py.get_none d k = v.
Proof. unfold Py.get_none, Py.get. by intros ->. Qed.


(** C2.  On a healthy store, a [SALIDA] whose quantity exceeds the derived
    stock of its medication is answered with status 400 and the state (so
    the movement log and the derived stock) stays as it was; a [SALIDA]
    with a date, a medication and a positive quantity that is at most the
    derived stock is answered with 201 and its document is added. *)
Theorem crear_movimiento_salida
    (fs : firestore) (log : list log_entry) (data : gmap string value)
    (new_id : string) (now : Z) (q : Z) :
  reachable fs = true ->
  data !! "tipo" = Some (VStr "SALIDA") ->
  data !! "cantidad" = Some (VInt q) ->
  movimientos_numericos (Py.get_none data "medicamento_id") (movimientos fs) = true ->
  let w := {| db := Some fs; consola := log |} in
  let stock := stock_of (Py.get_none data "medicamento_id") (movimientos fs) in
  (stock < q -> exists p : payload, crear_movimiento data new_id now w = ((p, 400), w))
  /\ (stock < q -> 0 < q ->
      Py.truthy (Py.get_none data "fecha") = true ->
      Py.truthy (Py.get_none data "medicamento_id") = true ->
      crear_movimiento data new_id now w
      = ((JStockInsuficiente stock (VInt q), 400), w))
  /\ (0 < q <= stock ->
      Py.truthy (Py.get_none data "fecha") = true ->
      Py.truthy (Py.get_none data "medicamento_id") = true ->
      crear_movimiento data new_id now w
      = ((JMovimientoRegistrado new_id, 201),
         {| db := Some {| reachable := true;
                          medicamentos := medicamentos fs;
                          movimientos :=
                            movimientos fs ++ [(new_id, documento_movimiento data now)] |};
            consola := log |})).
Proof.
  intros Hr Htipo Hcant Hnum w stock.
  unfold crear_movimiento, route, bindM, read_db, ret, lift. cbn [db w].
  rewrite (get_none_lookup _ _ _ Htipo), (get_none_lookup _ _ _ Hcant).
  unfold Py.all, Py.in_strs. cbn [forallb existsb Py.truthy].
  change (Py.eqb (VStr "SALIDA") (VStr "INGRESO")) with false.
  change (Py.eqb (VStr "SALIDA") (VStr "SALIDA")) with true.
  change (negb (String.eqb "SALIDA" "")) with true.
  cbn [orb andb negb Py.le_int Py.as_int]. subst w.
  destruct (Py.truthy (Py.get_none data "fecha")),
    (Py.truthy (Py.get_none data "medicamento_id")),
    (Z.eqb_spec q 0), (Z.leb_spec q 0); cbn [andb negb];
    try (rewrite calcular_stock_medicamento_sano by done;
         cbn [Py.int_lt Py.as_int]; fold stock;
         destruct (Z.ltb_spec stock q);
         unfold Firestore.write_movimientos, Firestore.client, bindM, ret, Firestore.add;
         cbn [db]; rewrite ?Hr);
    repeat split; intros; try lia; try discriminate; eauto.
Qed.

Lemma crear_movimiento_salida_witness :
  crear_movimiento (Ejemplo.peticion_salida "m1" 6) "n" 0 Ejemplo.w
    = ((JStockInsuficiente 5 (VInt 6), 400), Ejemplo.w)
  /\ fst (crear_movimiento (Ejemplo.peticion_salida "m1" 5) "n" 0 Ejemplo.w)
     = (JMovimientoRegistrado "n", 201).
Proof.
  split.
  - destruct (crear_movimiento_salida Ejemplo.fs [] (Ejemplo.peticion_salida "m1" 6)
                "n" 0 6 eq_refl eq_refl eq_refl eq_refl) as (_ & H & _).
    apply H; reflexivity.
  - destruct (crear_movimiento_salida Ejemplo.fs [] (Ejemplo.peticion_salida "m1" 5)
                "n" 0 5 eq_refl eq_refl eq_refl eq_refl) as (_ & _ & H).
    unfold Ejemplo.w. rewrite H; [reflexivity | | reflexivity | reflexivity].
    split; [reflexivity | vm_compute; discriminate].
Defined.

(** ** C5: deleting a medication *)

Lemma lookup_delete (id : string) (c : list (string * gmap string value)) :
  Firestore.lookup id (Firestore.delete id c) = None.
Proof.
  unfold Firestore.lookup, Firestore.delete.
  induction c as [|p c IH]; [done|]. cbn [List.filter].
  destruct (String.eqb p.1 id) eqn:E; cbn [negb]; [done|].
  cbn [find]. by rewrite E.
Qed.

Lemma lookup_delete_ne (id id' : string) (c : list (string * gmap string value)) :
  id ≠ id' ->
  Firestore.lookup id' (Firestore.delete id c) = Firestore.lookup id' c.
Proof.
  intros Hne. unfold Firestore.lookup, Firestore.delete.
  induction c as [|p c IH]; [done|]. cbn [List.filter find].
  destruct (String.eqb_spec p.1 id) as [->|]; cbn [negb find].
  - destruct (String.eqb_spec id id'); [done|]. apply IH.
  - destruct (String.eqb p.1 id'); [done|]. apply IH.
Qed.

(** C5.  When at least one movement references the medication the deletion
    is answered with an error status and the state, so the stored
    medication, stays as it was (status 400 with the count when the backend
    answers); when none does, it is answered with 200 and the medication is
    no longer in the collection, the other medications being kept. *)
Theorem eliminar_medicamento_ruta_movimientos
    (fs : firestore) (log : list log_entry) (id : string) :
  let w := {| db := Some fs; consola := log |} in
  let asociados := Firestore.where_eq "medicamento_id" (VStr id) (movimientos fs) in
  (asociados ≠ [] ->
     (exists (p : payload) (code : Z),
         eliminar_medicamento_ruta id w = ((p, code), w) /\ 400 <= code)
     /\ (reachable fs = true ->
         eliminar_medicamento_ruta id w
         = ((JNoSePuedeEliminar (Z.of_nat (length asociados)), 400), w)))
  /\ (asociados = [] -> reachable fs = true ->
      eliminar_medicamento_ruta id w
      = ((JMensaje "Medicamento eliminado exitosamente", 200),
         {| db := Some {| reachable := true;
                          medicamentos := Firestore.delete id (medicamentos fs);
                          movimientos := movimientos fs |};
            consola := log |})
      /\ Firestore.lookup id (Firestore.delete id (medicamentos fs)) = None
      /\ forall id' : string, id ≠ id' ->
           Firestore.lookup id' (Firestore.delete id (medicamentos fs))
           = Firestore.lookup id' (medicamentos fs)).
Proof.
  intros w asociados.
  unfold eliminar_medicamento_ruta, route, bindM, read_db, ret,
    Firestore.stream_movimientos, Firestore.write_medicamentos, Firestore.client,
    bindM, ret.
  cbn [db w]. subst asociados.
  destruct (reachable fs) eqn:Hr; cbn beta iota.
  - generalize (Firestore.where_eq "medicamento_id" (VStr id) (movimientos fs)).
    intros asociados. destruct asociados as [|a l].
    + split; [done|]. intros _ _. subst w.
      change (0 <? Z.of_nat (length [])) with false. cbn beta iota. cbn [db].
      rewrite Hr. cbn [consola]. rewrite Hr. split; [done|]. split; [apply lookup_delete|].
      intros id' Hne. by apply lookup_delete_ne.
    + assert ((0 <? Z.of_nat (length (a :: l))) = true) as ->
        by (apply Z.ltb_lt; cbn [length]; lia).
      split; [|done]. intros _. split; [|done].
      eexists _, _. split; [done|lia].
  - split; [|done]. intros _. split; [|done].
    eexists _, _. split; [done|lia].
Qed.

Lemma eliminar_medicamento_ruta_movimientos_witness :
  eliminar_medicamento_ruta "m1" Ejemplo.w = ((JNoSePuedeEliminar 3, 400), Ejemplo.w)
  /\ fst (eliminar_medicamento_ruta "m3" Ejemplo.w)
     = (JMensaje "Medicamento eliminado exitosamente", 200).
Proof.
  split.
  - destruct (eliminar_medicamento_ruta_movimientos Ejemplo.fs [] "m1") as [H _].
    apply H; [vm_compute; discriminate | reflexivity].
  - destruct (eliminar_medicamento_ruta_movimientos Ejemplo.fs [] "m3") as [_ H].
    destruct (H eq_refl eq_refl) as [Heq _].
    change Ejemplo.w with {| db := Some Ejemplo.fs; consola := [] |}.
    rewrite Heq. reflexivity.
Defined.

(** ** C7: creating a medication *)

(** Runs the reads of the client on a reachable store. *)
Ltac paso Hr :=
  repeat (progress (cbn beta iota;
                    cbn [db consola reachable medicamentos movimientos];
                    rewrite ?Hr)).

Lemma where_eq_nil (field : string) (v : value) (c : list (string * gmap string value)) :
  Firestore.where_eq field v c = []
  <-> existsb (fun p => bool_decide (snd p !! field = Some v)) c = false.
Proof.
  unfold Firestore.where_eq. induction c as [|p c IH]; [done|].
  cbn [List.filter existsb]. destruct (bool_decide _); [done|]. apply IH.
Qed.

Lemma max_field_numeric (c : list (string * gmap string value)) (v : value) :
  ordenes_numericos c = true ->
  max_field "orden" c = Some v ->
  is_Some (Py.as_int v).
Proof.
  unfold ordenes_numericos. revert v. induction c as [|p c IH]; intros v; [done|].
  cbn [forallb max_field]. intros [Hp Hc]%andb_true_iff.
  destruct (p.2 !! "orden") as [x|]; [|by apply IH].
  apply bool_decide_eq_true in Hp.
  destruct (max_field "orden" c) as [m|].
  - destruct (value_leb m x); intros [= <-]; [done|]. by apply IH.
  - by intros [= <-].
Qed.

(** C7.  On a reachable store, a request whose trimmed name is that of a
    stored medication is answered with an error status and stores nothing,
    whatever else it carries; the status is 409 when the trimmed name is
    not empty and the minimum stock is an integer of at least 1 (or is left
    out), the two checks that precede the search for the name.  A request
    with such a name and minimum stock is answered with 201 and stores the
    new medication when no stored medication has the name and the stored
    display orders are numbers. *)
Theorem crear_medicamento_nombre
    (fs : firestore) (log : list log_entry) (data : gmap string value)
    (new_id : string) (now : Z) (raw : string) :
  reachable fs = true ->
  data !! "nombre" = Some (VStr raw) ->
  let nombre := Py.rstrip (Py.lstrip raw) in
  let w := {| db := Some fs; consola := log |} in
  (nombre_registrado nombre (medicamentos fs) = true ->
   exists (p : payload) (code : Z),
     crear_medicamento data new_id now w = ((p, code), w) /\ 400 <= code)
  /\ (forall sm : Z,
        nombre ≠ "" ->
        Py.get data "stock_minimo" (VInt 10) = VInt sm ->
        1 <= sm ->
        (nombre_registrado nombre (medicamentos fs) = true ->
         crear_medicamento data new_id now w
         = ((JError "El medicamento ya existe", 409), w))
        /\ (nombre_registrado nombre (medicamentos fs) = false ->
            ordenes_numericos (medicamentos fs) = true ->
            crear_medicamento data new_id now w
            = ((JMedicamentoAgregado new_id nombre (VInt sm), 201),
               {| db := Some {| reachable := true;
                                medicamentos :=
                                  medicamentos fs ++
                                    [(new_id,
                                      {[ "nombre" := VStr nombre;
                                         "stock_minimo" := VInt sm;
                                         "orden" :=
                                           VInt (siguiente_orden (medicamentos fs));
                                         "fecha_creacion" := VTime now ]})];
                                movimientos := movimientos fs |};
                  consola := log |}))).
Proof.
  intros Hr Hnombre nombre w. split.
  - intros Hreg.
    unfold crear_medicamento, route, bindM, read_db, ret, lift,
      Firestore.stream_medicamentos, Firestore.client, bindM, ret.
    subst w. cbn [db]. unfold Py.get at 1. rewrite Hnombre. cbn [Py.strip].
    fold nombre. cbn [Py.truthy].
    destruct (String.eqb nombre ""); cbn [negb]; [eexists _, _; split; [done|lia]|].
    destruct (Py.lt_int (Py.get data "stock_minimo" (VInt 10)) 1) as [[]|e];
      try (eexists _, _; split; [done|lia]).
    paso Hr. unfold nombre_registrado in Hreg.
    destruct (Firestore.where_eq "nombre" (VStr nombre) (medicamentos fs))
      as [|a l] eqn:Hw; [apply where_eq_nil in Hw; congruence|].
    assert ((0 <? Z.of_nat (length (a :: l))) = true) as ->
      by (apply Z.ltb_lt; cbn [length]; lia).
    eexists _, _; split; [done|lia].
  - intros sm Hne Hsm Hge.
    assert (String.eqb nombre "" = false) as Hvacio by by apply String.eqb_neq.
    assert ((sm <? 1) = false) as Hmin by (apply Z.ltb_ge; lia).
    split; [intros Hreg | intros Hreg Hord; unfold siguiente_orden];
      unfold crear_medicamento, route, bindM, read_db, ret, lift,
        Firestore.stream_medicamentos, Firestore.write_medicamentos, Firestore.client,
        bindM, ret, Firestore.add;
      subst w; cbn [db]; unfold Py.get at 1; rewrite Hnombre; cbn [Py.strip];
      fold nombre; rewrite Hsm; cbn [Py.truthy Py.lt_int Py.as_int];
      rewrite Hvacio, Hmin; cbn [negb]; paso Hr;
      unfold nombre_registrado in Hreg;
      destruct (Firestore.where_eq "nombre" (VStr nombre) (medicamentos fs))
        as [|a l] eqn:Hw.
    + apply where_eq_nil in Hw. congruence.
    + assert ((0 <? Z.of_nat (length (a :: l))) = true) as ->
        by (apply Z.ltb_lt; cbn [length]; lia).
      done.
    + change (0 <? Z.of_nat (length [])) with false. paso Hr.
      destruct (max_field "orden" (medicamentos fs)) as [v|] eqn:Hmax.
      * destruct (max_field_numeric _ _ Hord Hmax) as [z Hz].
        unfold Py.add_int. rewrite Hz. paso Hr. reflexivity.
      * cbn [Py.add_int Py.as_int]. paso Hr. reflexivity.
    + apply where_eq_nil in Hreg. congruence.
Qed.

Lemma crear_medicamento_nombre_witness :
  crear_medicamento (Ejemplo.peticion_medicamento " Morfina " 5) "n" 0 Ejemplo.w
    = ((JError "El medicamento ya existe", 409), Ejemplo.w)
  /\ fst (crear_medicamento (Ejemplo.peticion_medicamento " Dipirona " 5) "n" 0 Ejemplo.w)
     = (JMedicamentoAgregado "n" "Dipirona" (VInt 5), 201).
Proof.
  assert (1 <= 5) as H5 by lia.
  assert (Py.rstrip (Py.lstrip " Morfina ") ≠ "") as Hm by (vm_compute; discriminate).
  assert (Py.rstrip (Py.lstrip " Dipirona ") ≠ "") as Hd by (vm_compute; discriminate).
  split.
  - pose proof (crear_medicamento_nombre Ejemplo.fs []
                  (Ejemplo.peticion_medicamento " Morfina " 5) "n" 0 " Morfina "
                  eq_refl eq_refl) as [_ H].
    destruct (H 5 Hm eq_refl H5) as [H409 _]. exact (H409 eq_refl).
  - pose proof (crear_medicamento_nombre Ejemplo.fs []
                  (Ejemplo.peticion_medicamento " Dipirona " 5) "n" 0 " Dipirona "
                  eq_refl eq_refl) as [_ H].
    destruct (H 5 Hd eq_refl H5) as [_ H201].
    change Ejemplo.w with {| db := Some Ejemplo.fs; consola := [] |}.
    rewrite (H201 eq_refl eq_refl). reflexivity.
Defined.

(** The no-break space U+00A0, the bytes 194 and 160 of UTF-8, is trimmed
    as the ASCII blanks are: the name is found to be taken. *)
Example crear_medicamento_espacio_duro :
  let nombre :=
    String (Ascii.ascii_of_nat 194) (String (Ascii.ascii_of_nat 160) "Morfina") in
  Py.strip (VStr nombre) = Ok "Morfina"
  /\ crear_medicamento (Ejemplo.peticion_medicamento nombre 5) "n" 0 Ejemplo.w
     = ((JError "El medicamento ya existe", 409), Ejemplo.w).
Proof. vm_compute. split; reflexivity. Qed.

(** ** C9: updates and deletions of movements *)

(** C9.  On a reachable store, rewriting an existing movement with a date
    and an integer quantity of at least 1 is answered with 200 and the
    fields are overwritten, and deleting a movement is answered with 200
    and the document is removed, in both cases whatever the derived stock
    becomes.  On the sample store, where the stock of [m1] is 5, raising a
    [SALIDA] of 3 to 100 leaves a stock of -92, and deleting the [INGRESO]
    of 10 leaves a stock of -5. *)
Theorem actualizar_eliminar_movimiento_sin_control
    (fs : firestore) (log : list log_entry) (id : string)
    (data : gmap string value) (q : Z) :
  reachable fs = true ->
  let w := {| db := Some fs; consola := log |} in
  (is_Some (Firestore.lookup id (movimientos fs)) ->
   data !! "cantidad" = Some (VInt q) -> 1 <= q ->
   Py.truthy (Py.get_none data "fecha") = true ->
   actualizar_movimiento id data w
   = ((JMensaje "Movimiento actualizado", 200),
      {| db := Some {| reachable := true;
                       medicamentos := medicamentos fs;
                       movimientos :=
                         Firestore.update id (update_data data) (movimientos fs) |};
         consola := log |}))
  /\ eliminar_movimiento id w
     = ((JMensaje "Movimiento eliminado", 200),
        {| db := Some {| reachable := true;
                         medicamentos := medicamentos fs;
                         movimientos := Firestore.delete id (movimientos fs) |};
           consola := log |})
  /\ (fst (calcular_stock_medicamento (VStr "m1") Ejemplo.w) = Ok 5
      /\ fst (actualizar_movimiento "b" (Ejemplo.peticion_actualizar 100) Ejemplo.w)
         = (JMensaje "Movimiento actualizado", 200)
      /\ fst (calcular_stock_medicamento (VStr "m1")
                (snd (actualizar_movimiento "b" (Ejemplo.peticion_actualizar 100)
                        Ejemplo.w)))
         = Ok (-92)
      /\ fst (eliminar_movimiento "a" Ejemplo.w) = (JMensaje "Movimiento eliminado", 200)
      /\ fst (calcular_stock_medicamento (VStr "m1")
                (snd (eliminar_movimiento "a" Ejemplo.w)))
         = Ok (-5)).
Proof.
  intros Hr w. split; [|split].
  - intros [mov Hmov] Hcant Hq Hfecha.
    unfold actualizar_movimiento, route, bindM, read_db, ret, lift,
      Firestore.get_movimiento, Firestore.write_movimientos, Firestore.client,
      bindM, ret.
    subst w. cbn [db]. rewrite (get_none_lookup _ _ _ Hcant), Hfecha.
    cbn [Py.truthy Py.lt_int Py.as_int].
    assert ((q =? 0) = false) as -> by (apply Z.eqb_neq; lia).
    assert ((q <? 1) = false) as -> by (apply Z.ltb_ge; lia).
    cbn [negb]. paso Hr. rewrite Hmov. paso Hr. reflexivity.
  - unfold eliminar_movimiento, route, bindM, read_db, ret,
      Firestore.write_movimientos, Firestore.client, bindM, ret.
    subst w. paso Hr. reflexivity.
  - vm_compute. repeat split.
Qed.

Lemma actualizar_eliminar_movimiento_sin_control_witness :
  fst (eliminar_movimiento "a" Ejemplo.w) = (JMensaje "Movimiento eliminado", 200)
  /\ fst (actualizar_movimiento "b" (Ejemplo.peticion_actualizar 100) Ejemplo.w)
     = (JMensaje "Movimiento actualizado", 200).
Proof.
  assert (1 <= 100) as H by lia.
  pose proof (actualizar_eliminar_movimiento_sin_control Ejemplo.fs [] "a"
                (Ejemplo.peticion_actualizar 100) 100 eq_refl) as (_ & Hdel & _).
  pose proof (actualizar_eliminar_movimiento_sin_control Ejemplo.fs [] "b"
                (Ejemplo.peticion_actualizar 100) 100 eq_refl) as (Hupd & _ & _).
  change Ejemplo.w with {| db := Some Ejemplo.fs; consola := [] |}.
  cbv zeta in Hdel, Hupd.
  rewrite Hdel, (Hupd (mk_is_Some _ _ eq_refl) eq_refl H eq_refl). done.
Defined.

(** ** Inversion of the monadic combinators *)

Lemma bindM_Ok {A B : Type} (m : M A) (k : A -> M B) (w w' : world) (b : B) :
  bindM m k w = (Ok b, w') ->
  exists (a : A) (w1 : world), m w = (Ok a, w1) /\ k a w1 = (Ok b, w').
Proof.
  unfold bindM. destruct (m w) as [[a|e] w1]; [eauto | discriminate].
Qed.

Lemma lift_Ok {A : Type} (r : result A) (w w' : world) (a : A) :
  lift r w = (Ok a, w') -> r = Ok a /\ w' = w.
Proof. unfold lift. intros [= -> ->]. done. Qed.

Lemma ret_Ok {A : Type} (x a : A) (w w' : world) :
  ret x w = (Ok a, w') -> a = x /\ w' = w.
Proof. unfold ret. intros [= -> ->]. done. Qed.

Lemma bindR_Ok {A B : Type} (m : result A) (k : A -> result B) (b : B) :
  bindR m k = Ok b -> exists a : A, m = Ok a /\ k a = Ok b.
Proof. unfold bindR. destruct m as [a|e]; [eauto | discriminate]. Qed.

Lemma mapM_Ok {A B : Type} (f : A -> M B) (P : B -> Prop) (l : list A) :
  (forall (x : A) (w w' : world) (y : B), f x w = (Ok y, w') -> P y) ->
  forall (w w' : world) (ys : list B),
    mapM f l w = (Ok ys, w') -> Forall P ys /\ length ys = length l.
Proof.
  intros Hf. induction l as [|x l IH]; intros w w' ys; cbn [mapM].
  - intros [-> _]%ret_Ok. by split.
  - intros (y & w1 & Hy & (ys' & w2 & Hys & [-> _]%ret_Ok)%bindM_Ok)%bindM_Ok.
    destruct (IH _ _ _ Hys) as [HP Hlen]. split.
    + constructor; [by eapply Hf | done].
    + cbn [length]. by rewrite Hlen.
Qed.

(** ** C8: the cells of a report row *)

Lemma columnas_dias_Ok (fecha_inicio : Z) (l : list Z) (col col' : Z) :
  foldM (columnas_dia fecha_inicio) col l = Ok col' ->
  col' = col + 3 * Z.of_nat (length l).
Proof.
  revert col. induction l as [|d l IH]; intros col; cbn [foldM].
  - intros [= <-]. cbn [length]. lia.
  - intros (c & Hc & Hl%IH)%bindR_Ok. unfold columnas_dia in Hc.
    apply bindR_Ok in Hc as (? & _ & Hc). apply bindR_Ok in Hc as (? & _ & Hc).
    apply bindR_Ok in Hc as (? & _ & Hc). apply bindR_Ok in Hc as (? & _ & [= <-]).
    cbn [length]. lia.
Qed.

Lemma celdas_turnos_Ok (salidas : list (gmap string value)) (fecha_dia : string)
    (turnos : list string) (fila fila' : gmap Z value) (col col' : Z) :
  foldM (fun (acc : gmap Z value * Z) turno =>
           let+ total := total_turno salidas fecha_dia turno in
           Ok (if 0 <? total then <[snd acc := VInt total]> (fst acc) else fst acc,
               snd acc + 1))
        (fila, col) turnos = Ok (fila', col') ->
  col' = col + Z.of_nat (length turnos)
  /\ forall c : Z, is_Some (fila' !! c) -> is_Some (fila !! c) \/ col <= c < col'.
Proof.
  revert fila col. induction turnos as [|t turnos IH]; intros fila col; cbn [foldM].
  - intros [= <- <-]. split; [cbn [length]; lia | auto].
  - intros (acc & (total & _ & [= <-])%bindR_Ok & Hacc)%bindR_Ok.
    cbn [fst snd] in Hacc. apply IH in Hacc as [-> Hdom].
    split; [cbn [length]; lia|].
    intros c [Hc | Hc]%Hdom; [|right; lia].
    destruct (0 <? total); [|by left].
    destruct (decide (col = c)) as [<-|Hne]; [right; lia|].
    rewrite lookup_insert_ne in Hc by done. by left.
Qed.

Lemma celdas_dias_Ok (salidas : list (gmap string value)) (fecha_inicio : Z)
    (dias : list Z) (fila fila' : gmap Z value) (col col' : Z) :
  foldM (celdas_dia salidas fecha_inicio) (fila, col) dias = Ok (fila', col') ->
  col' = col + 3 * Z.of_nat (length dias)
  /\ forall c : Z, is_Some (fila' !! c) -> is_Some (fila !! c) \/ col <= c < col'.
Proof.
  revert fila col. induction dias as [|d dias IH]; intros fila col; cbn [foldM].
  - intros [= <- <-]. split; [cbn [length]; lia | auto].
  - intros ([fila1 col1] & Hdia & Hresto)%bindR_Ok.
    unfold celdas_dia in Hdia.
    apply bindR_Ok in Hdia as (fecha_dia & _ & Hdia).
    apply celdas_turnos_Ok in Hdia as [-> Hdom1]. cbn [length] in Hdom1.
    apply IH in Hresto as [-> Hdom]. split; [cbn [length]; lia|].
    clear IH. intros c [[Hc | Hc]%Hdom1 | Hc]%Hdom; [by left | right..]; cbn [length] in *; lia.
Qed.

Lemma foldl_ws_cell_lookup (l : list Z) (fila : gmap Z value) (c : Z) :
  is_Some (foldl ws_cell fila l !! c) <-> is_Some (fila !! c) \/ c ∈ l.
Proof.
  revert fila. induction l as [|x l IH]; intros fila; cbn [foldl].
  - rewrite elem_of_nil. tauto.
  - rewrite IH, elem_of_cons. unfold ws_cell.
    destruct (fila !! x) as [v|] eqn:Hx.
    + split; [tauto|]. intros [H | [-> | H]]; [by left | left; by rewrite Hx | by right].
    + destruct (decide (x = c)) as [->|Hne].
      * rewrite lookup_insert_eq. split; [auto|]. intros _. left. eauto.
      * rewrite lookup_insert_ne by done. split; [tauto|].
        intros [H | [-> | H]]; [by left | done | by right].
Qed.

Lemma foldl_ws_cell_keeps (l : list Z) (fila : gmap Z value) (c : Z) (v : value) :
  fila !! c = Some v -> foldl ws_cell fila l !! c = Some v.
Proof.
  revert fila. induction l as [|x l IH]; intros fila Hc; cbn [foldl]; [done|].
  apply IH. unfold ws_cell. destruct (fila !! x) eqn:Hx; [done|].
  rewrite lookup_insert_ne; [done|]. intros ->. congruence.
Qed.

(** The cells of the latest [INGRESO] go to the columns 2 and 3. *)
Lemma celdas_ingreso_Ok (ultimo : option (gmap string value))
    (fila fila' : gmap Z value) :
  celdas_ingreso ultimo fila = Ok fila' ->
  (forall c : Z, is_Some (fila' !! c) -> is_Some (fila !! c) \/ 2 <= c <= 3)
  /\ (forall c : Z, c < 2 \/ 3 < c -> fila' !! c = fila !! c).
Proof.
  unfold celdas_ingreso. destruct ultimo as [u|]; [|by intros [= <-]; split; auto].
  destruct (bool_decide (u = ∅)); [by intros [= <-]; split; auto|].
  intros (fecha & _ & H)%bindR_Ok.
  destruct (Py.truthy (Py.get_none u "fecha_vencimiento")).
  - apply bindR_Ok in H as (venc & _ & [= <-]). split.
    + intros c. rewrite !lookup_insert. repeat case_decide; auto; right; lia.
    + intros c Hc. by rewrite !lookup_insert_ne by lia.
  - injection H as <-. split.
    + intros c. rewrite !lookup_insert. repeat case_decide; auto; right; lia.
    + intros c Hc. by rewrite !lookup_insert_ne by lia.
Qed.

(** A row of a report of [dias] days has a cell in each of the columns
    [1 .. 5 + 3 * dias + 1] and nowhere else, and the cell that follows the
    day-and-shift cells holds the demand of the period. *)
Lemma fila_medicamento_celdas (fecha_inicio fecha_fin dias : Z)
    (med_doc : string * gmap string value) (w w' : world) (fila : gmap Z value) :
  0 <= dias ->
  fila_medicamento fecha_inicio fecha_fin dias (5 + 3 * dias) (5 + 3 * dias + 1)
                   med_doc w = (Ok fila, w') ->
  (forall c : Z, is_Some (fila !! c) <-> 1 <= c <= 5 + 3 * dias + 1)
  /\ exists demanda : Z, fila !! (5 + 3 * dias) = Some (VInt demanda).
Proof.
  intros Hdias H. unfold fila_medicamento in H. cbv zeta in H.
  apply bindM_Ok in H as (nombre & w0 & _ & H).
  apply bindM_Ok in H as (movs & w1 & _ & H).
  apply bindM_Ok in H as (ultimo & w2 & _ & H).
  apply bindM_Ok in H as (fila1 & w2' & [[Hing _]%celdas_ingreso_Ok _]%lift_Ok & H).
  apply bindM_Ok in H as (stock_inicial & w3 & _ & H).
  apply bindM_Ok in H as (movs2 & w4 & _ & H).
  apply bindM_Ok in H as ([celdas col] & w5 & [Hc _]%lift_Ok & H).
  apply bindM_Ok in H as (demanda & w6 & _ & H).
  apply bindM_Ok in H as (stock_actual & w7 & _ & H).
  apply ret_Ok in H as [-> _]. cbn [fst].
  apply celdas_dias_Ok in Hc as [-> Hdom].
  rewrite length_seqZ, Z2Nat.id in Hdom by done.
  assert (forall c : Z,
             is_Some (<[5 + 3 * dias + 1 := VInt stock_actual]>
                        (<[5 + 3 * dias := VInt demanda]> celdas) !! c) ->
             1 <= c <= 5 + 3 * dias + 1) as Hm.
  { intros c. rewrite !lookup_insert.
    repeat case_decide; try lia. intros [Hc | Hc]%Hdom; [|lia].
    revert Hc. rewrite lookup_insert. case_decide; [lia|].
    intros [Hc | Hc]%Hing; [|lia].
    revert Hc. rewrite lookup_singleton. case_decide; [lia|]. by intros [? [=]]. }
  split.
  - intros c. rewrite foldl_ws_cell_lookup, elem_of_seqZ.
    split; [intros [Hc%Hm | Hc]; lia | intros Hc; right; lia].
  - exists demanda. apply foldl_ws_cell_keeps.
    rewrite lookup_insert_ne by lia. apply lookup_insert_eq.
Qed.

Lemma add_days_Ok (ordinal k r : Z) :
  Fecha.add_days ordinal k = Ok r -> r = ordinal + k.
Proof. unfold Fecha.add_days. destruct (_ && _); [by intros [= <-] | discriminate]. Qed.

Lemma client_Ok (w w' : world) (fs : firestore) :
  Firestore.client w = (Ok fs, w') -> db w = Some fs /\ reachable fs = true /\ w' = w.
Proof.
  unfold Firestore.client. destruct (db w) as [fs'|]; [|discriminate].
  destruct (reachable fs') eqn:Hr; [|discriminate]. by intros [= <- <-].
Qed.

Lemma crear_reporte_excel_Ok (fecha_inicio fecha_fin : Z) (w w' : world) (wb : workbook) :
  crear_reporte_excel fecha_inicio fecha_fin w = (Ok (Some wb), w') ->
  let dias := fecha_fin - fecha_inicio + 1 in
  exists (fs : firestore) (w1 w2 : world),
    db w = Some fs
    /\ col_demanda wb = 5 + 3 * Z.of_nat (length (seqZ 0 dias))
    /\ col_stock wb = col_demanda wb + 1
    /\ mapM (fila_medicamento fecha_inicio fecha_fin dias
               (col_demanda wb) (col_stock wb))
            (order_by "orden" (medicamentos fs)) w1 = (Ok (filas wb), w2).
Proof.
  unfold crear_reporte_excel. intros H.
  apply bindM_Ok in H as (d & w0 & Hd & H).
  unfold read_db in Hd. injection Hd as <- <-.
  destruct (db w) as [fs0|] eqn:Hdb; [|by apply ret_Ok in H as [[=] _]].
  unfold try_except in H.
  match type of H with
  | match ?body w with _ => _ end = _ => destruct (body w) as [[owb|e] w3] eqn:Hbody
  end.
  - injection H as -> ->.
    apply bindM_Ok in Hbody as (col & w1 & [Hcol <-]%lift_Ok & Hbody).
    apply bindM_Ok in Hbody as ([] & ? & [_ ->]%lift_Ok & Hbody).
    apply bindM_Ok in Hbody as ([] & ? & [_ ->]%lift_Ok & Hbody).
    apply bindM_Ok in Hbody as (meds & w2 & Hmeds & Hbody).
    apply bindM_Ok in Hbody as (rows & w4 & Hrows & Hbody).
    apply ret_Ok in Hbody as [[= ->] ->].
    unfold Firestore.stream_medicamentos in Hmeds.
    apply bindM_Ok in Hmeds as (fs & w5 & (Hfs & _ & ->)%client_Ok & [-> ->]%ret_Ok).
    apply columnas_dias_Ok in Hcol. cbn [col_demanda col_stock filas].
    rewrite Hdb in Hfs. injection Hfs as ->.
    exists fs, w1, w4. by subst col.
  - unfold bindM, print, ret in H. discriminate.
Qed.

(** The shape of every workbook that the weekly route delivers. *)
Lemma generar_reporte_semanal_excel_forma
    (w w' : world) (fecha_inicio : Z) (wb : workbook) (code : Z) :
  generar_reporte_semanal_excel (Some fecha_inicio) w = ((JArchivo wb, code), w') ->
  col_demanda wb = 5 + 7 * 3
  /\ col_stock wb = col_demanda wb + 1
  /\ (forall fs : firestore, db w = Some fs ->
      length (filas wb) = length (order_by "orden" (medicamentos fs)))
  /\ Forall (fun fila : gmap Z value =>
               (forall c : Z, is_Some (fila !! c) <-> 1 <= c <= col_stock wb)
               /\ size (filter (fun c => 5 <= c < col_demanda wb) (dom fila)) = 21%nat
               /\ exists demanda : Z, fila !! col_demanda wb = Some (VInt demanda))
            (filas wb).
Proof.
  unfold generar_reporte_semanal_excel, route. intros H.
  match type of H with
  | (let (_, _) := ?body w in _) = _ => destruct (body w) as [[r|e] w1] eqn:Hbody
  end; [|discriminate].
  injection H as -> ->.
  apply bindM_Ok in Hbody as (fecha_fin & w2 & [->%add_days_Ok ->]%lift_Ok & Hbody).
  apply bindM_Ok in Hbody as ([wb0|] & w3 & Hwb & Hbody);
    [|by apply ret_Ok in Hbody as [[=] _]].
  apply bindM_Ok in Hbody as ([] & w4 & [_ ->]%lift_Ok & [[= <- ->] <-]%ret_Ok).
  apply crear_reporte_excel_Ok in Hwb as (fs & w1 & w2 & Hdb & Hcd & Hcs & Hrows).
  replace (fecha_inicio + 6 - fecha_inicio + 1) with 7 in * by lia.
  change (Z.of_nat (length (seqZ 0 7))) with 7 in Hcd.
  rewrite Hcs, Hcd in *. clear Hcs Hcd.
  eapply (mapM_Ok _ (fun fila : gmap Z value =>
            (forall c : Z, is_Some (fila !! c) <-> 1 <= c <= 5 + 3 * 7 + 1)
            /\ exists demanda : Z, fila !! (5 + 3 * 7) = Some (VInt demanda)))
    in Hrows as [Hfilas Hlen].
  2:{ intros med wa wb' fila Hfila.
      by apply (fila_medicamento_celdas _ _ 7 _ _ _ _ ltac:(lia)) in Hfila. }
  split; [lia|]. split; [done|]. split.
  - intros fs' Hfs'. rewrite Hdb in Hfs'. by injection Hfs' as <-.
  - eapply Forall_impl; [exact Hfilas|]. intros fila [Hdom Hdem].
    split; [done|]. split; [|done].
    assert (dom fila = list_to_set (seqZ 1 27)) as ->.
    { apply set_eq. intros c.
      rewrite elem_of_dom, Hdom, elem_of_list_to_set, elem_of_seqZ. lia. }
    vm_compute. reflexivity.
Qed.

(** ** C4: the demand ranking *)

(** C4 as stated fails: with today 2024-01-15 and a window of 30 days, a
    [SALIDA] dated 2024-03-01 lies outside the trailing window and is
    counted all the same: the entry reports 5 units in 2 movements, the
    window holds 1 unit in 1 movement. *)
Lemma demanda_en_ventana_counterexample :
  analisis_demanda 30 Ejemplo.hoy {| db := Some Ejemplo.fs_futuro; consola := [] |}
    = ((JDemanda [{| nombre := VStr "Atropina";
                     total_dispensado := 5;
                     frecuencia := 2;
                     promedio_diario := (5, 30) |}], 200),
       {| db := Some Ejemplo.fs_futuro; consola := [] |})
  /\ ~ demanda_en_ventana Ejemplo.fs_futuro 30 Ejemplo.hoy.
Proof.
  assert (analisis_demanda 30 Ejemplo.hoy
            {| db := Some Ejemplo.fs_futuro; consola := [] |}
          = ((JDemanda [{| nombre := VStr "Atropina";
                           total_dispensado := 5;
                           frecuencia := 2;
                           promedio_diario := (5, 30) |}], 200),
             {| db := Some Ejemplo.fs_futuro; consola := [] |})) as Hrun
    by (vm_compute; reflexivity).
  split; [exact Hrun|].
  intros H. destruct (H _ _ _ Hrun) as [_ He].
  destruct (He _ (list_elem_of_here _ _)) as (id & med & Hid & _ & Htotal & _).
  unfold Firestore.lookup in Hid. cbn [Ejemplo.fs_futuro medicamentos find fst] in Hid.
  destruct (String.eqb_spec "m1" id) as [<-|]; [|discriminate].
  vm_compute in Htotal. discriminate.
Qed.

Lemma py_eqb_str_str (a b : string) : Py.eqb (VStr a) (VStr b) = String.eqb a b.
Proof.
  rewrite py_eqb_str. destruct (String.eqb_spec a b) as [->|Hne].
  - by apply bool_decide_eq_true.
  - apply bool_decide_eq_false. congruence.
Qed.

Lemma demanda_sumar_texto (k : string) (v : value) (q : Z)
    (d : list (string * (Z * Z))) :
  Py.as_int v = Some q ->
  demanda_sumar (VStr k) v (claves_py d) = Ok (claves_py (sumar_par k q d)).
Proof.
  intros Hv. induction d as [|[k' [c f]] d IH].
  - cbn [claves_py fmap list_fmap demanda_sumar]. unfold Py.add. rewrite Hv. done.
  - unfold claves_py in *. rewrite fmap_cons. cbn [demanda_sumar fst snd sumar_par].
    rewrite py_eqb_str_str. destruct (String.eqb k' k).
    + unfold Py.add. rewrite Hv. done.
    + rewrite IH. done.
Qed.

Lemma py_ge_desde (fecha_desde : string) (mov : gmap string value) (f : string) :
  Py.get mov "fecha" (VStr "") = VStr f ->
  Py.ge (Py.get mov "fecha" (VStr "")) (VStr fecha_desde) = Ok (desde fecha_desde mov).
Proof.
  intros Hf. unfold desde. rewrite Hf. unfold Py.ge, Py.compare, String.ltb.
  cbn [Py.as_int bindR]. by destruct (String.compare f fecha_desde).
Qed.

(** The first loop on well-formed movements: it groups the pairs. *)
Lemma foldM_acumular_demanda (fecha_desde : string) (movs : list (gmap string value))
    (d : list (string * (Z * Z))) :
  Forall (fun mov => es_tipo "SALIDA" mov = true
                     /\ salida_bien_formada fecha_desde mov = true) movs ->
  foldM (acumular_demanda fecha_desde) (claves_py d) movs
  = Ok (claves_py (agrupar (pares_desde fecha_desde movs) d)).
Proof.
  intros Hwf. revert d. induction Hwf as [|mov movs [Htipo Hmov] _ IH]; intros d; [done|].
  cbn [foldM]. unfold acumular_demanda, pares_desde. cbn [List.filter].
  unfold salida_bien_formada in Hmov. rewrite Htipo in Hmov. cbn [implb] in Hmov.
  assert (Py.ge (Py.get mov "fecha" (VStr "")) (VStr fecha_desde)
          = Ok (desde fecha_desde mov)) as ->.
  { destruct (Py.get mov "fecha" (VStr "")) as [| | |f|] eqn:Hf; try discriminate.
    rewrite <- Hf. by apply (py_ge_desde _ _ f). }
  cbn [bindR].
  destruct (Py.get mov "fecha" (VStr "")) as [| | |f|] eqn:Hf; try discriminate.
  destruct (desde fecha_desde mov) eqn:Hdesde; cbn [implb] in Hmov.
  - apply andb_true_iff in Hmov as [Hq Hid].
    unfold cantidad_numerica in Hq. apply bool_decide_eq_true in Hq as [q Hq].
    destruct (Py.get_none mov "medicamento_id") as [| | |s|] eqn:Hs; try discriminate.
    rewrite (demanda_sumar_texto _ _ _ _ Hq). cbn [bindR].
    rewrite IH. rewrite fmap_cons. unfold agrupar. cbn [foldl fst snd].
    unfold id_de, cantidad_de. by rewrite Hs, Hq.
  - apply IH.
Qed.

(** *** The grouped dictionary *)

Lemma buscar_sumar_par (k k' : string) (q : Z) (d : list (string * (Z * Z))) :
  buscar k' (sumar_par k q d)
  = if String.eqb k k'
    then Some (match buscar k d with
               | Some cf => (fst cf + q, snd cf + 1)
               | None => (q, 1)
               end)
    else buscar k' d.
Proof.
  induction d as [|[k0 [c f]] d IH]; cbn [sumar_par buscar].
  - by destruct (String.eqb k k').
  - destruct (String.eqb_spec k0 k) as [->|Hne]; cbn [buscar].
    + destruct (String.eqb k k'); done.
    + rewrite IH. destruct (String.eqb_spec k k') as [<-|Hne'].
      * by destruct (String.eqb_spec k0 k).
      * done.
Qed.

Lemma claves_sumar_par (k : string) (q : Z) (d : list (string * (Z * Z))) :
  NoDup (fst <$> d) -> NoDup (fst <$> sumar_par k q d)
  /\ forall k' : string, k' ∈ (fst <$> sumar_par k q d) <-> k' = k \/ k' ∈ (fst <$> d).
Proof.
  induction d as [|[k0 [c f]] d IH]; cbn [sumar_par].
  - intros _. split; [apply NoDup_singleton|].
    intros k'. rewrite !fmap_cons, fmap_nil. cbn [fst].
    rewrite elem_of_cons, elem_of_nil. tauto.
  - rewrite fmap_cons. cbn [fst]. intros [Hk0 Hd]%NoDup_cons.
    destruct (String.eqb_spec k0 k) as [->|Hne]; rewrite fmap_cons; cbn [fst].
    + split; [by apply NoDup_cons|]. intros k'. rewrite !elem_of_cons. tauto.
    + destruct (IH Hd) as [Hnd Hin]. split.
      * apply NoDup_cons. split; [|done]. rewrite Hin. intros [?|?]; congruence.
      * intros k'. rewrite !elem_of_cons, Hin. tauto.
Qed.

Lemma NoDup_agrupar (pares : list (string * Z)) (d : list (string * (Z * Z))) :
  NoDup (fst <$> d) -> NoDup (fst <$> agrupar pares d).
Proof.
  revert d. induction pares as [|p pares IH]; intros d Hd; [done|].
  unfold agrupar. cbn [foldl]. apply IH. by apply claves_sumar_par.
Qed.

Lemma buscar_agrupar (k : string) (pares : list (string * Z))
    (d : list (string * (Z * Z))) :
  buscar k (agrupar pares d)
  = match buscar k d with
    | Some cf => Some (fst cf + suma_clave k pares, snd cf + cuenta_clave k pares)
    | None => if cuenta_clave k pares =? 0 then None
              else Some (suma_clave k pares, cuenta_clave k pares)
    end.
Proof.
  revert d. induction pares as [|[k0 q] pares IH]; intros d.
  - unfold agrupar, suma_clave, cuenta_clave. cbn [foldl List.filter fmap list_fmap length].
    destruct (buscar k d) as [[c f]|]; [|done]. cbn [fst snd sumZ foldr Z.of_nat].
    do 2 f_equal; lia.
  - unfold agrupar in *. cbn [foldl fst snd]. rewrite IH, buscar_sumar_par.
    unfold suma_clave, cuenta_clave. cbn [List.filter fst].
    destruct (String.eqb_spec k0 k) as [->|Hne].
    + rewrite fmap_cons, sumZ_cons. cbn [snd length].
      destruct (buscar k d) as [[c f]|]; cbn [fst snd].
      * do 2 f_equal; lia.
      * assert ((Z.of_nat (S (length
                   (List.filter (fun p : string * Z => String.eqb p.1 k) pares))) =? 0)
                = false) as -> by (apply Z.eqb_neq; lia).
        do 2 f_equal; lia.
    + done.
Qed.

Lemma buscar_elem_of (k : string) (v : Z * Z) (d : list (string * (Z * Z))) :
  NoDup (fst <$> d) -> (k, v) ∈ d <-> buscar k d = Some v.
Proof.
  induction d as [|[k0 v0] d IH]; cbn [buscar].
  - intros _. rewrite elem_of_nil. split; [done | discriminate].
  - rewrite fmap_cons. cbn [fst]. intros [Hk0 Hd]%NoDup_cons.
    rewrite elem_of_cons, (IH Hd).
    destruct (String.eqb_spec k0 k) as [->|Hne].
    + split.
      * intros [[= ->] | Hb]; [done|]. destruct Hk0.
        apply (IH Hd) in Hb. apply list_elem_of_fmap. by exists (k, v).
      * intros [= ->]. by left.
    + split; [intros [[= -> ->] | ?]; done | by right].
Qed.

Lemma claves_agrupar (pares : list (string * Z)) (d : list (string * (Z * Z))) (k : string) :
  NoDup (fst <$> d) ->
  k ∈ (fst <$> agrupar pares d) <-> k ∈ (fst <$> pares) \/ k ∈ (fst <$> d).
Proof.
  revert d. induction pares as [|p pares IH]; intros d Hd.
  - cbn [agrupar foldl]. rewrite fmap_nil, elem_of_nil. tauto.
  - unfold agrupar in *. cbn [foldl]. destruct (claves_sumar_par p.1 p.2 d Hd) as [Hnd Hin].
    rewrite (IH _ Hnd), Hin, fmap_cons, elem_of_cons. tauto.
Qed.

(** *** The second loop *)

Lemma foldM_M_resultado_paso (fs : firestore) (log : list log_entry) (dias : Z)
    (d : list (string * (Z * Z))) (acc : list entrada_demanda) :
  reachable fs = true ->
  dias ≠ 0 ->
  Forall (fun p => valid_id (fst p) = true) d ->
  foldM_M (resultado_paso dias) acc (claves_py d) {| db := Some fs; consola := log |}
  = (Ok (acc ++ omap (entrada_par fs dias) d), {| db := Some fs; consola := log |}).
Proof.
  intros Hr Hdias Hd. revert acc. induction Hd as [|[k [c f]] d Hk _ IH]; intros acc.
  - cbn [claves_py fmap list_fmap foldM_M omap list_omap]. by rewrite app_nil_r.
  - unfold claves_py in *. rewrite fmap_cons. cbn [foldM_M fst snd].
    unfold bindM at 1. unfold resultado_paso at 1. cbn [fst snd] in *.
    unfold bindM at 1. unfold document_medicamento. rewrite Hk.
    unfold Firestore.get_medicamento, Firestore.client, bindM, ret. cbn [db].
    rewrite Hr. cbn [omap list_omap]. unfold entrada_par at 1. cbn [fst snd].
    destruct (Firestore.lookup k (medicamentos fs)) as [med|].
    + assert ((dias =? 0) = false) as -> by by apply Z.eqb_neq.
      fold (@bindM (list entrada_demanda)). rewrite IH. by rewrite <- app_assoc.
    + apply IH.
Qed.

(** *** The pairs of a key are the dated [SALIDA] movements of the
    medication *)

Lemma get_none_medicamento (mov : gmap string value) (s : string) :
  Py.get_none mov "medicamento_id" = VStr s <-> mov !! "medicamento_id" = Some (VStr s).
Proof.
  unfold Py.get_none, Py.get. destruct (mov !! "medicamento_id"); split; congruence.
Qed.

Lemma pares_salidas_desde (fecha_desde : string) (k : string)
    (movs : list (string * gmap string value)) :
  forallb (fun p => salida_bien_formada fecha_desde (snd p)) movs = true ->
  snd <$> List.filter (fun p => String.eqb (fst p) k)
            (pares_desde fecha_desde
               (snd <$> Firestore.where_eq "tipo" (VStr "SALIDA") movs))
  = cantidad_de <$> salidas_desde fecha_desde k movs.
Proof.
  unfold pares_desde, salidas_desde. rewrite where_eq_snd.
  induction movs as [|[id mov] movs IH]; [done|].
  cbn [forallb snd]. intros [Hmov Hmovs]%andb_true_iff.
  rewrite fmap_cons. cbn [List.filter snd]. fold (es_tipo "SALIDA" mov).
  unfold salida_bien_formada in Hmov.
  destruct (es_tipo "SALIDA" mov); cbn [andb implb] in *; [|by apply IH].
  cbn [List.filter].
  destruct (desde fecha_desde mov) eqn:Hdesde; cbn [andb]; [|by apply IH].
  destruct (Py.get mov "fecha" (VStr "")) as [| | |f|]; try discriminate.
  cbn [implb] in Hmov. apply andb_true_iff in Hmov as [_ Hid].
  rewrite fmap_cons. cbn [List.filter fst]. unfold id_de at 1.
  destruct (Py.get_none mov "medicamento_id") as [| | |s|] eqn:Hs; try discriminate.
  apply get_none_medicamento in Hs. unfold referencia at 1. rewrite Hs.
  destruct (String.eqb_spec s k) as [->|Hne].
  - rewrite bool_decide_eq_true_2 by done. rewrite !fmap_cons. cbn [snd].
    f_equal. by apply IH.
  - rewrite bool_decide_eq_false_2 by congruence. by apply IH.
Qed.

Lemma suma_clave_total (fecha_desde : string) (k : string)
    (movs : list (string * gmap string value)) :
  forallb (fun p => salida_bien_formada fecha_desde (snd p)) movs = true ->
  suma_clave k (pares_desde fecha_desde
                  (snd <$> Firestore.where_eq "tipo" (VStr "SALIDA") movs))
  = total_desde fecha_desde k movs
  /\ cuenta_clave k (pares_desde fecha_desde
                       (snd <$> Firestore.where_eq "tipo" (VStr "SALIDA") movs))
     = frecuencia_desde fecha_desde k movs.
Proof.
  intros Hwf. unfold suma_clave, cuenta_clave, total_desde, frecuencia_desde.
  pose proof (pares_salidas_desde _ k _ Hwf) as Heq. split; [by rewrite Heq|].
  apply (f_equal length) in Heq. rewrite !length_fmap in Heq. by rewrite Heq.
Qed.

(** *** Sorting *)

Lemma insert_by_Permutation {A : Type} (before : A -> A -> bool) (x : A) (l : list A) :
  insert_by before x l ≡ₚ x :: l.
Proof.
  induction l as [|y l IH]; cbn [insert_by]; [done|].
  destruct (before y x); [|done]. rewrite IH. apply perm_swap.
Qed.

Lemma sort_by_Permutation {A : Type} (before : A -> A -> bool) (l : list A) :
  sort_by before l ≡ₚ l.
Proof.
  unfold sort_by. induction l as [|x l IH]; cbn [foldr]; [done|].
  by rewrite insert_by_Permutation, IH.
Qed.

Section sorted.
Context {A : Type} (before : A -> A -> bool) (R : A -> A -> Prop).
Hypothesis R_trans : forall x y z : A, R x y -> R y z -> R x z.
Hypothesis before_true : forall x y : A, before y x = true -> R y x.
Hypothesis before_false : forall x y : A, before y x = false -> R x y.

Lemma insert_by_sorted (x : A) (l : list A) :
  StronglySorted R l -> StronglySorted R (insert_by before x l).
Proof.
  induction 1 as [|y l Hl IH Hy]; cbn [insert_by].
  - repeat constructor.
  - destruct (before y x) eqn:Hb.
    + constructor; [done|].
      rewrite insert_by_Permutation. constructor; [by apply before_true | done].
    + constructor; [by constructor|].
      constructor; [by apply before_false|].
      eapply Forall_impl; [exact Hy|]. intros z Hz.
      eapply R_trans; [by apply before_false | done].
Qed.

Lemma sort_by_sorted (l : list A) : StronglySorted R (sort_by before l).
Proof.
  unfold sort_by. induction l as [|x l IH]; cbn [foldr]; [constructor|].
  by apply insert_by_sorted.
Qed.
End sorted.

Lemma StronglySorted_take {A : Type} (R : A -> A -> Prop) (n : nat) (l : list A) :
  StronglySorted R l -> StronglySorted R (take n l).
Proof.
  intros Hl. revert n. induction Hl as [|x l Hl IH Hx]; intros [|n]; cbn [take];
    try constructor; [apply IH|].
  apply Forall_forall. intros y Hy.
  rewrite Forall_forall in Hx. apply Hx. eapply subseteq_take; exact Hy.
Qed.

(** *** Assembling the ranking *)

Lemma where_eq_salidas (fecha_desde : string) (movs : list (string * gmap string value)) :
  forallb (fun p => salida_bien_formada fecha_desde (snd p)) movs = true ->
  Forall (fun mov => es_tipo "SALIDA" mov = true
                     /\ salida_bien_formada fecha_desde mov = true)
         (snd <$> Firestore.where_eq "tipo" (VStr "SALIDA") movs).
Proof.
  rewrite where_eq_snd. induction movs as [|[id mov] movs IH]; [constructor|].
  cbn [forallb snd]. intros [Hmov Hmovs]%andb_true_iff.
  rewrite fmap_cons. cbn [List.filter snd]. fold (es_tipo "SALIDA" mov).
  destruct (es_tipo "SALIDA" mov) eqn:Htipo; [|by apply IH].
  constructor; [done | by apply IH].
Qed.

Lemma pares_desde_validos (fecha_desde : string) (movs : list (gmap string value)) :
  Forall (fun mov => es_tipo "SALIDA" mov = true
                     /\ salida_bien_formada fecha_desde mov = true) movs ->
  Forall (fun p => valid_id (fst p) = true) (pares_desde fecha_desde movs).
Proof.
  unfold pares_desde. induction 1 as [|mov movs [Htipo Hmov] _ IH]; [constructor|].
  cbn [List.filter]. destruct (desde fecha_desde mov) eqn:Hdesde; [|done].
  rewrite fmap_cons. constructor; [|done]. cbn [fst].
  unfold salida_bien_formada in Hmov. rewrite Htipo, Hdesde in Hmov. cbn [implb] in Hmov.
  destruct (Py.get mov "fecha" (VStr "")); try discriminate.
  apply andb_true_iff in Hmov as [_ Hid]. unfold id_de.
  by destruct (Py.get_none mov "medicamento_id").
Qed.

Lemma omap_entrada_par (fs : firestore) (fecha_desde : string) (dias : Z)
    (d : list (string * (Z * Z))) :
  Forall (fun p => snd p = (total_desde fecha_desde (fst p) (movimientos fs),
                            frecuencia_desde fecha_desde (fst p) (movimientos fs))) d ->
  omap (entrada_par fs dias) d
  = entrada_de fs fecha_desde dias
      <$> filter (fun k => is_Some (Firestore.lookup k (medicamentos fs))) (fst <$> d).
Proof.
  induction 1 as [|[k v] d Hv _ IH]; [done|].
  rewrite fmap_cons, filter_cons. cbn [omap list_omap fst snd] in *.
  unfold entrada_par at 1, entrada_de at 1. cbn [fst snd]. subst v. cbn [fst snd].
  fold (omap (entrada_par fs dias) d). rewrite IH.
  destruct (Firestore.lookup k (medicamentos fs)) as [med|] eqn:Hk.
  - rewrite decide_True by eauto. rewrite fmap_cons. f_equal.
    unfold entrada_de. by rewrite Hk.
  - rewrite decide_False; [done|]. by intros [? [=]].
Qed.

(** C4, amended.  On a reachable store with well-formed [SALIDA]
    movements, for a number of days other than 0 that leaves [hoy - dias]
    a date, [analisis_demanda] aggregates exactly the [SALIDA] movements
    whose date is [hoy - dias] or later, later than today included: there
    is one entry per stored medication that has such a movement, with the
    sum of their quantities, their number and the operands of the daily
    average; the answer is that list sorted by descending total and cut to
    its first 10 entries. *)
Theorem analisis_demanda_desde
    (fs : firestore) (log : list log_entry) (dias hoy : Z) :
  reachable fs = true ->
  dias ≠ 0 ->
  1 <= hoy - dias <= Fecha.MAXORDINAL ->
  forallb (fun p => salida_bien_formada (Fecha.isoformat (hoy - dias)) (snd p))
          (movimientos fs) = true ->
  let fecha_desde := Fecha.isoformat (hoy - dias) in
  let w := {| db := Some fs; consola := log |} in
  exists (claves : list string) (resultado : list entrada_demanda),
    analisis_demanda dias hoy w = ((JDemanda resultado, 200), w)
    /\ NoDup claves
    /\ (forall id : string,
          id ∈ claves <->
          is_Some (Firestore.lookup id (medicamentos fs))
          /\ 0 < frecuencia_desde fecha_desde id (movimientos fs))
    /\ resultado
       = take 10 (sort_by (fun y x => total_dispensado x <? total_dispensado y)
                          (entrada_de fs fecha_desde dias <$> claves))
    /\ StronglySorted (fun a b => total_dispensado b <= total_dispensado a) resultado
    /\ (length resultado <= 10)%nat
    /\ (forall e : entrada_demanda, e ∈ resultado ->
          exists id : string, id ∈ claves /\ e = entrada_de fs fecha_desde dias id).
Proof.
  intros Hr Hdias Hrango Hwf fecha_desde w.
  pose (movs := snd <$> Firestore.where_eq "tipo" (VStr "SALIDA") (movimientos fs)).
  pose (d := agrupar (pares_desde fecha_desde movs) []).
  pose proof (where_eq_salidas _ _ Hwf) as Hmovs. fold fecha_desde movs in Hmovs.
  assert (NoDup (fst <$> d)) as Hnd by (apply NoDup_agrupar; constructor).
  assert (forall k v, (k, v) ∈ d ->
            v = (total_desde fecha_desde k (movimientos fs),
                 frecuencia_desde fecha_desde k (movimientos fs))
            /\ 0 < frecuencia_desde fecha_desde k (movimientos fs)) as Hd.
  { intros k v Hkv%(buscar_elem_of _ _ _ Hnd). unfold d in Hkv.
    rewrite buscar_agrupar in Hkv. cbn [buscar] in Hkv.
    destruct (suma_clave_total fecha_desde k _ Hwf) as [Hs Hc].
    fold fecha_desde movs in Hs, Hc. rewrite Hs, Hc in Hkv.
    destruct (Z.eqb_spec (frecuencia_desde fecha_desde k (movimientos fs)) 0) as [|Hne];
      [discriminate|].
    injection Hkv as <-. split; [done|].
    unfold frecuencia_desde in *. lia. }
  exists (filter (fun k => is_Some (Firestore.lookup k (medicamentos fs))) (fst <$> d)).
  eexists. split; [|split; [|split; [|split; [reflexivity|split; [|split]]]]].
  - unfold analisis_demanda, route, bindM, read_db, lift, ret,
      Firestore.stream_movimientos, Firestore.client, bindM, ret. subst w. cbn [db].
    unfold Fecha.add_days.
    assert (((1 <=? hoy + - dias) && (hoy + - dias <=? Fecha.MAXORDINAL)) = true) as ->.
    { apply andb_true_iff. rewrite !Z.leb_le. lia. }
    paso Hr. change (hoy + - dias) with (hoy - dias). fold fecha_desde movs.
    change (@nil (value * (Z * Z))) with (claves_py []).
    rewrite (foldM_acumular_demanda _ _ _ Hmovs). fold d.
    change (@nil entrada_demanda) with (@nil entrada_demanda ++ []) at 1.
    rewrite foldM_M_resultado_paso; [| done | done |].
    + rewrite app_nil_l. rewrite (omap_entrada_par fs fecha_desde); [done|].
      apply Forall_forall. intros [k v] Hkv. cbn [fst snd]. by apply Hd.
    + apply Forall_forall. intros [k v] Hkv. cbn [fst].
      assert (k ∈ (fst <$> d)) as Hk by (apply list_elem_of_fmap; by exists (k, v)).
      apply claves_agrupar in Hk; [|constructor].
      destruct Hk as [Hk | Hk]; [|by apply elem_of_nil in Hk].
      apply list_elem_of_fmap in Hk as ([k' q] & -> & Hp).
      pose proof (pares_desde_validos _ _ Hmovs) as Hval.
      rewrite Forall_forall in Hval. by apply (Hval _ Hp).
  - by apply NoDup_filter.
  - intros id. rewrite list_elem_of_filter. split.
    + intros [Hid ([k v] & -> & Hkv)%list_elem_of_fmap]. split; [done|].
      by apply (Hd _ _ Hkv).
    + intros [Hid Hpos]. split; [done|].
      destruct (buscar id d) as [v|] eqn:Hb.
      * apply (buscar_elem_of _ _ _ Hnd) in Hb.
        apply list_elem_of_fmap. by exists (id, v).
      * unfold d in Hb. rewrite buscar_agrupar in Hb. cbn [buscar] in Hb.
        destruct (suma_clave_total fecha_desde id _ Hwf) as [_ Hc].
        fold fecha_desde movs in Hc. rewrite Hc in Hb.
        destruct (Z.eqb_spec (frecuencia_desde fecha_desde id (movimientos fs)) 0);
          [lia | discriminate].
  - apply StronglySorted_take.
    apply (sort_by_sorted _ (fun a b => total_dispensado b <= total_dispensado a)).
    + intros x y z ??. lia.
    + intros x y Hxy%Z.ltb_lt. lia.
    + intros x y Hxy%Z.ltb_ge. lia.
  - rewrite length_take. lia.
  - intros e He. apply subseteq_take in He. rewrite sort_by_Permutation in He.
    apply list_elem_of_fmap in He as (id & -> & Hid). eauto.
Qed.

Lemma analisis_demanda_desde_witness :
  exists resultado : list entrada_demanda,
    analisis_demanda 30 Ejemplo.hoy {| db := Some Ejemplo.fs_futuro; consola := [] |}
    = ((JDemanda resultado, 200), {| db := Some Ejemplo.fs_futuro; consola := [] |})
    /\ (length resultado <= 10)%nat.
Proof.
  assert (30 ≠ 0) as Hdias by lia.
  assert (1 <= Ejemplo.hoy - 30 <= Fecha.MAXORDINAL) as Hrango
    by (unfold Ejemplo.hoy, Fecha.MAXORDINAL; lia).
  destruct (analisis_demanda_desde Ejemplo.fs_futuro [] 30 Ejemplo.hoy
              eq_refl Hdias Hrango eq_refl)
    as (claves & resultado & Hrun & _ & _ & _ & _ & Hlen & _).
  exists resultado. split; [exact Hrun | exact Hlen].
Defined.

(** ** The report is delivered on a healthy store *)

Lemma legible_fecha (mov : gmap string value) :
  movimiento_legible mov = true -> exists f : string, Py.get mov "fecha" (VStr "") = VStr f.
Proof.
  unfold movimiento_legible, Py.get. intros [Hf _]%andb_true_iff.
  destruct (mov !! "fecha") as [[]|]; try discriminate; eauto.
Qed.

Lemma legible_cantidad (mov : gmap string value) (acc : Z) :
  movimiento_legible mov = true ->
  exists r : Z, Py.add acc (Py.get mov "cantidad" (VInt 0)) = Ok r.
Proof.
  unfold movimiento_legible, cantidad_numerica, Py.add.
  intros [_ [q ->]%bool_decide_eq_true]%andb_true_iff. eauto.
Qed.

Lemma ultimo_ingreso_Ok (movs : list (gmap string value))
    (ultimo : option (gmap string value)) :
  Forall (fun mov => movimiento_legible mov = true) movs ->
  (forall u, ultimo = Some u -> movimiento_legible u = true) ->
  exists r, foldM ultimo_ingreso_paso ultimo movs = Ok r.
Proof.
  intros Hmovs. revert ultimo. induction Hmovs as [|mov movs Hmov _ IH]; intros ultimo Hu.
  - cbn [foldM]. eauto.
  - cbn [foldM]. unfold ultimo_ingreso_paso.
    destruct (Py.eqb (Py.get_none mov "tipo") (VStr "INGRESO")); cbn [bindR]; [|by apply IH].
    destruct ultimo as [u|]; cbn [bindR].
    + destruct (legible_fecha _ Hmov) as [f ->].
      destruct (legible_fecha _ (Hu _ eq_refl)) as [g ->].
      unfold Py.or, Py.gt, Py.compare. cbn [Py.truthy Py.as_int].
      destruct (negb (String.eqb g "")); cbn [Py.as_int bindR];
        destruct (String.compare f _); apply IH; intros ? [= <-]; auto.
    + apply IH. by intros ? [= <-].
Qed.

Lemma total_turno_Ok (salidas : list (gmap string value)) (fecha_dia turno : string) :
  Forall (fun mov => movimiento_legible mov = true) salidas ->
  exists total : Z, total_turno salidas fecha_dia turno = Ok total.
Proof.
  unfold total_turno.
  match goal with |- _ -> exists total, foldM ?F _ _ = _ => set (f := F) end.
  generalize 0. intros acc Hs. revert acc.
  induction Hs as [|mov salidas Hmov _ IH]; intros acc; cbn [foldM]; [eauto|].
  unfold f at 1. destruct (_ && _); cbn [bindR]; [|apply IH].
  destruct (legible_cantidad _ acc Hmov) as [r ->]. cbn [bindR]. apply IH.
Qed.

Lemma celdas_dias_entrega (salidas : list (gmap string value)) (fecha_inicio : Z)
    (dias : list Z) (acc : gmap Z value * Z) :
  Forall (fun mov => movimiento_legible mov = true) salidas ->
  Forall (fun d => 1 <= fecha_inicio + d <= Fecha.MAXORDINAL) dias ->
  exists r, foldM (celdas_dia salidas fecha_inicio) acc dias = Ok r.
Proof.
  intros Hs Hdias. revert acc. induction Hdias as [|d dias Hd _ IH]; intros acc;
    cbn [foldM]; [eauto|].
  unfold celdas_dia at 1. unfold Fecha.add_days.
  assert (((1 <=? fecha_inicio + d) && (fecha_inicio + d <=? Fecha.MAXORDINAL)) = true)
    as -> by (apply andb_true_iff; rewrite !Z.leb_le; lia).
  cbn [bindR foldM].
  destruct (total_turno_Ok salidas (Fecha.isoformat (fecha_inicio + d)) "M" Hs) as [t1 ->].
  cbn [bindR].
  destruct (total_turno_Ok salidas (Fecha.isoformat (fecha_inicio + d)) "T" Hs) as [t2 ->].
  cbn [bindR].
  destruct (total_turno_Ok salidas (Fecha.isoformat (fecha_inicio + d)) "N" Hs) as [t3 ->].
  cbn [bindR]. apply IH.
Qed.

Lemma demanda_periodo_Ok (salidas : list (gmap string value)) (fecha_inicio fecha_fin : Z) :
  Forall (fun mov => movimiento_legible mov = true) salidas ->
  exists demanda : Z, demanda_periodo salidas fecha_inicio fecha_fin = Ok demanda.
Proof.
  unfold demanda_periodo.
  match goal with |- _ -> exists total, foldM ?F _ _ = _ => set (paso := F) end.
  generalize 0. intros acc Hs. revert acc.
  induction Hs as [|mov salidas Hmov _ IH]; intros acc; cbn [foldM]; [eauto|].
  unfold paso at 1. cbn zeta. destruct (legible_fecha _ Hmov) as [f ->].
  unfold Py.ge, Py.le, Py.compare. cbn [Py.as_int bindR].
  destruct (String.compare f (Fecha.isoformat fecha_inicio)); cbn [bindR];
    destruct (String.compare f (Fecha.isoformat fecha_fin)); cbn [bindR];
    try apply IH;
    destruct (legible_cantidad _ acc Hmov) as [r ->]; cbn [bindR]; apply IH.
Qed.

Lemma get_column_letter_Ok (col : Z) :
  1 <= col <= 18278 -> get_column_letter col = Ok tt.
Proof.
  intros H. unfold get_column_letter.
  by assert (((1 <=? col) && (col <=? 18278)) = true)
    as -> by (apply andb_true_iff; rewrite !Z.leb_le; lia).
Qed.

Lemma columnas_dias_entrega (fecha_inicio : Z) (dias : list Z) (col : Z) :
  Forall (fun d => 1 <= fecha_inicio + d <= Fecha.MAXORDINAL) dias ->
  1 <= col -> col + 3 * Z.of_nat (length dias) <= 18279 ->
  exists col' : Z, foldM (columnas_dia fecha_inicio) col dias = Ok col'.
Proof.
  intros Hdias. revert col. induction Hdias as [|d dias Hd _ IH]; intros col H1 H2;
    cbn [foldM]; [eauto|].
  cbn [length] in H2. unfold columnas_dia at 1, Fecha.add_days.
  assert (((1 <=? fecha_inicio + d) && (fecha_inicio + d <=? Fecha.MAXORDINAL)) = true)
    as -> by (apply andb_true_iff; rewrite !Z.leb_le; lia).
  cbn [bindR]. rewrite !get_column_letter_Ok by lia. cbn [bindR]. apply IH; lia.
Qed.

Lemma legibles_where_eq (field : string) (v : value)
    (c : list (string * gmap string value)) :
  forallb (fun p => movimiento_legible (snd p)) c = true ->
  Forall (fun mov => movimiento_legible mov = true) (snd <$> Firestore.where_eq field v c).
Proof.
  unfold Firestore.where_eq. induction c as [|p c IH]; [constructor|].
  cbn [forallb List.filter]. intros [Hp Hc]%andb_true_iff.
  destruct (bool_decide _); [|by apply IH].
  rewrite fmap_cons. constructor; [done | by apply IH].
Qed.

Lemma Forall_filter_list {A : Type} (P : A -> Prop) (f : A -> bool) (l : list A) :
  Forall P l -> Forall P (List.filter f l).
Proof.
  induction 1 as [|x l Hx _ IH]; cbn [List.filter]; [constructor|].
  destruct (f x); [by constructor | done].
Qed.

Lemma legibles_numericos (med : value) (c : list (string * gmap string value)) :
  forallb (fun p => movimiento_legible (snd p)) c = true ->
  movimientos_numericos med c = true.
Proof.
  unfold movimientos_numericos. induction c as [|p c IH]; [done|].
  cbn [forallb]. intros [Hp Hc]%andb_true_iff. rewrite (IH Hc), andb_true_r.
  unfold movimiento_legible in Hp. apply andb_true_iff in Hp as [_ ->].
  by destruct (referencia med p.2).
Qed.

(** The latest [INGRESO] is one of the movements searched. *)
Lemma ultimo_ingreso_origen (P : gmap string value -> Prop)
    (movs : list (gmap string value)) (ultimo r : option (gmap string value)) :
  foldM ultimo_ingreso_paso ultimo movs = Ok r ->
  (forall u, ultimo = Some u -> P u) ->
  Forall P movs ->
  forall u, r = Some u -> P u.
Proof.
  intros H Hu Hmovs. revert ultimo H Hu.
  induction Hmovs as [|mov movs Hmov _ IH]; intros ultimo; cbn [foldM].
  - by intros [= <-].
  - intros (ultimo' & Hpaso & Hresto)%bindR_Ok Hu. apply (IH _ Hresto).
    unfold ultimo_ingreso_paso in Hpaso.
    destruct (Py.eqb (Py.get_none mov "tipo") (VStr "INGRESO")); [|by injection Hpaso as <-].
    destruct ultimo as [u0|]; [|injection Hpaso as <-; by intros ? [= <-]].
    apply bindR_Ok in Hpaso as ([] & _ & [= <-]); [by intros ? [= <-]|done].
Qed.

(** Cells that the file can hold stay so when the report fills the row. *)
Lemma valor_celda_valida (v : value) :
  celda_valida v = true -> exists v', valor_celda v = Ok v' /\ es_tiempo v' = false.
Proof.
  unfold celda_valida. destruct (valor_celda v) as [v'|]; [|done].
  intros H%negb_true_iff. by exists v'.
Qed.

Lemma celdas_ingreso_entrega (ultimo : option (gmap string value))
    (fila : gmap Z value) :
  (forall u, ultimo = Some u -> movimiento_escribible u = true) ->
  map_Forall (fun _ v => es_tiempo v = false) fila ->
  exists fila' : gmap Z value,
    celdas_ingreso ultimo fila = Ok fila'
    /\ map_Forall (fun _ v => es_tiempo v = false) fila'.
Proof.
  intros Hu Hfila. unfold celdas_ingreso. destruct ultimo as [u|]; [|by exists fila].
  destruct (bool_decide (u = ∅)); [by exists fila|].
  specialize (Hu u eq_refl). unfold movimiento_escribible in Hu.
  apply andb_true_iff in Hu as [Hf Hv].
  destruct (valor_celda_valida _ Hf) as (f & -> & Hf'). cbn [bindR].
  destruct (Py.truthy (Py.get_none u "fecha_vencimiento")).
  - destruct (valor_celda_valida _ Hv) as (v & -> & Hv'). cbn [bindR].
    eexists. split; [done|]. by repeat apply map_Forall_insert_2.
  - eexists. split; [done|]. by apply map_Forall_insert_2.
Qed.

Lemma celdas_turnos_sin_tiempo (salidas : list (gmap string value)) (fecha_dia : string)
    (turnos : list string) (fila fila' : gmap Z value) (col col' : Z) :
  foldM (fun (acc : gmap Z value * Z) turno =>
           let+ total := total_turno salidas fecha_dia turno in
           Ok (if 0 <? total then <[snd acc := VInt total]> (fst acc) else fst acc,
               snd acc + 1))
        (fila, col) turnos = Ok (fila', col') ->
  map_Forall (fun _ v => es_tiempo v = false) fila ->
  map_Forall (fun _ v => es_tiempo v = false) fila'.
Proof.
  revert fila col. induction turnos as [|t turnos IH]; intros fila col; cbn [foldM].
  - by intros [= <- <-].
  - intros (acc & (total & _ & [= <-])%bindR_Ok & Hacc)%bindR_Ok Hfila.
    cbn [fst snd] in Hacc. apply (IH _ _ Hacc).
    destruct (0 <? total); [|done]. by apply map_Forall_insert_2.
Qed.

Lemma celdas_dias_sin_tiempo (salidas : list (gmap string value)) (fecha_inicio : Z)
    (dias : list Z) (fila fila' : gmap Z value) (col col' : Z) :
  foldM (celdas_dia salidas fecha_inicio) (fila, col) dias = Ok (fila', col') ->
  map_Forall (fun _ v => es_tiempo v = false) fila ->
  map_Forall (fun _ v => es_tiempo v = false) fila'.
Proof.
  revert fila col. induction dias as [|d dias IH]; intros fila col; cbn [foldM].
  - by intros [= <- <-].
  - intros ([fila1 col1] & Hdia & Hresto)%bindR_Ok Hfila.
    unfold celdas_dia in Hdia.
    apply bindR_Ok in Hdia as (fecha_dia & _ & Hdia).
    apply (IH _ _ Hresto). by apply (celdas_turnos_sin_tiempo _ _ _ _ _ _ _ Hdia).
Qed.

Lemma foldl_ws_cell_sin_tiempo (l : list Z) (fila : gmap Z value) :
  map_Forall (fun _ v => es_tiempo v = false) fila ->
  map_Forall (fun _ v => es_tiempo v = false) (foldl ws_cell fila l).
Proof.
  revert fila. induction l as [|x l IH]; intros fila Hfila; cbn [foldl]; [done|].
  apply IH. unfold ws_cell. destruct (fila !! x); [done|].
  by apply map_Forall_insert_2.
Qed.

(** A row is produced, and nothing is printed, when the backend answers,
    the movements are legible and the texts can be written; the file can
    hold the row. *)
Lemma fila_medicamento_entrega (fs : firestore) (log : list log_entry)
    (fecha_inicio fecha_fin dias col_demanda col_stock : Z)
    (med_doc : string * gmap string value) :
  reachable fs = true ->
  forallb (fun p => movimiento_legible (snd p)) (movimientos fs) = true ->
  forallb (fun p => movimiento_escribible (snd p)) (movimientos fs) = true ->
  medicamento_escribible (snd med_doc) = true ->
  Forall (fun d => 1 <= fecha_inicio + d <= Fecha.MAXORDINAL) (seqZ 0 dias) ->
  exists fila : gmap Z value,
    fila_medicamento fecha_inicio fecha_fin dias col_demanda col_stock med_doc
                     {| db := Some fs; consola := log |}
    = (Ok fila, {| db := Some fs; consola := log |})
    /\ map_Forall (fun _ v => es_tiempo v = false) fila.
Proof.
  intros Hr Hleg Hesc Hmed Hdias.
  pose proof (legibles_where_eq "medicamento_id" (VStr med_doc.1) _ Hleg) as Hmovs.
  pose proof (legibles_numericos (VStr med_doc.1) _ Hleg) as Hnum.
  assert (Forall (fun mov => movimiento_escribible mov = true)
            (snd <$> Firestore.where_eq "medicamento_id" (VStr med_doc.1)
                       (movimientos fs))) as Hmovs'.
  { apply Forall_fmap, Forall_forall. intros p Hp.
    unfold Firestore.where_eq in Hp. apply list_elem_of_In, filter_In in Hp as [Hp _].
    rewrite forallb_forall in Hesc. by apply Hesc. }
  unfold fila_medicamento. cbv zeta.
  destruct (valor_celda_valida _ Hmed) as (nombre & Hnombre & Hn).
  unfold bindM at 1, lift at 1. rewrite Hnombre.
  unfold bindM at 1. unfold Firestore.stream_movimientos at 1.
  unfold bindM at 1, Firestore.client at 1, ret at 1. cbn [db]. rewrite Hr.
  unfold bindM at 1, lift at 1.
  destruct (ultimo_ingreso_Ok _ None Hmovs) as [ultimo Hultimo]; [discriminate|].
  rewrite Hultimo.
  destruct (celdas_ingreso_entrega ultimo {[ 1 := nombre ]}) as (fila1 & Hfila1 & Hst1).
  { by apply (ultimo_ingreso_origen _ _ _ _ Hultimo). }
  { by apply map_Forall_singleton. }
  unfold bindM at 1, lift at 1. rewrite Hfila1.
  unfold bindM at 1. rewrite (calcular_stock_medicamento_sano _ _ _ Hr Hnum).
  unfold bindM at 1. unfold Firestore.stream_movimientos at 1.
  unfold bindM at 1, Firestore.client at 1, ret at 1. cbn [db]. rewrite Hr.
  unfold bindM at 1, lift at 1.
  match goal with
  | |- context [foldM (celdas_dia ?s _) ?acc _] =>
      destruct (celdas_dias_entrega s fecha_inicio (seqZ 0 dias) acc)
        as [[celdas col] Hceldas];
        [by apply Forall_filter_list | done |];
      rewrite Hceldas;
      unfold bindM at 1, lift at 1;
      destruct (demanda_periodo_Ok s fecha_inicio fecha_fin) as [demanda ->];
        [by apply Forall_filter_list|]
  end.
  unfold bindM at 1. rewrite (calcular_stock_medicamento_sano _ _ _ Hr Hnum).
  unfold ret. eexists. split; [reflexivity|]. cbn [fst].
  apply foldl_ws_cell_sin_tiempo. repeat apply map_Forall_insert_2; try done.
  apply (celdas_dias_sin_tiempo _ _ _ _ _ _ _ Hceldas).
  by apply map_Forall_insert_2.
Qed.

Lemma mapM_entrega {A B : Type} (f : A -> M B) (P : B -> Prop) (w : world) (l : list A) :
  Forall (fun x => exists y : B, f x w = (Ok y, w) /\ P y) l ->
  exists ys : list B, mapM f l w = (Ok ys, w) /\ Forall P ys.
Proof.
  induction 1 as [|x l (y & Hy & HP) _ (ys & IH & HPs)]; cbn [mapM].
  - unfold ret. eauto.
  - unfold bindM at 1. rewrite Hy. unfold bindM at 1. rewrite IH. unfold ret.
    eexists. split; [reflexivity|]. by constructor.
Qed.

Lemma dias_en_rango (fecha_inicio n : Z) :
  1 <= fecha_inicio -> fecha_inicio + (n - 1) <= Fecha.MAXORDINAL ->
  Forall (fun d => 1 <= fecha_inicio + d <= Fecha.MAXORDINAL) (seqZ 0 n).
Proof.
  intros H1 H2. apply Forall_forall. intros d Hd%elem_of_seqZ. lia.
Qed.

(** The medications of the ordered query are stored medications. *)
Lemma order_by_forallb (f : string * gmap string value -> bool) (field : string)
    (c : list (string * gmap string value)) :
  forallb f c = true -> Forall (fun p => f p = true) (order_by field c).
Proof.
  intros Hc. unfold order_by. rewrite sort_by_Permutation.
  apply Forall_filter_list, Forall_forall. intros p Hp%list_elem_of_In.
  rewrite forallb_forall in Hc. by apply Hc.
Qed.

(** The file can hold a workbook whose rows have no timestamp. *)
Lemma save_Ok (wb : workbook) :
  Forall (map_Forall (fun _ v => es_tiempo v = false)) (filas wb) -> save wb = Ok tt.
Proof.
  intros H. unfold save.
  assert (forallb (fun fila : gmap Z value =>
                     bool_decide (map_Forall (fun _ v => es_tiempo v = false) fila))
                  (filas wb) = true) as ->; [|done].
  apply forallb_forall. intros fila Hin%list_elem_of_In.
  apply bool_decide_eq_true_2. rewrite Forall_forall in H. by apply H.
Qed.

(** On a reachable store with legible movements and texts that can be
    written, the helper delivers a workbook that the file can hold, for
    every period that lies in the calendar. *)
Lemma crear_reporte_excel_entrega (fs : firestore) (log : list log_entry)
    (fecha_inicio fecha_fin : Z) :
  reachable fs = true ->
  forallb (fun p => movimiento_legible (snd p)) (movimientos fs) = true ->
  forallb (fun p => movimiento_escribible (snd p)) (movimientos fs) = true ->
  forallb (fun p => medicamento_escribible (snd p)) (medicamentos fs) = true ->
  1 <= fecha_inicio -> fecha_fin <= Fecha.MAXORDINAL ->
  fecha_fin - fecha_inicio < 6090 ->
  exists wb : workbook,
    crear_reporte_excel fecha_inicio fecha_fin {| db := Some fs; consola := log |}
    = (Ok (Some wb), {| db := Some fs; consola := log |})
    /\ save wb = Ok tt.
Proof.
  intros Hr Hleg Hesc Hmeds H1 H2 H3.
  pose proof (dias_en_rango fecha_inicio (fecha_fin - fecha_inicio + 1) H1 ltac:(lia))
    as Hdias.
  unfold crear_reporte_excel.
  unfold bindM at 1, read_db at 1. cbn [db]. unfold try_except.
  unfold bindM at 1, lift at 1, columnas_dias.
  assert (5 + 3 * Z.of_nat (length (seqZ 0 (fecha_fin - fecha_inicio + 1))) <= 18277)
    as Hcols by (rewrite length_seqZ; lia).
  destruct (columnas_dias_entrega fecha_inicio _ 5 Hdias ltac:(lia) ltac:(lia))
    as [col Hcol].
  rewrite Hcol. apply columnas_dias_Ok in Hcol.
  unfold bindM at 1, lift at 1. rewrite get_column_letter_Ok by lia.
  unfold bindM at 1, lift at 1. rewrite get_column_letter_Ok by lia.
  unfold bindM at 1, Firestore.stream_medicamentos at 1.
  unfold bindM at 1, Firestore.client at 1, ret at 1. cbn [db]. rewrite Hr.
  unfold bindM at 1.
  destruct (mapM_entrega
              (fila_medicamento fecha_inicio fecha_fin (fecha_fin - fecha_inicio + 1)
                 col (col + 1))
              (map_Forall (fun _ v => es_tiempo v = false))
              {| db := Some fs; consola := log |}
              (order_by "orden" (medicamentos fs))) as (filas & -> & Hfilas).
  { eapply Forall_impl; [exact (order_by_forallb _ "orden" _ Hmeds)|].
    intros med Hmed. by apply fila_medicamento_entrega. }
  unfold ret. eexists. split; [reflexivity|]. by apply save_Ok.
Qed.

(** On such a store the weekly route delivers a workbook for every start
    date whose week is in the calendar. *)
Lemma generar_reporte_semanal_excel_entrega (fs : firestore) (log : list log_entry)
    (fecha_inicio : Z) :
  reachable fs = true ->
  forallb (fun p => movimiento_legible (snd p)) (movimientos fs) = true ->
  forallb (fun p => movimiento_escribible (snd p)) (movimientos fs) = true ->
  forallb (fun p => medicamento_escribible (snd p)) (medicamentos fs) = true ->
  1 <= fecha_inicio -> fecha_inicio + 6 <= Fecha.MAXORDINAL ->
  exists wb : workbook,
    generar_reporte_semanal_excel (Some fecha_inicio) {| db := Some fs; consola := log |}
    = ((JArchivo wb, 200), {| db := Some fs; consola := log |}).
Proof.
  intros Hr Hleg Hesc Hmeds H1 H2.
  destruct (crear_reporte_excel_entrega fs log fecha_inicio (fecha_inicio + 6)
              Hr Hleg Hesc Hmeds H1 H2 ltac:(lia)) as (wb & Hwb & Hsave).
  exists wb. unfold generar_reporte_semanal_excel, route.
  unfold bindM at 1, lift at 1, Fecha.add_days at 1.
  assert (((1 <=? fecha_inicio + 6) && (fecha_inicio + 6 <=? Fecha.MAXORDINAL)) = true)
    as -> by (apply andb_true_iff; rewrite !Z.leb_le; lia).
  unfold bindM at 1. rewrite Hwb. unfold bindM, lift, ret. by rewrite Hsave.
Qed.

(** C8.  Whenever the weekly route delivers a workbook, the total column
    is column [5 + 7·3 = 26], directly followed by the stock column, there
    is one row per medication that the ordered query returns, and every row
    has a cell in each of the columns 1 to 27 and in no other: the four
    leading ones, the 21 day-and-shift cells in columns 5 to 25, the total
    (an integer) and the stock.  No property of the movement log is
    assumed for this.  And the route does deliver a workbook when the
    backend answers, the stored dates are texts and the stored quantities
    numbers, the names of the medications and the dates and expiry dates
    of the movements can be written to a worksheet, and the week lies in
    the calendar. *)
Theorem generar_reporte_semanal_excel_celdas (w : world) (fecha_inicio : Z) :
  (forall (wb : workbook) (code : Z) (w' : world),
      generar_reporte_semanal_excel (Some fecha_inicio) w = ((JArchivo wb, code), w') ->
      col_demanda wb = 5 + 7 * 3
      /\ col_stock wb = col_demanda wb + 1
      /\ (forall fs : firestore, db w = Some fs ->
          length (filas wb) = length (order_by "orden" (medicamentos fs)))
      /\ Forall (fun fila : gmap Z value =>
                   (forall c : Z, is_Some (fila !! c) <-> 1 <= c <= col_stock wb)
                   /\ size (filter (fun c => 5 <= c < col_demanda wb) (dom fila)) = 21%nat
                   /\ exists demanda : Z, fila !! col_demanda wb = Some (VInt demanda))
                (filas wb))
  /\ (forall fs : firestore,
        db w = Some fs ->
        reachable fs = true ->
        forallb (fun p => movimiento_legible (snd p)) (movimientos fs) = true ->
        forallb (fun p => movimiento_escribible (snd p)) (movimientos fs) = true ->
        forallb (fun p => medicamento_escribible (snd p)) (medicamentos fs) = true ->
        1 <= fecha_inicio -> fecha_inicio + 6 <= Fecha.MAXORDINAL ->
        exists wb : workbook,
          generar_reporte_semanal_excel (Some fecha_inicio) w = ((JArchivo wb, 200), w)).
Proof.
  split.
  - intros wb code w'. apply generar_reporte_semanal_excel_forma.
  - intros fs Hdb Hr Hleg Hesc Hmeds H1 H2. destruct w as [d log]. cbn in Hdb. subst d.
    by apply generar_reporte_semanal_excel_entrega.
Qed.

Lemma generar_reporte_semanal_excel_celdas_witness :
  exists wb : workbook,
    generar_reporte_semanal_excel (Some 738886) Ejemplo.w = ((JArchivo wb, 200), Ejemplo.w)
    /\ col_demanda wb = 26
    /\ length (filas wb) = 2%nat.
Proof.
  assert (1 <= 738886) as H1 by lia.
  assert (738886 + 6 <= Fecha.MAXORDINAL) as H2 by (unfold Fecha.MAXORDINAL; lia).
  destruct (generar_reporte_semanal_excel_celdas Ejemplo.w 738886) as [Hforma Hentrega].
  destruct (Hentrega Ejemplo.fs eq_refl eq_refl eq_refl eq_refl eq_refl H1 H2) as [wb Hwb].
  exists wb. split; [exact Hwb|].
  destruct (Hforma _ _ _ Hwb) as (Hcol & _ & Hlen & _).
  split; [exact Hcol|]. rewrite (Hlen _ eq_refl). reflexivity.
Defined.

(** * Further properties of the routes *)

(** ** [crear_movimiento]: what a request can change *)

Lemma calcular_stock_medicamento_db (med : value) (w : world) :
  db (snd (calcular_stock_medicamento med w)) = db w.
Proof.
  rewrite calcular_stock_medicamento_eq. destruct (db w) as [fs|] eqn:Hdb; [|done].
  destruct (reachable fs); [|done]. cbn zeta. by destruct (forallb _ _).
Qed.

(** The requests that [crear_movimiento] answers with 201. *)
Lemma crear_movimiento_201 (fs : firestore) (log : list log_entry)
    (data : gmap string value) (new_id : string) (now : Z) (p : payload) (w' : world) :
  crear_movimiento data new_id now {| db := Some fs; consola := log |} = ((p, 201), w') ->
  reachable fs = true
  /\ Py.in_strs (Py.get_none data "tipo") ["INGRESO"; "SALIDA"] = true
  /\ Py.truthy (Py.get_none data "fecha") = true
  /\ Py.truthy (Py.get_none data "medicamento_id") = true
  /\ (exists q : Z, Py.as_int (Py.get_none data "cantidad") = Some q /\ 0 < q
        /\ (Py.eqb (Py.get_none data "tipo") (VStr "SALIDA") = true ->
            exists z : Z,
              fst (calcular_stock_medicamento (Py.get_none data "medicamento_id")
                     {| db := Some fs; consola := log |}) = Ok z
              /\ q <= z))
  /\ db w' = Some {| reachable := true;
                     medicamentos := medicamentos fs;
                     movimientos :=
                       movimientos fs ++ [(new_id, documento_movimiento data now)] |}.
Proof.
  unfold crear_movimiento, route, bindM, read_db, ret, lift. cbn [db].
  unfold Py.all. cbn [forallb].
  destruct (Py.truthy (Py.get_none data "tipo")); cbn [andb negb]; [|discriminate].
  destruct (Py.truthy (Py.get_none data "fecha")); cbn [andb negb]; [|discriminate].
  destruct (Py.truthy (Py.get_none data "medicamento_id")); cbn [andb negb];
    [|discriminate].
  destruct (Py.truthy (Py.get_none data "cantidad")); cbn [andb negb]; [|discriminate].
  destruct (Py.in_strs (Py.get_none data "tipo") ["INGRESO"; "SALIDA"]); cbn [negb];
    [|discriminate].
  unfold Py.le_int, Py.int_lt.
  destruct (Py.as_int (Py.get_none data "cantidad")) as [q|] eqn:Hq; [|discriminate].
  destruct (Z.leb_spec q 0); [discriminate|].
  destruct (Py.eqb (Py.get_none data "tipo") (VStr "SALIDA")).
  - pose proof (calcular_stock_medicamento_db (Py.get_none data "medicamento_id")
                  {| db := Some fs; consola := log |}) as Hdb.
    destruct (calcular_stock_medicamento _ _) as [[z|e] w1]; [|discriminate].
    cbn [snd db] in Hdb. destruct (Z.ltb_spec z q); [discriminate|].
    unfold Firestore.write_movimientos, Firestore.client, bindM, ret, Firestore.add.
    rewrite Hdb. destruct (reachable fs) eqn:Hr; [|discriminate].
    intros [= <- <-]. cbn [db]. rewrite Hr. repeat split; try done.
    exists q. repeat split; try done. intros _. exists z. split; [done | lia].
  - unfold Firestore.write_movimientos, Firestore.client, bindM, ret, Firestore.add.
    cbn [db]. destruct (reachable fs) eqn:Hr; [|discriminate].
    intros [= <- <-]. cbn [db]. rewrite Hr. repeat split; try done.
    exists q. repeat split; try done.
Qed.

(** Any other answer leaves the database as it was. *)
Lemma crear_movimiento_rechazo (data : gmap string value) (new_id : string) (now : Z)
    (w : world) :
  snd (fst (crear_movimiento data new_id now w)) ≠ 201 ->
  db (snd (crear_movimiento data new_id now w)) = db w.
Proof.
  unfold crear_movimiento, route, bindM, read_db, ret, lift.
  destruct (db w) as [fs|] eqn:Hdbw; [|done].
  destruct (negb (Py.all _)); [done|].
  destruct (negb (Py.in_strs _ _)); [done|].
  destruct (Py.le_int _ _) as [[]|]; [done| |done].
  destruct (Py.eqb (Py.get_none data "tipo") (VStr "SALIDA")).
  - pose proof (calcular_stock_medicamento_db (Py.get_none data "medicamento_id") w) as Hdb.
    rewrite Hdbw in Hdb.
    destruct (calcular_stock_medicamento _ _) as [[z|e] w1]; cbn [snd] in Hdb;
      [|by intros _].
    destruct (Py.int_lt _ _) as [[]|]; [by intros _| |by intros _].
    unfold Firestore.write_movimientos, Firestore.client, bindM, ret.
    rewrite Hdb. destruct (reachable fs); [|by intros _]. cbn [fst snd]. done.
  - unfold Firestore.write_movimientos, Firestore.client, bindM, ret.
    rewrite Hdbw. destruct (reachable fs); [|done]. cbn [fst snd]. done.
Qed.

Lemma suma_cantidades_app (tipo : string) (med : value)
    (l l' : list (string * gmap string value)) :
  suma_cantidades tipo med (l ++ l')
  = suma_cantidades tipo med l + suma_cantidades tipo med l'.
Proof.
  unfold suma_cantidades. by rewrite fmap_app, filter_app_list, fmap_app, sumZ_app.
Qed.

(** What one more document changes in the derived stock. *)
Lemma stock_of_add (med : value) (id : string) (doc : gmap string value)
    (movs : list (string * gmap string value)) :
  stock_of med (Firestore.add id doc movs)
  = stock_of med movs
    + (if referencia med doc
       then (if es_tipo "INGRESO" doc then cantidad_de doc else 0)
            - (if es_tipo "SALIDA" doc then cantidad_de doc else 0)
       else 0).
Proof.
  unfold stock_of, Firestore.add. rewrite !suma_cantidades_app.
  unfold suma_cantidades at 2 4. cbn [fmap list_fmap List.filter snd].
  destruct (referencia med doc), (es_tipo "INGRESO" doc), (es_tipo "SALIDA" doc);
    cbn [andb fmap list_fmap sumZ foldr]; lia.
Qed.

(** The fields of the document that [crear_movimiento] stores. *)
Lemma documento_movimiento_campos (data : gmap string value) (now : Z) :
  let doc := documento_movimiento data now in
  doc !! "tipo" = Some (Py.get_none data "tipo")
  /\ doc !! "fecha" = Some (Py.get_none data "fecha")
  /\ doc !! "medicamento_id" = Some (Py.get_none data "medicamento_id")
  /\ doc !! "cantidad" = Some (Py.get_none data "cantidad").
Proof.
  unfold documento_movimiento. cbn zeta. repeat split; by simplify_map_eq.
Qed.

Lemma in_strs_ingreso_salida (v : value) :
  Py.in_strs v ["INGRESO"; "SALIDA"] = true ->
  v = VStr "INGRESO" \/ v = VStr "SALIDA".
Proof.
  unfold Py.in_strs. cbn [existsb]. rewrite !py_eqb_str.
  do 2 case_bool_decide; cbn; auto; discriminate.
Qed.

Lemma crear_movimiento_sin_db (data : gmap string value) (new_id : string) (now : Z)
    (log : list log_entry) :
  crear_movimiento data new_id now {| db := None; consola := log |}
  = (no_disponible, {| db := None; consola := log |}).
Proof. reflexivity. Qed.

(** X1.  For every request whose quantity is an integer, and every state,
    [crear_movimiento] either answers with a status other than 201 and
    leaves the database as it was, or answers 201 and appends exactly one
    document, the one built from the request, to the movements of a
    backend that answers; the quantity is then positive, the stored kind
    is [INGRESO] or [SALIDA], and the medications are not touched. *)
Theorem crear_movimiento_marco
    (data : gmap string value) (new_id : string) (now : Z) (w : world) (q : Z) :
  Py.as_int (Py.get_none data "cantidad") = Some q ->
  let r := crear_movimiento data new_id now w in
  (snd (fst r) ≠ 201 /\ db (snd r) = db w)
  \/ (snd (fst r) = 201
      /\ 0 < q
      /\ (Py.get_none data "tipo" = VStr "INGRESO"
          \/ Py.get_none data "tipo" = VStr "SALIDA")
      /\ exists fs : firestore,
           db w = Some fs /\ reachable fs = true
           /\ db (snd r)
              = Some {| reachable := true;
                        medicamentos := medicamentos fs;
                        movimientos :=
                          movimientos fs ++ [(new_id, documento_movimiento data now)] |}).
Proof.
  intros Hcant. cbn zeta.
  destruct (decide (snd (fst (crear_movimiento data new_id now w)) = 201))
    as [H201|H201].
  - right. destruct w as [[fs|] log]; [|by rewrite crear_movimiento_sin_db in H201].
    destruct (crear_movimiento data new_id now _) as [[p c] w'] eqn:E.
    cbn [fst snd] in *. subst c.
    apply crear_movimiento_201 in E as (Hr & Ht & _ & _ & (q' & Hq & Hpos & _) & Hdb).
    rewrite Hcant in Hq. injection Hq as <-.
    split; [done|]. split; [done|].
    split; [by apply in_strs_ingreso_salida|]. by exists fs.
  - left. split; [done|]. by apply crear_movimiento_rechazo.
Qed.

Lemma crear_movimiento_marco_witness :
  snd (fst (crear_movimiento (Ejemplo.peticion_salida "m1" 5) "n" 0 Ejemplo.w)) = 201
  /\ db (snd (crear_movimiento (Ejemplo.peticion_salida "m1" 5) "n" 0 Ejemplo.w))
     = Some {| reachable := true;
               medicamentos := medicamentos Ejemplo.fs;
               movimientos :=
                 movimientos Ejemplo.fs
                   ++ [("n", documento_movimiento (Ejemplo.peticion_salida "m1" 5) 0)] |}.
Proof.
  destruct (crear_movimiento_marco (Ejemplo.peticion_salida "m1" 5) "n" 0 Ejemplo.w 5
              eq_refl) as [[Hne _]|(H201 & _ & _ & fs & Hfs & _ & Hdb)].
  - exfalso. apply Hne. reflexivity.
  - injection Hfs as <-. split; [exact H201 | exact Hdb].
Defined.

Lemma cantidad_de_documento (data : gmap string value) (now q : Z) :
  Py.as_int (Py.get_none data "cantidad") = Some q ->
  cantidad_de (documento_movimiento data now) = q.
Proof.
  intros Hq. unfold cantidad_de, Py.get.
  destruct (documento_movimiento_campos data now) as (_ & _ & _ & ->). by rewrite Hq.
Qed.

(** X2.  [crear_movimiento] keeps a stock of integers from going below
    zero.  When the stored quantities of a medication are integers and the
    quantity of the request is an integer, a derived stock of the
    medication that is not negative before the request is not negative
    after it, and its stored quantities are integers again, whatever the
    rest of the request, the answer and the rest of the store. *)
Theorem crear_movimiento_stock_no_negativo
    (fs : firestore) (log : list log_entry) (data : gmap string value)
    (new_id : string) (now : Z) (med : value) (q : Z) :
  movimientos_numericos med (movimientos fs) = true ->
  Py.as_int (Py.get_none data "cantidad") = Some q ->
  0 <= stock_of med (movimientos fs) ->
  exists fs' : firestore,
    db (snd (crear_movimiento data new_id now {| db := Some fs; consola := log |}))
    = Some fs'
    /\ medicamentos fs' = medicamentos fs
    /\ movimientos_numericos med (movimientos fs') = true
    /\ 0 <= stock_of med (movimientos fs').
Proof.
  intros Hnum Hcant Hpos. set (w := {| db := Some fs; consola := log |}).
  destruct (decide (snd (fst (crear_movimiento data new_id now w)) = 201)) as [H201|H201].
  - destruct (crear_movimiento data new_id now w) as [[p c] w'] eqn:E.
    cbn [fst snd] in *. subst c.
    apply crear_movimiento_201 in E as (Hr & Ht & _ & _ & (q' & Hq & Hq0 & Hsal) & Hdb).
    rewrite Hcant in Hq. injection Hq as <-.
    eexists. split; [exact Hdb|]. split; [done|]. cbn [movimientos]. split.
    { unfold movimientos_numericos in *. rewrite forallb_app, Hnum.
      cbn [forallb snd andb]. rewrite andb_true_r. unfold cantidad_numerica, Py.get.
      destruct (documento_movimiento_campos data now) as (_ & _ & _ & ->).
      rewrite Hcant, bool_decide_eq_true_2 by by eexists.
      by destruct (referencia med _). }
    change (movimientos fs ++ [(new_id, documento_movimiento data now)])
      with (Firestore.add new_id (documento_movimiento data now) (movimientos fs)).
    rewrite stock_of_add, (cantidad_de_documento data now q Hcant).
    unfold referencia, es_tipo.
    destruct (documento_movimiento_campos data now) as (-> & _ & -> & _).
    case_bool_decide as Hmed; [|lia]. simplify_eq.
    apply in_strs_ingreso_salida in Ht as [Ht|Ht]; rewrite Ht in *.
    + rewrite bool_decide_eq_true_2 by done.
      rewrite bool_decide_eq_false_2 by discriminate. lia.
    + rewrite bool_decide_eq_false_2 by discriminate.
      rewrite bool_decide_eq_true_2 by done.
      destruct (Hsal eq_refl) as (z & Hz & Hqz).
      rewrite (calcular_stock_medicamento_sano _ _ _ Hr Hnum) in Hz.
      cbn [fst] in Hz. injection Hz as <-. lia.
  - exists fs. split; [|done].
    by rewrite (crear_movimiento_rechazo data new_id now w H201).
Qed.

Lemma crear_movimiento_stock_no_negativo_witness :
  exists fs' : firestore,
    db (snd (crear_movimiento (Ejemplo.peticion_salida "m1" 5) "n" 0 Ejemplo.w))
    = Some fs'
    /\ medicamentos fs' = medicamentos Ejemplo.fs
    /\ movimientos_numericos (VStr "m1") (movimientos fs') = true
    /\ 0 <= stock_of (VStr "m1") (movimientos fs').
Proof.
  apply (crear_movimiento_stock_no_negativo Ejemplo.fs [] (Ejemplo.peticion_salida "m1" 5)
           "n" 0 (VStr "m1") 5 eq_refl eq_refl).
  vm_compute. discriminate.
Defined.

(** X3.  An [INGRESO] with a date, a medication and a positive quantity is
    always registered when the backend answers: neither the medications
    nor the stored movements are consulted, so the medication it names
    need not exist.  It raises the derived stock of the value it names by
    its quantity and leaves every other stock as it was. *)
Theorem crear_movimiento_ingreso
    (fs : firestore) (log : list log_entry) (data : gmap string value)
    (new_id : string) (now : Z) (q : Z) :
  reachable fs = true ->
  data !! "tipo" = Some (VStr "INGRESO") ->
  data !! "cantidad" = Some (VInt q) ->
  0 < q ->
  Py.truthy (Py.get_none data "fecha") = true ->
  Py.truthy (Py.get_none data "medicamento_id") = true ->
  let movs' := movimientos fs ++ [(new_id, documento_movimiento data now)] in
  crear_movimiento data new_id now {| db := Some fs; consola := log |}
  = ((JMovimientoRegistrado new_id, 201),
     {| db := Some {| reachable := true;
                      medicamentos := medicamentos fs;
                      movimientos := movs' |};
        consola := log |})
  /\ forall med : value,
       stock_of med movs'
       = stock_of med (movimientos fs)
         + (if bool_decide (med = Py.get_none data "medicamento_id") then q else 0).
Proof.
  intros Hr Htipo Hcant Hq Hfecha Hmed movs'. split.
  - unfold crear_movimiento, route, bindM, read_db, ret, lift. cbn [db].
    unfold Py.all, Py.in_strs. cbn [forallb existsb].
    rewrite Hfecha, Hmed, (get_none_lookup _ _ _ Htipo), (get_none_lookup _ _ _ Hcant).
    cbn [Py.truthy Py.le_int Py.as_int].
    change (Py.eqb (VStr "INGRESO") (VStr "INGRESO")) with true.
    change (Py.eqb (VStr "INGRESO") (VStr "SALIDA")) with false.
    change (negb (String.eqb "INGRESO" "")) with true.
    destruct (Z.eqb_spec q 0); [lia|]. destruct (Z.leb_spec q 0); [lia|].
    cbn [andb orb negb].
    unfold Firestore.write_movimientos, Firestore.client, bindM, ret, Firestore.add.
    paso Hr. done.
  - intros med. subst movs'.
    change (movimientos fs ++ [(new_id, documento_movimiento data now)])
      with (Firestore.add new_id (documento_movimiento data now) (movimientos fs)).
    rewrite stock_of_add, (cantidad_de_documento data now q).
    2: { by rewrite (get_none_lookup _ _ _ Hcant). }
    unfold referencia, es_tipo.
    destruct (documento_movimiento_campos data now) as (-> & _ & -> & _).
    rewrite (get_none_lookup _ _ _ Htipo).
    rewrite (bool_decide_eq_true_2 (Some (VStr "INGRESO") = _)) by done.
    rewrite (bool_decide_eq_false_2 (Some (VStr "INGRESO") = _)) by discriminate.
    do 2 case_bool_decide; simplify_eq; lia.
Qed.

Lemma crear_movimiento_ingreso_witness :
  fst (crear_movimiento (Casos.peticion_ingreso "zz" 4) "n" 0 Ejemplo.w)
  = (JMovimientoRegistrado "n", 201)
  /\ Firestore.lookup "zz" (medicamentos Ejemplo.fs) = None.
Proof.
  split; [|reflexivity].
  destruct (crear_movimiento_ingreso Ejemplo.fs [] (Casos.peticion_ingreso "zz" 4) "n" 0 4
              eq_refl eq_refl eq_refl eq_refl eq_refl eq_refl) as [H _].
  unfold Ejemplo.w. by rewrite H.
Defined.

(** X4.  The checks of [crear_movimiento] come before any call on the
    backend and in a fixed order, each answering without a change of
    state: a request in which the kind, the date, the medication or the
    quantity is missing or falsy (a quantity of [0] included) is
    "incomplete" (400); then a kind other than [INGRESO] and [SALIDA] is
    refused (400); then a negative quantity is refused (400), and a
    quantity that is not a number ends in the handler of the route (500
    with the [TypeError]). *)
Theorem crear_movimiento_validacion
    (data : gmap string value) (new_id : string) (now : Z) (w : world) :
  is_Some (db w) ->
  let tipo := Py.get_none data "tipo" in
  let cantidad := Py.get_none data "cantidad" in
  let completo :=
    Py.truthy tipo && Py.truthy (Py.get_none data "fecha")
    && Py.truthy (Py.get_none data "medicamento_id") && Py.truthy cantidad in
  (completo = false ->
   crear_movimiento data new_id now w = ((JError "Datos incompletos", 400), w))
  /\ (completo = true -> Py.in_strs tipo ["INGRESO"; "SALIDA"] = false ->
      crear_movimiento data new_id now w = ((JError "Tipo inválido", 400), w))
  /\ (completo = true -> Py.in_strs tipo ["INGRESO"; "SALIDA"] = true ->
      (forall q : Z, Py.as_int cantidad = Some q -> q <= 0 ->
         crear_movimiento data new_id now w
         = ((JError "Cantidad debe ser mayor a 0", 400), w))
      /\ (Py.as_int cantidad = None ->
          crear_movimiento data new_id now w = ((JExcepcion TypeError, 500), w))).
Proof.
  intros [fs Hdb] tipo cantidad completo.
  assert (Hall : Py.all [tipo; Py.get_none data "fecha";
                         Py.get_none data "medicamento_id"; cantidad] = completo).
  { unfold Py.all, completo. cbn [forallb]. by rewrite andb_true_r, !andb_assoc. }
  unfold crear_movimiento, route, bindM, read_db, ret, lift. rewrite Hdb.
  fold tipo cantidad. rewrite Hall. clearbody completo tipo cantidad.
  split; [by intros ->|]. split; [by intros -> ->|].
  intros -> ->. cbn [negb]. unfold Py.le_int. split.
  - intros q -> Hle. by destruct (Z.leb_spec q 0); [|lia].
  - by intros ->.
Qed.

Lemma crear_movimiento_validacion_witness :
  crear_movimiento (Ejemplo.peticion_salida "m1" 0) "n" 0 Ejemplo.w_caido
  = ((JError "Datos incompletos", 400), Ejemplo.w_caido)
  /\ crear_movimiento (Ejemplo.peticion_salida "m1" (-2)) "n" 0 Ejemplo.w_caido
     = ((JError "Cantidad debe ser mayor a 0", 400), Ejemplo.w_caido)
  /\ crear_movimiento (<["cantidad" := VStr "dos"]> (Ejemplo.peticion_salida "m1" 1))
       "n" 0 Ejemplo.w_caido
     = ((JExcepcion TypeError, 500), Ejemplo.w_caido).
Proof.
  assert (Hdb : is_Some (db Ejemplo.w_caido)) by (eexists; reflexivity).
  split; [|split].
  - by apply (crear_movimiento_validacion (Ejemplo.peticion_salida "m1" 0) "n" 0 _ Hdb).
  - destruct (crear_movimiento_validacion (Ejemplo.peticion_salida "m1" (-2)) "n" 0 _ Hdb)
      as (_ & _ & H).
    destruct (H eq_refl eq_refl) as [H' _]. by apply (H' (-2)).
  - destruct (crear_movimiento_validacion
                (<["cantidad" := VStr "dos"]> (Ejemplo.peticion_salida "m1" 1))
                "n" 0 _ Hdb) as (_ & _ & H).
    destruct (H eq_refl eq_refl) as [_ H']. by apply H'.
Defined.

(** X5.  While the backend does not answer, a well-formed [SALIDA] is not
    reported as a failure of the service: the ledger prints the error and
    answers [0], so the route refuses the request with 400 and "stock
    insuficiente" for a stock of [0].  A well-formed [INGRESO] reaches the
    write and ends in the handler of the route (500).  Neither changes
    the database. *)
Theorem crear_movimiento_sin_respuesta
    (fs : firestore) (log : list log_entry) (data : gmap string value)
    (new_id : string) (now : Z) (q : Z) :
  reachable fs = false ->
  data !! "cantidad" = Some (VInt q) ->
  0 < q ->
  Py.truthy (Py.get_none data "fecha") = true ->
  Py.truthy (Py.get_none data "medicamento_id") = true ->
  let w := {| db := Some fs; consola := log |} in
  (data !! "tipo" = Some (VStr "SALIDA") ->
   crear_movimiento data new_id now w
   = ((JStockInsuficiente 0 (VInt q), 400),
      {| db := Some fs;
         consola := log ++ [ErrorCalculandoStock ServiceUnavailable] |}))
  /\ (data !! "tipo" = Some (VStr "INGRESO") ->
      crear_movimiento data new_id now w = ((JExcepcion ServiceUnavailable, 500), w)).
Proof.
  intros Hr Hcant Hq Hfecha Hmed w.
  split; intros Htipo;
    unfold crear_movimiento, route, bindM, read_db, ret, lift; cbn [db w];
    unfold Py.all, Py.in_strs; cbn [forallb existsb];
    rewrite Hfecha, Hmed, (get_none_lookup _ _ _ Htipo), (get_none_lookup _ _ _ Hcant);
    cbn [Py.truthy Py.le_int Py.as_int];
    destruct (Z.eqb_spec q 0); try lia; destruct (Z.leb_spec q 0); try lia.
  - change (Py.eqb (VStr "SALIDA") (VStr "SALIDA")) with true.
    change (Py.eqb (VStr "SALIDA") (VStr "INGRESO")) with false.
    change (negb (String.eqb "SALIDA" "")) with true.
    cbn [andb orb negb]. cbn beta iota.
    rewrite calcular_stock_medicamento_eq. subst w. paso Hr.
    cbn [Py.int_lt Py.as_int]. by destruct (Z.ltb_spec 0 q); [|lia].
  - change (Py.eqb (VStr "INGRESO") (VStr "INGRESO")) with true.
    change (Py.eqb (VStr "INGRESO") (VStr "SALIDA")) with false.
    change (negb (String.eqb "INGRESO" "")) with true.
    cbn [andb orb negb].
    unfold Firestore.write_movimientos, Firestore.client, bindM, ret. subst w.
    paso Hr. done.
Qed.

Lemma crear_movimiento_sin_respuesta_witness :
  crear_movimiento (Ejemplo.peticion_salida "m1" 1) "n" 0 Ejemplo.w_caido
  = ((JStockInsuficiente 0 (VInt 1), 400),
     {| db := db Ejemplo.w_caido;
        consola := [ErrorCalculandoStock ServiceUnavailable] |}).
Proof.
  by apply (crear_movimiento_sin_respuesta
              {| reachable := false;
                 medicamentos := medicamentos Ejemplo.fs;
                 movimientos := movimientos Ejemplo.fs |}
              [] (Ejemplo.peticion_salida "m1" 1) "n" 0 1
              eq_refl eq_refl eq_refl eq_refl eq_refl).
Defined.

(** ** Deleting and rewriting movements *)

Lemma lookup_None_Forall (id : string) (c : list (string * gmap string value)) :
  Firestore.lookup id c = None <-> Forall (fun p => fst p ≠ id) c.
Proof.
  unfold Firestore.lookup. induction c as [|p c IH]; [by split; [constructor|]|].
  cbn [find]. destruct (String.eqb_spec (fst p) id) as [Heq|Hne].
  - split; [done|]. by intros [? _]%Forall_cons.
  - rewrite IH. split; [by constructor|by intros [_ ?]%Forall_cons].
Qed.

Lemma delete_ausente (id : string) (c : list (string * gmap string value)) :
  Firestore.lookup id c = None -> Firestore.delete id c = c.
Proof.
  rewrite lookup_None_Forall. unfold Firestore.delete.
  induction 1 as [|p c Hp _ IH]; [done|]. cbn [List.filter].
  destruct (String.eqb_spec (fst p) id); [done|]. cbn [negb]. by rewrite IH.
Qed.

Lemma delete_add (id : string) (data : gmap string value)
    (c : list (string * gmap string value)) :
  Firestore.delete id (Firestore.add id data c) = Firestore.delete id c.
Proof.
  unfold Firestore.delete, Firestore.add. rewrite filter_app_list.
  cbn [List.filter fst]. rewrite String.eqb_refl. cbn [negb]. by rewrite app_nil_r.
Qed.

Lemma delete_delete (id : string) (c : list (string * gmap string value)) :
  Firestore.delete id (Firestore.delete id c) = Firestore.delete id c.
Proof. apply delete_ausente, lookup_delete. Qed.

Lemma eliminar_movimiento_eq (fs : firestore) (log : list log_entry) (id : string) :
  reachable fs = true ->
  eliminar_movimiento id {| db := Some fs; consola := log |}
  = ((JMensaje "Movimiento eliminado", 200),
     {| db := Some {| reachable := true;
                      medicamentos := medicamentos fs;
                      movimientos := Firestore.delete id (movimientos fs) |};
        consola := log |}).
Proof.
  intros Hr. unfold eliminar_movimiento, route, Firestore.write_movimientos,
    Firestore.client, bindM, read_db, ret.
  paso Hr. done.
Qed.

(** X6.  Registering a movement and then deleting it gives the database
    back: when the identifier drawn for the new document is not yet in
    use, [eliminar_movimiento] on it undoes an accepted
    [crear_movimiento]. *)
Theorem crear_eliminar_movimiento
    (fs : firestore) (log : list log_entry) (data : gmap string value)
    (new_id : string) (now : Z) (p : payload) (w' : world) :
  Firestore.lookup new_id (movimientos fs) = None ->
  crear_movimiento data new_id now {| db := Some fs; consola := log |} = ((p, 201), w') ->
  eliminar_movimiento new_id w'
  = ((JMensaje "Movimiento eliminado", 200), {| db := Some fs; consola := consola w' |}).
Proof.
  intros Hid Hcrear.
  apply crear_movimiento_201 in Hcrear as (Hr & _ & _ & _ & _ & Hdb).
  destruct w' as [d log']. cbn [db consola] in *. subst d.
  rewrite eliminar_movimiento_eq by done. cbn [medicamentos movimientos].
  change (movimientos fs ++ [(new_id, documento_movimiento data now)])
    with (Firestore.add new_id (documento_movimiento data now) (movimientos fs)).
  rewrite delete_add, delete_ausente by done.
  destruct fs as [r meds movs]. cbn in *. by subst r.
Qed.

Lemma crear_eliminar_movimiento_witness :
  eliminar_movimiento "n"
    (snd (crear_movimiento (Ejemplo.peticion_salida "m1" 5) "n" 0 Ejemplo.w))
  = ((JMensaje "Movimiento eliminado", 200), Ejemplo.w).
Proof.
  by apply (crear_eliminar_movimiento Ejemplo.fs [] (Ejemplo.peticion_salida "m1" 5)
              "n" 0 (JMovimientoRegistrado "n") _ eq_refl eq_refl).
Defined.

(** X7.  [eliminar_movimiento] does not look for the document: while the
    backend answers it says 200 also for an identifier that is not
    stored, in which case the database stays as it was, and a second
    deletion of the same identifier changes nothing more. *)
Theorem eliminar_movimiento_repetido
    (fs : firestore) (log : list log_entry) (id : string) :
  reachable fs = true ->
  let w := {| db := Some fs; consola := log |} in
  (Firestore.lookup id (movimientos fs) = None ->
   eliminar_movimiento id w = ((JMensaje "Movimiento eliminado", 200), w))
  /\ eliminar_movimiento id (snd (eliminar_movimiento id w)) = eliminar_movimiento id w.
Proof.
  intros Hr w. subst w. split.
  - intros Hid. rewrite eliminar_movimiento_eq, delete_ausente by done.
    destruct fs as [r meds movs]. cbn in *. by subst r.
  - rewrite (eliminar_movimiento_eq fs) by done. cbn [snd].
    rewrite eliminar_movimiento_eq by done. cbn [medicamentos movimientos].
    by rewrite delete_delete.
Qed.

Lemma eliminar_movimiento_repetido_witness :
  eliminar_movimiento "zz" Ejemplo.w = ((JMensaje "Movimiento eliminado", 200), Ejemplo.w).
Proof.
  by apply (eliminar_movimiento_repetido Ejemplo.fs [] "zz" eq_refl).
Defined.

Lemma update_ids (id : string) (fields : gmap string value)
    (c : list (string * gmap string value)) :
  fst <$> Firestore.update id fields c = fst <$> c.
Proof.
  unfold Firestore.update. induction c as [|p c IH]; [done|].
  cbn [List.map]. rewrite !fmap_cons, IH. by destruct (String.eqb (fst p) id).
Qed.

Lemma lookup_update (id id' : string) (fields : gmap string value)
    (c : list (string * gmap string value)) :
  Firestore.lookup id' (Firestore.update id fields c)
  = (fun d => if String.eqb id' id then fields ∪ d else d) <$> Firestore.lookup id' c.
Proof.
  unfold Firestore.lookup, Firestore.update. induction c as [|p c IH]; [done|].
  cbn [List.map find].
  destruct (String.eqb_spec (fst p) id) as [Hp|Hp]; cbn [fst];
    destruct (String.eqb_spec (fst p) id') as [Hp'|Hp']; cbn [fmap option_fmap option_map snd];
    try apply IH.
  - subst. by rewrite String.eqb_refl.
  - subst id'. by destruct (String.eqb_spec (fst p) id).
Qed.

Lemma update_data_otros (data : gmap string value) (k : string) :
  k ≠ "cantidad" -> k ≠ "fecha" -> k ≠ "turno" -> update_data data !! k = None.
Proof.
  intros. unfold update_data. cbn zeta.
  destruct (Py.truthy (Py.get_none data "turno")); by simplify_map_eq.
Qed.

(** The answers of [actualizar_movimiento] other than 200 leave the state
    as it was. *)
Lemma actualizar_movimiento_casos (id : string) (data : gmap string value) (w : world) :
  actualizar_movimiento id data w
  = ((JMensaje "Movimiento actualizado", 200),
     {| db := (fun fs => {| reachable := reachable fs;
                            medicamentos := medicamentos fs;
                            movimientos :=
                              Firestore.update id (update_data data) (movimientos fs) |})
              <$> db w;
        consola := consola w |})
    /\ (exists fs, db w = Some fs /\ is_Some (Firestore.lookup id (movimientos fs)))
  \/ snd (fst (actualizar_movimiento id data w)) ≠ 200
     /\ snd (actualizar_movimiento id data w) = w.
Proof.
  unfold actualizar_movimiento, route, Firestore.get_movimiento,
    Firestore.write_movimientos, Firestore.client, bindM, read_db, ret, lift.
  destruct (db w) as [fs|] eqn:Hdb; [|by right].
  destruct (negb (Py.truthy (Py.get_none data "cantidad"))); [by right|].
  destruct (Py.lt_int _ _) as [[]|]; [by right| |by right].
  destruct (negb (Py.truthy (Py.get_none data "fecha"))); [by right|].
  rewrite Hdb. destruct (reachable fs) eqn:Hr; [|by right].
  destruct (Firestore.lookup id (movimientos fs)) eqn:Hl; [|by right].
  rewrite Hdb, Hr. left. split; [done|]. exists fs. by rewrite Hl.
Qed.

(** X8.  What [actualizar_movimiento] can change.  Whatever the request,
    the medications, the identifiers of the movements and their order
    stay, every other movement stays as it was, and in the movement that
    is rewritten only [cantidad], [fecha] and [turno] can differ: its kind
    and its medication are never changed.  An answer other than 200
    changes nothing, and an identifier that is not stored is never
    answered with 200. *)
Theorem actualizar_movimiento_marco
    (fs : firestore) (log : list log_entry) (id : string) (data : gmap string value) :
  let w := {| db := Some fs; consola := log |} in
  let r := actualizar_movimiento id data w in
  exists fs' : firestore,
    snd r = {| db := Some fs'; consola := log |}
    /\ medicamentos fs' = medicamentos fs
    /\ fst <$> movimientos fs' = fst <$> movimientos fs
    /\ (forall id' : string, id' ≠ id ->
          Firestore.lookup id' (movimientos fs') = Firestore.lookup id' (movimientos fs))
    /\ (forall doc' : gmap string value,
          Firestore.lookup id (movimientos fs') = Some doc' ->
          exists doc : gmap string value,
            Firestore.lookup id (movimientos fs) = Some doc
            /\ forall k : string, k ≠ "cantidad" -> k ≠ "fecha" -> k ≠ "turno" ->
                 doc' !! k = doc !! k)
    /\ (snd (fst r) ≠ 200 -> fs' = fs)
    /\ (Firestore.lookup id (movimientos fs) = None -> snd (fst r) ≠ 200).
Proof.
  intros w r. subst r.
  destruct (actualizar_movimiento_casos id data w) as [[Heq (fs0 & Hfs0 & Hl)]|[Hne Hw]].
  - rewrite Heq. cbn in Hfs0. simplify_eq.
    cbn [db w fmap option_fmap option_map consola snd fst].
    eexists. split; [reflexivity|]. cbn [medicamentos movimientos].
    split; [done|]. split; [apply update_ids|]. split; [|split; [|split]].
    + intros id' Hid'. rewrite lookup_update.
      destruct (String.eqb_spec id' id); [done|].
      destruct (Firestore.lookup id' _); reflexivity.
    + intros doc'. rewrite lookup_update, String.eqb_refl.
      destruct (Firestore.lookup id (movimientos fs0)) as [doc|]; [|done].
      intros [= <-]. exists doc. split; [done|]. intros k ???.
      by rewrite lookup_union_r by by apply update_data_otros.
    + intros Hne. by destruct Hne.
    + intros Hnone. rewrite Hnone in Hl. by destruct Hl.
  - exists fs. rewrite Hw. split; [done|]. split; [done|]. split; [done|].
    split; [done|]. split; [|done]. intros doc' Hd. exists doc'. by split.
Qed.

(** ** Registering medications *)

(** The two ways in which [crear_medicamento] ends: without a change of
    state, or with a new document after every check has passed. *)
Lemma crear_medicamento_casos (data : gmap string value) (new_id : string) (now : Z)
    (w : world) :
  (snd (fst (crear_medicamento data new_id now w)) ≠ 201
   /\ snd (crear_medicamento data new_id now w) = w)
  \/ exists (fs : firestore) (nombre : string) (sm : Z) (orden : value),
       db w = Some fs /\ reachable fs = true
       /\ Py.strip (Py.get data "nombre" (VStr "")) = Ok nombre
       /\ nombre ≠ ""
       /\ Py.as_int (Py.get data "stock_minimo" (VInt 10)) = Some sm /\ 1 <= sm
       /\ Firestore.where_eq "nombre" (VStr nombre) (medicamentos fs) = []
       /\ Py.add_int (match max_field "orden" (medicamentos fs) with
                      | Some v => v
                      | None => VInt 0
                      end) 1 = Ok orden
       /\ crear_medicamento data new_id now w
          = ((JMedicamentoAgregado new_id nombre (Py.get data "stock_minimo" (VInt 10)),
              201),
             {| db := Some {| reachable := true;
                              medicamentos :=
                                medicamentos fs ++
                                  [(new_id,
                                    {[ "nombre" := VStr nombre;
                                       "stock_minimo" :=
                                         Py.get data "stock_minimo" (VInt 10);
                                       "orden" := orden;
                                       "fecha_creacion" := VTime now ]})];
                              movimientos := movimientos fs |};
                consola := consola w |}).
Proof.
  unfold crear_medicamento, route, Firestore.stream_medicamentos,
    Firestore.write_medicamentos, Firestore.client, bindM, read_db, ret, lift.
  destruct (db w) as [fs|] eqn:Hdb; [|by left].
  destruct (Py.strip _) as [nombre|e] eqn:Hn; [|by left].
  cbn [Py.truthy]. destruct (String.eqb_spec nombre "") as [|Hne]; [by left|].
  cbn [negb]. unfold Py.lt_int.
  destruct (Py.as_int (Py.get data "stock_minimo" (VInt 10))) as [sm|] eqn:Hsm;
    [|by left].
  destruct (Z.ltb_spec sm 1); [by left|].
  rewrite Hdb. destruct (reachable fs) eqn:Hr; [|by left].
  destruct (Firestore.where_eq "nombre" (VStr nombre) (medicamentos fs)) eqn:Hw.
  2: { by left. }
  change (0 <? Z.of_nat (length [])) with false. cbn beta iota. rewrite Hdb, Hr.
  destruct (Py.add_int _ 1) as [orden|e] eqn:Ho; [|by left].
  rewrite Hdb, Hr. right. exists fs, nombre, sm, orden. unfold Firestore.add.
  repeat (split; [done|]). by rewrite Hr.
Qed.

(** X9.  [crear_medicamento] checks the request before it calls the
    backend, and a refused request changes nothing: a name that is not a
    text (a JSON [null] or a number) ends in the handler of the route
    (500, [AttributeError]); a name that is absent or blank is refused
    with 400; then a minimum stock below 1 is refused with 400, and one
    that is not a number ends in the handler (500, [TypeError]). *)
Theorem crear_medicamento_validacion
    (data : gmap string value) (new_id : string) (now : Z) (w : world) :
  is_Some (db w) ->
  let stock_minimo := Py.get data "stock_minimo" (VInt 10) in
  (forall e : exn, Py.strip (Py.get data "nombre" (VStr "")) = Raise e ->
     e = AttributeError
     /\ crear_medicamento data new_id now w = ((JExcepcion AttributeError, 500), w))
  /\ (Py.strip (Py.get data "nombre" (VStr "")) = Ok "" ->
      crear_medicamento data new_id now w
      = ((JError "El nombre del medicamento es obligatorio", 400), w))
  /\ (forall nombre : string,
        Py.strip (Py.get data "nombre" (VStr "")) = Ok nombre -> nombre ≠ "" ->
        (forall sm : Z, Py.as_int stock_minimo = Some sm -> sm < 1 ->
           crear_medicamento data new_id now w
           = ((JError "El stock mínimo debe ser mayor a 0", 400), w))
        /\ (Py.as_int stock_minimo = None ->
            crear_medicamento data new_id now w = ((JExcepcion TypeError, 500), w))).
Proof.
  intros [fs Hdb] stock_minimo. subst stock_minimo.
  unfold crear_medicamento, route, bindM, read_db, ret, lift. rewrite Hdb.
  split; [|split].
  - intros e He. rewrite He.
    assert (e = AttributeError) as ->; [|done].
    unfold Py.strip in He. by destruct (Py.get data "nombre" _); simplify_eq.
  - by intros ->.
  - intros nombre -> Hne. cbn [Py.truthy].
    destruct (String.eqb_spec nombre ""); [done|]. cbn [negb]. unfold Py.lt_int. split.
    + intros sm -> Hsm. by destruct (Z.ltb_spec sm 1); [|lia].
    + by intros ->.
Qed.

Lemma crear_medicamento_validacion_witness :
  crear_medicamento {[ "nombre" := VStr "   " ]} "n" 0 Ejemplo.w_caido
  = ((JError "El nombre del medicamento es obligatorio", 400), Ejemplo.w_caido)
  /\ crear_medicamento {[ "nombre" := VNone ]} "n" 0 Ejemplo.w_caido
     = ((JExcepcion AttributeError, 500), Ejemplo.w_caido)
  /\ crear_medicamento (Ejemplo.peticion_medicamento "Dipirona" 0) "n" 0 Ejemplo.w_caido
     = ((JError "El stock mínimo debe ser mayor a 0", 400), Ejemplo.w_caido).
Proof.
  assert (Hdb : is_Some (db Ejemplo.w_caido)) by (eexists; reflexivity).
  split; [|split].
  - by apply (crear_medicamento_validacion {[ "nombre" := VStr "   " ]} "n" 0 _ Hdb).
  - by apply (crear_medicamento_validacion {[ "nombre" := VNone ]} "n" 0 _ Hdb)
      with (e := AttributeError).
  - destruct (crear_medicamento_validacion (Ejemplo.peticion_medicamento "Dipirona" 0)
                "n" 0 _ Hdb) as (_ & _ & H).
    destruct (H "Dipirona" eq_refl) as [H' _]; [done|]. by apply (H' 0).
Defined.

Lemma where_eq_nil_omap (field : string) (v : value)
    (c : list (string * gmap string value)) :
  Firestore.where_eq field v c = [] <-> v ∉ omap (fun p => snd p !! field) c.
Proof.
  unfold Firestore.where_eq. induction c as [|p c IH];
    cbn [List.filter omap list_omap]; cbn beta.
  - split; [|done]. intros _. apply not_elem_of_nil.
  - case_bool_decide as Hp.
    + rewrite Hp. split; [done|]. intros []. by left.
    + rewrite IH. destruct (snd p !! field) as [v'|] eqn:Hv; [|done].
      rewrite not_elem_of_cons. split; [|by intros [_ ?]].
      intros ?. split; [|done]. by intros ->.
Qed.

Lemma crear_medicamento_409 (fs : firestore) (log : list log_entry)
    (data : gmap string value) (new_id : string) (now : Z) (nombre : string) (sm : Z) :
  reachable fs = true ->
  Py.strip (Py.get data "nombre" (VStr "")) = Ok nombre ->
  nombre ≠ "" ->
  Py.as_int (Py.get data "stock_minimo" (VInt 10)) = Some sm ->
  1 <= sm ->
  VStr nombre ∈ nombres (medicamentos fs) ->
  crear_medicamento data new_id now {| db := Some fs; consola := log |}
  = ((JError "El medicamento ya existe", 409), {| db := Some fs; consola := log |}).
Proof.
  intros Hr Hn Hne Hsm Hle Hin.
  unfold crear_medicamento, route, Firestore.stream_medicamentos,
    Firestore.client, bindM, read_db, ret, lift.
  paso Hr. rewrite Hn. cbn [Py.truthy].
  destruct (String.eqb_spec nombre ""); [done|]. cbn [negb]. unfold Py.lt_int.
  rewrite Hsm. destruct (Z.ltb_spec sm 1); [lia|]. paso Hr.
  destruct (Firestore.where_eq "nombre" (VStr nombre) (medicamentos fs)) eqn:Hw.
  - apply where_eq_nil_omap in Hw. by destruct Hw.
  - by rewrite length_cons, Nat2Z.inj_succ, (proj2 (Z.ltb_lt _ _)) by lia.
Qed.

(** X10.  [crear_medicamento] keeps the stored names distinct: when no two
    stored medications have the same name before a request, none have
    after it, whatever the request and the answer; the movements are not
    touched. *)
Theorem crear_medicamento_nombres_unicos
    (fs : firestore) (log : list log_entry) (data : gmap string value)
    (new_id : string) (now : Z) :
  NoDup (nombres (medicamentos fs)) ->
  exists fs' : firestore,
    snd (crear_medicamento data new_id now {| db := Some fs; consola := log |})
    = {| db := Some fs'; consola := log |}
    /\ movimientos fs' = movimientos fs
    /\ NoDup (nombres (medicamentos fs')).
Proof.
  intros Hnd.
  destruct (crear_medicamento_casos data new_id now {| db := Some fs; consola := log |})
    as [[_ ->]|(fs0 & nombre & sm & orden & Hdb & _ & _ & _ & _ & _ & Hw & _ & ->)].
  - by exists fs.
  - cbn in Hdb. simplify_eq. cbn [snd consola]. eexists. split; [reflexivity|].
    cbn [medicamentos movimientos]. split; [done|].
    unfold nombres. rewrite omap_app. cbn [omap list_omap snd].
    rewrite lookup_insert_eq. apply NoDup_app. split; [done|].
    split; [|apply NoDup_singleton].
    intros v Hv ->%list_elem_of_singleton. by apply where_eq_nil_omap in Hw.
Qed.

Lemma crear_medicamento_nombres_unicos_witness :
  exists fs' : firestore,
    snd (crear_medicamento (Ejemplo.peticion_medicamento "Dipirona" 5) "n" 0 Ejemplo.w)
    = {| db := Some fs'; consola := [] |}
    /\ movimientos fs' = movimientos Ejemplo.fs
    /\ NoDup (nombres (medicamentos fs')).
Proof.
  apply (crear_medicamento_nombres_unicos Ejemplo.fs []
           (Ejemplo.peticion_medicamento "Dipirona" 5) "n" 0).
  apply (bool_decide_unpack _). vm_compute. exact I.
Defined.

(** X11.  Once a medication has been registered, a further request whose
    name trims to the same text is refused with 409 and changes nothing,
    whatever identifier and time it would have got: surrounding blanks do
    not make a new name. *)
Theorem crear_medicamento_repetido
    (data data' : gmap string value) (new_id new_id' : string) (now now' : Z)
    (w w' : world) (p : payload) (sm : Z) :
  crear_medicamento data new_id now w = ((p, 201), w') ->
  Py.strip (Py.get data' "nombre" (VStr "")) = Py.strip (Py.get data "nombre" (VStr "")) ->
  Py.as_int (Py.get data' "stock_minimo" (VInt 10)) = Some sm ->
  1 <= sm ->
  crear_medicamento data' new_id' now' w'
  = ((JError "El medicamento ya existe", 409), w').
Proof.
  intros Hcrear Hnombre Hsm Hle.
  destruct (crear_medicamento_casos data new_id now w)
    as [[Hne _]|(fs & nombre & sm0 & orden & _ & _ & Hn & Hne & _ & _ & _ & _ & Heq)].
  - rewrite Hcrear in Hne. by destruct Hne.
  - rewrite Heq in Hcrear. injection Hcrear as _ <-.
    apply (crear_medicamento_409 _ _ data' new_id' now' nombre sm);
      [done|by rewrite Hnombre|done|done|done|].
    cbn [medicamentos]. unfold nombres. rewrite omap_app. cbn [omap list_omap snd].
    rewrite lookup_insert_eq, elem_of_app, list_elem_of_singleton. by right.
Qed.

Lemma crear_medicamento_repetido_witness :
  crear_medicamento (Ejemplo.peticion_medicamento "  Dipirona " 3) "n2" 1
    (snd (crear_medicamento (Ejemplo.peticion_medicamento "Dipirona" 5) "n" 0 Ejemplo.w))
  = ((JError "El medicamento ya existe", 409),
     snd (crear_medicamento (Ejemplo.peticion_medicamento "Dipirona" 5) "n" 0 Ejemplo.w)).
Proof.
  by apply (crear_medicamento_repetido (Ejemplo.peticion_medicamento "Dipirona" 5)
              (Ejemplo.peticion_medicamento "  Dipirona " 3) "n" "n2" 0 1 Ejemplo.w _
              (JMedicamentoAgregado "n" "Dipirona" (VInt 5)) 3 eq_refl eq_refl eq_refl).
Defined.

(** ** The order of [order_by] *)

Lemma string_leb_trans (s t u : string) :
  String.leb s t = true -> String.leb t u = true -> String.leb s u = true.
Proof.
  unfold String.leb. revert t u.
  induction s as [|a s IH]; intros [|b t] [|c u]; cbn [String.compare]; try done.
  unfold Ascii.compare.
  destruct (N.compare_spec (Ascii.N_of_ascii a) (Ascii.N_of_ascii b)) as [Hab|Hab|Hab];
    destruct (N.compare_spec (Ascii.N_of_ascii b) (Ascii.N_of_ascii c)) as [Hbc|Hbc|Hbc];
    destruct (N.compare_spec (Ascii.N_of_ascii a) (Ascii.N_of_ascii c)) as [Hac|Hac|Hac];
    try done; try lia.
  apply IH.
Qed.

Lemma value_leb_trans (a b c : value) :
  value_leb a b = true -> value_leb b c = true -> value_leb a c = true.
Proof.
  destruct a as [|x|x|x|x], b as [|y|y|y|y], c as [|z|z|z|z]; cbn; try done; try lia.
  - by destruct x, y, z.
  - apply string_leb_trans.
Qed.

Lemma value_leb_total (a b : value) : value_leb a b = false -> value_leb b a = true.
Proof.
  destruct a as [|x|x|x|x], b as [|y|y|y|y]; cbn; try done; try lia.
  - by destruct x, y.
  - intros H. destruct (String.leb_total x y) as [H'|H']; [by rewrite H' in H|done].
Qed.

(** [order_by] yields its documents in ascending order of the field. *)
Lemma order_by_sorted (field : string) (c : list (string * gmap string value)) :
  StronglySorted
    (fun p q => value_leb (Py.get_none (snd p) field) (Py.get_none (snd q) field) = true)
    (order_by field c).
Proof.
  unfold order_by. apply sort_by_sorted.
  - intros x y z. apply value_leb_trans.
  - intros x y [H|[H _]%andb_true_iff]%orb_true_iff; [|done].
    apply value_leb_total. by apply negb_true_iff.
  - intros x y [H _]%orb_false_iff. by apply negb_false_iff.
Qed.

Lemma order_by_Permutation (field : string) (c : list (string * gmap string value)) :
  order_by field c
  ≡ₚ List.filter (fun p => bool_decide (is_Some (snd p !! field))) c.
Proof. unfold order_by. apply sort_by_Permutation. Qed.

(** ** [get_medicamentos] *)

Lemma StronglySorted_fmap {A B : Type} (f : A -> B) (R' : A -> A -> Prop)
    (R : B -> B -> Prop) (l : list A) :
  (forall x y : A, R' x y -> R (f x) (f y)) ->
  StronglySorted R' l -> StronglySorted R (f <$> l).
Proof.
  intros HR. induction 1 as [|x l _ IH Hx]; [constructor|].
  rewrite fmap_cons. constructor; [done|]. apply Forall_fmap.
  eapply Forall_impl; [exact Hx|]. intros y. apply HR.
Qed.

Lemma get_medicamentos_eq (fs : firestore) (log : list log_entry) :
  reachable fs = true ->
  get_medicamentos {| db := Some fs; consola := log |}
  = (inl (con_id <$> order_by "orden" (medicamentos fs)),
     {| db := Some fs; consola := log |}).
Proof.
  intros Hr. unfold get_medicamentos, route_de, Firestore.stream_medicamentos,
    Firestore.client, bindM, read_db, ret.
  paso Hr. done.
Qed.

(** X12.  While the backend answers, [get_medicamentos] lists the stored
    medications that have a display order, each once and with its
    identifier under ["id"], in ascending order of [orden]; a medication
    stored without the field is left out of the list.  The state does not
    change. *)
Theorem get_medicamentos_orden (fs : firestore) (log : list log_entry) :
  reachable fs = true ->
  let w := {| db := Some fs; consola := log |} in
  exists docs : list (gmap string value),
    get_medicamentos w = (inl docs, w)
    /\ docs ≡ₚ con_id <$> List.filter (fun p => bool_decide (is_Some (snd p !! "orden")))
                                      (medicamentos fs)
    /\ StronglySorted
         (fun a b => value_leb (Py.get_none a "orden") (Py.get_none b "orden") = true)
         docs.
Proof.
  intros Hr w. eexists. split; [by apply get_medicamentos_eq|].
  split; [by rewrite order_by_Permutation|].
  eapply StronglySorted_fmap; [|apply (order_by_sorted "orden")].
  intros p q. unfold con_id, Py.get_none, Py.get.
  by rewrite !lookup_insert_ne by done.
Qed.

Lemma get_medicamentos_orden_witness :
  exists docs : list (gmap string value),
    get_medicamentos Ejemplo.w = (inl docs, Ejemplo.w)
    /\ length docs = 2%nat.
Proof.
  destruct (get_medicamentos_orden Ejemplo.fs [] eq_refl) as (docs & H & Hp & _).
  exists docs. split; [exact H|]. by rewrite Hp.
Defined.

Lemma insert_by_snoc {A : Type} (before : A -> A -> bool) (x y : A) (s : list A) :
  before x y = false ->
  insert_by before y (s ++ [x]) = insert_by before y s ++ [x].
Proof.
  intros Hxy. induction s as [|z s IH]; cbn [insert_by app].
  - by rewrite Hxy.
  - destruct (before z y); [by rewrite IH|done].
Qed.

Lemma sort_by_snoc {A : Type} (before : A -> A -> bool) (x : A) (l : list A) :
  Forall (fun y => before x y = false) l ->
  sort_by before (l ++ [x]) = sort_by before l ++ [x].
Proof.
  unfold sort_by. rewrite foldr_app. cbn [foldr insert_by].
  induction 1 as [|y l Hy _ IH]; [done|]. cbn [foldr].
  by rewrite IH, insert_by_snoc.
Qed.

(** With integer display orders, the largest one bounds them all. *)
Lemma max_field_enteros (c : list (string * gmap string value)) :
  ordenes_enteros c = true ->
  match max_field "orden" c with
  | Some v =>
      exists m : Z,
        v = VInt m
        /\ Forall (fun p => forall u, snd p !! "orden" = Some u ->
                            exists k : Z, u = VInt k /\ k <= m) c
  | None => Forall (fun p => snd p !! "orden" = None) c
  end.
Proof.
  induction c as [|p c IH]; [by constructor|].
  cbn [ordenes_enteros forallb max_field]. intros [Hp Hc]%andb_true_iff.
  specialize (IH Hc).
  destruct (snd p !! "orden") as [[| |k| |]|] eqn:Ho; try done.
  - destruct (max_field "orden" c) as [v|].
    + destruct IH as (m & -> & Hm). cbn [value_leb].
      destruct (Z.leb_spec m k).
      * exists k. split; [done|]. constructor.
        -- intros u Hu. rewrite Ho in Hu. injection Hu as <-. exists k. split; [done|lia].
        -- eapply Forall_impl; [exact Hm|]. intros q Hq u Hu.
           destruct (Hq u Hu) as (k' & -> & Hk'). exists k'. split; [done|lia].
      * exists m. split; [done|]. constructor; [|done].
        intros u Hu. rewrite Ho in Hu. injection Hu as <-. exists k. split; [done|lia].
    + exists k. split; [done|]. constructor.
      * intros u Hu. rewrite Ho in Hu. injection Hu as <-. exists k. split; [done|lia].
      * eapply Forall_impl; [exact IH|]. intros q Hq u Hu. by rewrite Hq in Hu.
  - destruct (max_field "orden" c) as [v|].
    + destruct IH as (m & -> & Hm). exists m. split; [done|].
      constructor; [|done]. intros u Hu. by rewrite Ho in Hu.
    + by constructor.
Qed.

(** With integer display orders, a document whose order is one more than
    the largest goes last. *)
Lemma order_by_siguiente (c : list (string * gmap string value)) (id : string)
    (doc : gmap string value) (orden : value) :
  ordenes_enteros c = true ->
  Py.add_int (match max_field "orden" c with Some v => v | None => VInt 0 end) 1
  = Ok orden ->
  doc !! "orden" = Some orden ->
  order_by "orden" (c ++ [(id, doc)]) = order_by "orden" c ++ [(id, doc)].
Proof.
  intros Hc Ho Hdoc. unfold order_by. rewrite filter_app_list.
  cbn [List.filter snd]. rewrite Hdoc, bool_decide_eq_true_2 by done.
  apply sort_by_snoc. apply Forall_forall. intros y [Hy Hord]%list_elem_of_In%filter_In.
  apply bool_decide_eq_true_1 in Hord as [u Hu].
  apply list_elem_of_In in Hy. pose proof (max_field_enteros c Hc) as Hmax.
  unfold Py.get_none, Py.get. cbn [snd fst]. rewrite Hdoc, Hu.
  destruct (max_field "orden" c) as [v|].
  - destruct Hmax as (m & -> & Hm). rewrite Forall_forall in Hm.
    destruct (Hm y Hy u Hu) as (k & -> & Hk).
    cbn in Ho. injection Ho as <-. cbn [value_leb].
    rewrite (proj2 (Z.leb_le k (m + 1))) by lia.
    by rewrite (proj2 (Z.leb_gt (m + 1) k)) by lia.
  - rewrite Forall_forall in Hmax. by rewrite (Hmax y Hy) in Hu.
Qed.

(** X13.  A medication that has just been registered comes last in the
    list of [get_medicamentos] when the display orders stored before are
    integers: the list after the request is the list before it followed
    by the new medication, which carries the identifier drawn for it. *)
Theorem crear_medicamento_listado
    (fs : firestore) (log : list log_entry) (data : gmap string value)
    (new_id : string) (now : Z) (p : payload) (w' : world) :
  ordenes_enteros (medicamentos fs) = true ->
  crear_medicamento data new_id now {| db := Some fs; consola := log |} = ((p, 201), w') ->
  exists (docs : list (gmap string value)) (doc : gmap string value),
    fst (get_medicamentos {| db := Some fs; consola := log |}) = inl docs
    /\ get_medicamentos w' = (inl (docs ++ [doc]), w')
    /\ doc !! "id" = Some (VStr new_id)
    /\ doc !! "stock_minimo" = Some (Py.get data "stock_minimo" (VInt 10)).
Proof.
  intros Hord Hcrear.
  destruct (crear_medicamento_casos data new_id now {| db := Some fs; consola := log |})
    as [[Hne _]|(fs0 & nombre & sm & orden & Hdb & Hr & _ & _ & _ & _ & _ & Ho & Heq)].
  { rewrite Hcrear in Hne. by destruct Hne. }
  cbn in Hdb. simplify_eq. rewrite Heq in Hcrear. injection Hcrear as _ <-.
  rewrite !get_medicamentos_eq by done. cbn [medicamentos fst consola].
  erewrite order_by_siguiente; [|done|exact Ho|by simplify_map_eq].
  rewrite fmap_app. eexists _, _. split; [done|]. split; [done|].
  unfold con_id. cbn [fst snd]. by simplify_map_eq.
Qed.

Lemma crear_medicamento_listado_witness :
  exists (docs : list (gmap string value)) (doc : gmap string value),
    fst (get_medicamentos Ejemplo.w) = inl docs
    /\ get_medicamentos
         (snd (crear_medicamento (Ejemplo.peticion_medicamento "Dipirona" 5) "n" 0
                 Ejemplo.w))
       = (inl (docs ++ [doc]),
          snd (crear_medicamento (Ejemplo.peticion_medicamento "Dipirona" 5) "n" 0
                 Ejemplo.w))
    /\ doc !! "id" = Some (VStr "n")
    /\ doc !! "stock_minimo" = Some (VInt 5).
Proof.
  exact (crear_medicamento_listado Ejemplo.fs [] (Ejemplo.peticion_medicamento "Dipirona" 5)
           "n" 0 (JMedicamentoAgregado "n" "Dipirona" (VInt 5)) _ eq_refl eq_refl).
Defined.

(** ** [actualizar_medicamento_ruta] *)

Lemma update_data_medicamento_otros (nombre : string) (stock_minimo : value) (k : string) :
  k ≠ "nombre" -> k ≠ "stock_minimo" ->
  update_data_medicamento nombre stock_minimo !! k = None.
Proof.
  intros. unfold update_data_medicamento. cbn zeta.
  case_bool_decide; by simplify_map_eq.
Qed.

Lemma update_data_medicamento_nombre (nombre : string) (stock_minimo : value) :
  update_data_medicamento nombre stock_minimo !! "nombre" = Some (VStr nombre).
Proof.
  unfold update_data_medicamento. cbn zeta. case_bool_decide; by simplify_map_eq.
Qed.

(** The two ways in which [actualizar_medicamento_ruta] ends. *)
Lemma actualizar_medicamento_ruta_casos (id : string) (data : gmap string value)
    (w : world) :
  (snd (fst (actualizar_medicamento_ruta id data w)) ≠ 200
   /\ snd (actualizar_medicamento_ruta id data w) = w)
  \/ exists (fs : firestore) (nombre : string),
       db w = Some fs /\ reachable fs = true
       /\ Py.strip (Py.get data "nombre" (VStr "")) = Ok nombre
       /\ nombre ≠ ""
       /\ is_Some (Firestore.lookup id (medicamentos fs))
       /\ actualizar_medicamento_ruta id data w
          = ((inl (JMensaje "Medicamento actualizado exitosamente"), 200),
             {| db := Some {| reachable := true;
                              medicamentos :=
                                Firestore.update id
                                  (update_data_medicamento nombre
                                     (Py.get_none data "stock_minimo"))
                                  (medicamentos fs);
                              movimientos := movimientos fs |};
                consola := consola w |}).
Proof.
  unfold actualizar_medicamento_ruta, update_medicamento, Firestore.get_medicamento,
    Firestore.write_medicamentos, Firestore.client, bindM, read_db, ret, lift.
  destruct (db w) as [fs|] eqn:Hdb; [|by left].
  destruct (Py.strip _) as [nombre|e] eqn:Hn; [|by left].
  cbn [Py.truthy]. destruct (String.eqb_spec nombre "") as [|Hne]; [by left|].
  cbn [negb].
  assert (Hbajo : forall b : bool,
    (if b then (fun w0 : world => (Ok false, w0))
     else (fun w0 : world => (Py.lt_int (Py.get_none data "stock_minimo") 1, w0))) w
    = ((if b then Ok false else Py.lt_int (Py.get_none data "stock_minimo") 1), w))
    by by intros [].
  rewrite Hbajo.
  destruct (if bool_decide _ then _ else _) as [[]|]; [by left| |by left].
  rewrite Hdb. destruct (reachable fs) eqn:Hr; [|by left].
  destruct (Firestore.lookup id (medicamentos fs)) eqn:Hl; [|by left].
  rewrite Hdb, Hr. right. exists fs, nombre. rewrite Hl, Hr. by repeat (split; [done|]).
Qed.

(** X14.  What [actualizar_medicamento_ruta] can change.  Whatever the
    request, the movements (so every derived stock) stay, the identifiers
    of the medications and their order in the collection stay, every
    other medication stays as it was, and in the medication that is
    rewritten only [nombre] and [stock_minimo] can differ: its display
    order is kept.  An answer other than 200 changes nothing, and an
    identifier that is not stored is never answered with 200. *)
Theorem actualizar_medicamento_ruta_marco
    (fs : firestore) (log : list log_entry) (id : string) (data : gmap string value) :
  let w := {| db := Some fs; consola := log |} in
  let r := actualizar_medicamento_ruta id data w in
  exists fs' : firestore,
    snd r = {| db := Some fs'; consola := log |}
    /\ movimientos fs' = movimientos fs
    /\ fst <$> medicamentos fs' = fst <$> medicamentos fs
    /\ (forall id' : string, id' ≠ id ->
          Firestore.lookup id' (medicamentos fs') = Firestore.lookup id' (medicamentos fs))
    /\ (forall doc' : gmap string value,
          Firestore.lookup id (medicamentos fs') = Some doc' ->
          exists doc : gmap string value,
            Firestore.lookup id (medicamentos fs) = Some doc
            /\ forall k : string, k ≠ "nombre" -> k ≠ "stock_minimo" ->
                 doc' !! k = doc !! k)
    /\ (snd (fst r) ≠ 200 -> fs' = fs)
    /\ (Firestore.lookup id (medicamentos fs) = None -> snd (fst r) ≠ 200).
Proof.
  intros w r. subst r.
  destruct (actualizar_medicamento_ruta_casos id data w)
    as [[Hne Hw]|(fs0 & nombre & Hfs0 & _ & _ & _ & Hl & Heq)].
  - exists fs. rewrite Hw. split; [done|]. split; [done|]. split; [done|].
    split; [done|]. split; [|done]. intros doc' Hd. exists doc'. by split.
  - rewrite Heq. cbn in Hfs0. simplify_eq. cbn [w consola snd fst].
    eexists. split; [reflexivity|]. cbn [medicamentos movimientos].
    split; [done|]. split; [apply update_ids|]. split; [|split; [|split]].
    + intros id' Hid'. rewrite lookup_update.
      destruct (String.eqb_spec id' id); [done|].
      destruct (Firestore.lookup id' _); reflexivity.
    + intros doc'. rewrite lookup_update, String.eqb_refl.
      destruct (Firestore.lookup id (medicamentos fs0)) as [doc|]; [|done].
      intros [= <-]. exists doc. split; [done|]. intros k ??.
      by rewrite lookup_union_r by by apply update_data_medicamento_otros.
    + intros Hne. by destruct Hne.
    + intros Hnone. rewrite Hnone in Hl. by destruct Hl.
Qed.

Lemma lookup_elem_of (id : string) (doc : gmap string value)
    (c : list (string * gmap string value)) :
  Firestore.lookup id c = Some doc -> (id, doc) ∈ c.
Proof.
  unfold Firestore.lookup. induction c as [|[id0 d0] c IH]; [done|].
  cbn [find fst]. destruct (String.eqb_spec id0 id) as [->|].
  - intros [= <-]. apply list_elem_of_here.
  - intros H. apply list_elem_of_further. by apply IH.
Qed.

Lemma nombres_update_elem_of (id id' : string) (fields doc' : gmap string value)
    (v : value) (c : list (string * gmap string value)) :
  id' ≠ id -> (id', doc') ∈ c -> doc' !! "nombre" = Some v ->
  v ∈ nombres (Firestore.update id fields c).
Proof.
  intros Hid Hin Hv. unfold nombres. apply list_elem_of_omap.
  exists (id', doc'). split; [|done].
  unfold Firestore.update. apply list_elem_of_In, in_map_iff.
  exists (id', doc'). cbn [fst]. split; [|by apply list_elem_of_In].
  by destruct (String.eqb_spec id' id).
Qed.

(** Renaming a stored medication to the name of another stored one leaves
    a repeated name. *)
Lemma update_nombre_repetido (id id' : string) (fields doc doc' : gmap string value)
    (v : value) (c : list (string * gmap string value)) :
  id' ≠ id ->
  (id, doc) ∈ c -> (id', doc') ∈ c ->
  doc' !! "nombre" = Some v -> fields !! "nombre" = Some v ->
  ~ NoDup (nombres (Firestore.update id fields c)).
Proof.
  intros Hid Hin Hin' Hv Hf Hnd.
  apply list_elem_of_split in Hin as (l1 & l2 & ->).
  unfold nombres, Firestore.update in Hnd.
  rewrite map_app, omap_app in Hnd. cbn [List.map omap list_omap fst snd] in Hnd.
  rewrite String.eqb_refl in Hnd. cbn [snd] in Hnd.
  rewrite (lookup_union_Some_l _ _ _ _ Hf) in Hnd.
  apply NoDup_app in Hnd as (_ & Hl1 & [Hl2 _]%NoDup_cons).
  apply elem_of_app in Hin' as [Hin'|Hin'].
  - apply (Hl1 v); [|apply list_elem_of_here].
    by apply (nombres_update_elem_of id id' fields doc').
  - apply elem_of_cons in Hin' as [[= ? _]|Hin']; [done|].
    apply Hl2. by apply (nombres_update_elem_of id id' fields doc').
Qed.

(** X15.  [actualizar_medicamento_ruta] does not look for the new name
    among the stored medications, and it does not look for the document
    before it writes.  With a name that is not blank and no minimum stock
    in the request, while the backend answers: an identifier that is not
    stored ends in the handler of the route (500, [NotFound]) without a
    change of state; a stored one is renamed and answered with 200, also
    when another medication already has the name, after which the stored
    names are no longer distinct. *)
Theorem actualizar_medicamento_ruta_sin_control
    (fs : firestore) (log : list log_entry) (id : string) (data : gmap string value)
    (raw : string) :
  reachable fs = true ->
  data !! "nombre" = Some (VStr raw) ->
  data !! "stock_minimo" = None ->
  let nombre := Py.rstrip (Py.lstrip raw) in
  nombre ≠ "" ->
  let w := {| db := Some fs; consola := log |} in
  let meds' := Firestore.update id {[ "nombre" := VStr nombre ]} (medicamentos fs) in
  (Firestore.lookup id (medicamentos fs) = None ->
   actualizar_medicamento_ruta id data w = ((inr NotFound, 500), w))
  /\ (is_Some (Firestore.lookup id (medicamentos fs)) ->
      actualizar_medicamento_ruta id data w
      = ((inl (JMensaje "Medicamento actualizado exitosamente"), 200),
         {| db := Some {| reachable := true;
                          medicamentos := meds';
                          movimientos := movimientos fs |};
            consola := log |})
      /\ (forall (id' : string) (doc' : gmap string value),
            id' ≠ id ->
            Firestore.lookup id' (medicamentos fs) = Some doc' ->
            doc' !! "nombre" = Some (VStr nombre) ->
            ~ NoDup (nombres meds'))).
Proof.
  intros Hr Hn Hsm nombre Hne w meds'.
  assert (Hrun : actualizar_medicamento_ruta id data w
    = match Firestore.lookup id (medicamentos fs) with
      | None => ((inr NotFound, 500), w)
      | Some _ =>
          ((inl (JMensaje "Medicamento actualizado exitosamente"), 200),
           {| db := Some {| reachable := true;
                            medicamentos := meds';
                            movimientos := movimientos fs |};
              consola := log |})
      end).
  { unfold actualizar_medicamento_ruta, update_medicamento, Firestore.get_medicamento,
      Firestore.write_medicamentos, Firestore.client, bindM, read_db, ret, lift.
    subst w. paso Hr. unfold Py.get, Py.get_none, Py.get. rewrite Hn, Hsm.
    cbn [Py.strip Py.truthy]. fold nombre.
    destruct (String.eqb_spec nombre ""); [done|]. cbn [negb].
    rewrite bool_decide_eq_true_2 by done. paso Hr.
    destruct (Firestore.lookup id (medicamentos fs)); [|done]. paso Hr.
    unfold update_data_medicamento. cbn zeta. by rewrite bool_decide_eq_true_2 by done. }
  rewrite Hrun. split.
  - by intros ->.
  - intros [doc Hdoc]. rewrite Hdoc. split; [done|].
    intros id' doc' Hid' Hdoc' Hnom.
    apply (update_nombre_repetido id id' _ doc doc' (VStr nombre));
      [done|by apply lookup_elem_of|by apply lookup_elem_of|done|by simplify_map_eq].
Qed.

Lemma actualizar_medicamento_ruta_sin_control_witness :
  fst (actualizar_medicamento_ruta "m2" {[ "nombre" := VStr " Atropina" ]} Ejemplo.w)
  = (inl (JMensaje "Medicamento actualizado exitosamente"), 200)
  /\ ~ NoDup (nombres (Firestore.update "m2" {[ "nombre" := VStr "Atropina" ]}
                         (medicamentos Ejemplo.fs)))
  /\ actualizar_medicamento_ruta "zz" {[ "nombre" := VStr " Atropina" ]} Ejemplo.w
     = ((inr NotFound, 500), Ejemplo.w).
Proof.
  assert (H1 : ({[ "nombre" := VStr " Atropina" ]} : gmap string value) !! "nombre"
               = Some (VStr " Atropina")) by (vm_compute; reflexivity).
  assert (H2 : ({[ "nombre" := VStr " Atropina" ]} : gmap string value) !! "stock_minimo"
               = None) by (vm_compute; reflexivity).
  assert (H3 : Py.rstrip (Py.lstrip " Atropina") ≠ "") by (vm_compute; discriminate).
  destruct (actualizar_medicamento_ruta_sin_control Ejemplo.fs [] "m2" _ _
              eq_refl H1 H2 H3) as [_ H].
  destruct H as [Ha Hb]; [by eexists|].
  split; [unfold Ejemplo.w; by rewrite Ha|]. split.
  - by apply (Hb "m1" (Ejemplo.medicamento "Atropina" 10 1)).
  - by apply (actualizar_medicamento_ruta_sin_control Ejemplo.fs [] "zz" _ _
                eq_refl H1 H2 H3).
Defined.

(** ** Reports *)

(** The total of the fortnightly PDF is the demand of the period of the
    workbook, computed on the [SALIDA] movements. *)
Lemma sumar_salidas_entre_eq (fecha_inicio fecha_fin : Z)
    (movs : list (gmap string value)) :
  sumar_salidas_entre fecha_inicio fecha_fin movs
  = demanda_periodo
      (List.filter (fun mov => Py.eqb (Py.get_none mov "tipo") (VStr "SALIDA")) movs)
      fecha_inicio fecha_fin.
Proof.
  unfold sumar_salidas_entre, demanda_periodo. generalize 0 at 2 4.
  induction movs as [|mov movs IH]; intros acc; cbn [foldM List.filter]; [done|].
  destruct (Py.eqb (Py.get_none mov "tipo") (VStr "SALIDA")); cbn [foldM]; [|apply IH].
  cbn zeta. destruct (Py.ge _ _) as [[]|]; cbn [bindR]; [|apply IH|done].
  destruct (Py.le _ _) as [[]|]; cbn [bindR]; [|apply IH|done].
  destruct (Py.add _ _); cbn [bindR]; [apply IH|done].
Qed.

(** The ledger answers from [db] alone and does not change it. *)
Lemma calcular_stock_medicamento_valor (med : value) (w w' : world) :
  db w = db w' ->
  fst (calcular_stock_medicamento med w) = fst (calcular_stock_medicamento med w').
Proof.
  intros Hdb. rewrite !calcular_stock_medicamento_eq, <- Hdb.
  destruct (db w) as [fs|]; [|done]. destruct (reachable fs); [|done].
  cbn zeta. by destruct (forallb _ _).
Qed.

Lemma calcular_stock_medicamento_Ok_db (med : value) (w w' : world) (z : Z) :
  calcular_stock_medicamento med w = (Ok z, w') ->
  db w' = db w /\ fst (calcular_stock_medicamento med w) = Ok z.
Proof.
  intros H. split; [|by rewrite H].
  rewrite <- (calcular_stock_medicamento_db med w). by rewrite H.
Qed.

Lemma stream_movimientos_Ok
    (q : list (string * gmap string value) -> list (string * gmap string value))
    (w w' : world) (docs : list (string * gmap string value)) :
  Firestore.stream_movimientos q w = (Ok docs, w') ->
  w' = w /\ exists fs : firestore,
    db w = Some fs /\ reachable fs = true /\ docs = q (movimientos fs).
Proof.
  unfold Firestore.stream_movimientos.
  intros (fs & w1 & (Hdb & Hr & ->)%client_Ok & [-> ->]%ret_Ok)%bindM_Ok.
  split; [done|]. by exists fs.
Qed.

Lemma stream_medicamentos_Ok
    (q : list (string * gmap string value) -> list (string * gmap string value))
    (w w' : world) (docs : list (string * gmap string value)) :
  Firestore.stream_medicamentos q w = (Ok docs, w') ->
  w' = w /\ exists fs : firestore,
    db w = Some fs /\ reachable fs = true /\ docs = q (medicamentos fs).
Proof.
  unfold Firestore.stream_medicamentos.
  intros (fs & w1 & (Hdb & Hr & ->)%client_Ok & [-> ->]%ret_Ok)%bindM_Ok.
  split; [done|]. by exists fs.
Qed.

(** The day-and-shift cells are written from column [col] on. *)
Lemma celdas_turnos_keeps (salidas : list (gmap string value)) (fecha_dia : string)
    (turnos : list string) (fila fila' : gmap Z value) (col col' c : Z) :
  foldM (fun (acc : gmap Z value * Z) turno =>
           let+ total := total_turno salidas fecha_dia turno in
           Ok (if 0 <? total then <[snd acc := VInt total]> (fst acc) else fst acc,
               snd acc + 1))
        (fila, col) turnos = Ok (fila', col') ->
  c < col -> fila' !! c = fila !! c.
Proof.
  revert fila col. induction turnos as [|t turnos IH]; intros fila col; cbn [foldM].
  - by intros [= <- <-].
  - intros (acc & (total & _ & [= <-])%bindR_Ok & Hacc)%bindR_Ok Hc.
    cbn [fst snd] in Hacc. rewrite (IH _ _ Hacc) by lia.
    destruct (0 <? total); [|done]. by rewrite lookup_insert_ne by lia.
Qed.

Lemma celdas_dias_keeps (salidas : list (gmap string value)) (fecha_inicio : Z)
    (dias : list Z) (fila fila' : gmap Z value) (col col' c : Z) :
  foldM (celdas_dia salidas fecha_inicio) (fila, col) dias = Ok (fila', col') ->
  c < col -> fila' !! c = fila !! c.
Proof.
  revert fila col. induction dias as [|d dias IH]; intros fila col; cbn [foldM].
  - by intros [= <- <-].
  - intros ([fila1 col1] & Hdia & Hresto)%bindR_Ok Hc.
    unfold celdas_dia in Hdia.
    apply bindR_Ok in Hdia as (fecha_dia & _ & Hdia).
    pose proof (celdas_turnos_Ok _ _ _ _ _ _ _ Hdia) as [-> _].
    rewrite (IH _ _ Hresto) by (cbn [length]; lia).
    by apply (celdas_turnos_keeps _ _ _ _ _ _ _ _ Hdia).
Qed.

(** *** The demand of a period *)

Lemma py_ge_texto (v : value) (s : string) (b : bool) :
  Py.ge v (VStr s) = Ok b -> exists f : string, v = VStr f /\ b = negb (String.ltb f s).
Proof.
  unfold Py.ge, Py.compare, String.ltb.
  destruct v as [|x|x|f|x]; cbn [Py.as_int bindR]; try done.
  intros [= <-]. exists f. split; [done|]. by destruct (String.compare f s).
Qed.

Lemma py_le_texto (f s : string) : Py.le (VStr f) (VStr s) = Ok (String.leb f s).
Proof.
  unfold Py.le, Py.compare, String.leb. cbn [Py.as_int bindR].
  by destruct (String.compare f s).
Qed.

(** Whenever the loop of the report comes to an end, its result is the sum
    of the quantities of the movements dated in the period. *)
Lemma demanda_periodo_suma (salidas : list (gmap string value))
    (fecha_inicio fecha_fin demanda : Z) :
  demanda_periodo salidas fecha_inicio fecha_fin = Ok demanda ->
  demanda = sumZ (cantidad_de <$> List.filter (en_periodo fecha_inicio fecha_fin) salidas).
Proof.
  unfold demanda_periodo.
  match goal with |- foldM ?F _ _ = _ -> _ => set (paso := F) end.
  assert (forall acc d, foldM paso acc salidas = Ok d ->
            d = acc + sumZ (cantidad_de <$>
                              List.filter (en_periodo fecha_inicio fecha_fin) salidas))
    as Hgen; [|intros H; by rewrite (Hgen 0 demanda H)].
  induction salidas as [|mov salidas IH]; intros acc d; cbn [foldM List.filter].
  - intros [= <-]. cbn. lia.
  - intros (acc' & Hpaso & Hresto)%bindR_Ok. apply IH in Hresto as ->.
    unfold paso in Hpaso. cbn zeta in Hpaso.
    apply bindR_Ok in Hpaso as (b & (f & Hf & ->)%py_ge_texto & Hpaso).
    assert (en_periodo fecha_inicio fecha_fin mov
            = negb (String.ltb f (Fecha.isoformat fecha_inicio))
              && String.leb f (Fecha.isoformat fecha_fin)) as ->
      by (unfold en_periodo; by rewrite Hf).
    rewrite Hf in Hpaso.
    destruct (String.ltb f (Fecha.isoformat fecha_inicio)); cbn [negb andb] in *.
    { by injection Hpaso as <-. }
    rewrite py_le_texto in Hpaso. cbn [bindR] in Hpaso.
    destruct (String.leb f (Fecha.isoformat fecha_fin)).
    + unfold Py.add in Hpaso. rewrite fmap_cons, sumZ_cons.
      destruct (Py.as_int (Py.get mov "cantidad" (VInt 0))) as [z|] eqn:Hq; [|done].
      assert (cantidad_de mov = z) as -> by (unfold cantidad_de; by rewrite Hq).
      injection Hpaso as <-. lia.
    + by injection Hpaso as <-.
Qed.

Lemma filter_filter_list {A : Type} (f g : A -> bool) (l : list A) :
  List.filter f (List.filter g l) = List.filter (fun x => g x && f x) l.
Proof.
  induction l as [|x l IH]; cbn [List.filter]; [done|].
  destruct (g x); cbn [List.filter andb]; [|done]. by rewrite IH.
Qed.

(** The movements that the report adds up for a medication are its
    [SALIDA] movements dated in the period. *)
Lemma demanda_periodo_demanda_de (fs : firestore) (fecha_inicio fecha_fin demanda : Z)
    (med_id : string) :
  demanda_periodo
    (List.filter (fun mov => Py.eqb (Py.get_none mov "tipo") (VStr "SALIDA"))
       (snd <$> Firestore.where_eq "medicamento_id" (VStr med_id) (movimientos fs)))
    fecha_inicio fecha_fin = Ok demanda ->
  demanda = demanda_de fs fecha_inicio fecha_fin med_id.
Proof.
  intros ->%demanda_periodo_suma. unfold demanda_de.
  rewrite where_eq_snd, !filter_filter_list. do 2 f_equal.
  apply filter_ext_in. intros mov _. unfold referencia, es_tipo.
  rewrite py_eqb_str, andb_assoc. do 2 f_equal. unfold Py.get_none, Py.get.
  apply bool_decide_ext. destruct (mov !! "tipo"); split; congruence.
Qed.

(** The stock and demand cells of a row of the workbook. *)
Lemma fila_medicamento_stock (fecha_inicio fecha_fin dias col_demanda col_stock : Z)
    (med_doc : string * gmap string value) (w w' : world) (fila : gmap Z value) :
  5 <= col_demanda -> col_demanda < col_stock ->
  fila_medicamento fecha_inicio fecha_fin dias col_demanda col_stock med_doc w
  = (Ok fila, w') ->
  db w' = db w
  /\ exists (fs : firestore) (stock : Z),
       db w = Some fs /\ reachable fs = true
       /\ fst (calcular_stock_medicamento (VStr (fst med_doc)) w) = Ok stock
       /\ fila !! 4 = Some (VInt stock)
       /\ fila !! col_demanda
          = Some (VInt (demanda_de fs fecha_inicio fecha_fin (fst med_doc)))
       /\ fila !! col_stock = Some (VInt stock).
Proof.
  intros Hcd Hcs H. unfold fila_medicamento in H. cbv zeta in H.
  apply bindM_Ok in H as (nombre & w0 & [_ ->]%lift_Ok & H).
  apply bindM_Ok in H as (movs & w1 & [-> _]%stream_movimientos_Ok & H).
  apply bindM_Ok in H as (ultimo & w2 & [_ ->]%lift_Ok & H).
  apply bindM_Ok in H as (fila1 & w2' & [_ ->]%lift_Ok & H).
  apply bindM_Ok in H as (stock_inicial & w3 & [Hdb3 Hs3]%calcular_stock_medicamento_Ok_db & H).
  apply bindM_Ok in H as (movs2 & w4 & [-> (fs & Hfs & Hr & ->)]%stream_movimientos_Ok & H).
  apply bindM_Ok in H as ([celdas col] & w5 & [Hc ->]%lift_Ok & H).
  apply bindM_Ok in H as (demanda & w6 & [Hd ->]%lift_Ok & H).
  apply bindM_Ok in H as (stock_actual & w7 & [Hdb7 Hs7]%calcular_stock_medicamento_Ok_db & H).
  apply ret_Ok in H as [-> ->]. cbn [fst] in *.
  split; [congruence|]. rewrite Hdb3 in Hfs.
  apply demanda_periodo_demanda_de in Hd as ->.
  exists fs, stock_inicial. split; [done|]. split; [done|]. split; [done|].
  assert (stock_actual = stock_inicial) as ->.
  { rewrite (calcular_stock_medicamento_valor _ w3 w) in Hs7 by done. congruence. }
  split; [|split]; apply foldl_ws_cell_keeps.
  - rewrite !lookup_insert_ne by lia.
    rewrite (celdas_dias_keeps _ _ _ _ _ _ _ 4 Hc) by lia. apply lookup_insert_eq.
  - rewrite lookup_insert_ne by lia. apply lookup_insert_eq.
  - apply lookup_insert_eq.
Qed.

(** A loop over documents whose steps leave [db] as it is relates every
    document to its result. *)
Lemma mapM_db {A B : Type} (f : A -> M B) (Q : A -> B -> Prop) (d : option firestore)
    (l : list A) :
  (forall (x : A) (w w' : world) (y : B),
      db w = d -> f x w = (Ok y, w') -> db w' = d /\ Q x y) ->
  forall (w w' : world) (ys : list B),
    db w = d -> mapM f l w = (Ok ys, w') -> db w' = d /\ Forall2 Q l ys.
Proof.
  intros Hf. induction l as [|x l IH]; intros w w' ys Hd; cbn [mapM].
  - intros [-> ->]%ret_Ok. by split.
  - intros (y & w1 & Hy & (ys' & w2 & Hys & [-> ->]%ret_Ok)%bindM_Ok)%bindM_Ok.
    destruct (Hf _ _ _ _ Hd Hy) as [Hd1 HQ].
    destruct (IH _ _ _ Hd1 Hys) as [Hd2 HQs]. split; [done|]. by constructor.
Qed.

Lemma crear_reporte_excel_filas (fecha_inicio fecha_fin : Z) (w w' : world)
    (wb : workbook) :
  0 <= fecha_fin - fecha_inicio + 1 ->
  crear_reporte_excel fecha_inicio fecha_fin w = (Ok (Some wb), w') ->
  db w' = db w
  /\ exists fs : firestore,
       db w = Some fs /\ reachable fs = true
       /\ col_demanda wb = 5 + 3 * (fecha_fin - fecha_inicio + 1)
       /\ col_stock wb = col_demanda wb + 1
       /\ Forall2 (fila_de fs fecha_inicio fecha_fin (col_demanda wb) (col_stock wb))
                  (order_by "orden" (medicamentos fs)) (filas wb).
Proof.
  intros Hdias. unfold crear_reporte_excel. intros H.
  apply bindM_Ok in H as (d & w0 & Hd & H).
  unfold read_db in Hd. injection Hd as <- <-.
  destruct (db w) as [fs0|] eqn:Hdb; [|by apply ret_Ok in H as [[=] _]].
  unfold try_except in H.
  match type of H with
  | match ?body w with _ => _ end = _ => destruct (body w) as [[owb|e] w3] eqn:Hbody
  end.
  2: { unfold bindM, print, ret in H. discriminate. }
  injection H as -> ->.
  apply bindM_Ok in Hbody as (col & w1 & [Hcol ->]%lift_Ok & Hbody).
  apply bindM_Ok in Hbody as ([] & w1' & [_ ->]%lift_Ok & Hbody).
  apply bindM_Ok in Hbody as ([] & w1'' & [_ ->]%lift_Ok & Hbody).
  apply bindM_Ok in Hbody
    as (meds & w2 & [-> (fs & Hfs & Hr & ->)]%stream_medicamentos_Ok & Hbody).
  apply bindM_Ok in Hbody as (rows & w4 & Hrows & Hbody).
  apply ret_Ok in Hbody as [[= ->] ->].
  apply columnas_dias_Ok in Hcol. rewrite length_seqZ, Z2Nat.id in Hcol by done.
  cbn [col_demanda col_stock filas]. subst col.
  rewrite Hdb in Hfs. injection Hfs as ->.
  eapply (mapM_db _ (fila_de fs fecha_inicio fecha_fin _ _) (Some fs)) in Hrows
    as [Hdb' Hfilas]; [|clear Hrows|done].
  - split; [done|]. by exists fs.
  - intros med wa wb' fila Hwa Hfila.
    apply fila_medicamento_stock in Hfila
      as (Hdbw & fs' & stock & Hfs' & _ & Hs & H4 & Hcd & Hcs); [|lia..].
    split; [congruence|]. rewrite Hwa in Hfs'. injection Hfs' as <-.
    exists stock.
    rewrite (calcular_stock_medicamento_valor _ _ wa) by done. done.
Qed.

(** X16.  In every workbook that [crear_reporte_excel] builds there is one
    row per medication of the ordered query, in that order, and every row
    holds, for its medication: in the cell of the stock at the start
    (column 4) and in the cell of the current stock (the last column) the
    same number, the stock that the ledger derives from the movements now
    stored; and in the column before the last the demand of the period,
    [demanda_de]: the sum of the quantities of the [SALIDA] movements of
    the medication whose date is a text between the first and the last day
    of the period, both included.  The stock at the start of the period is
    not reconstructed. *)
Theorem crear_reporte_excel_existencias
    (fecha_inicio fecha_fin : Z) (w w' : world) (wb : workbook) :
  fecha_inicio <= fecha_fin + 1 ->
  crear_reporte_excel fecha_inicio fecha_fin w = (Ok (Some wb), w') ->
  exists fs : firestore,
    db w = Some fs /\ db w' = Some fs
    /\ Forall2 (fila_de fs fecha_inicio fecha_fin (col_demanda wb) (col_stock wb))
               (order_by "orden" (medicamentos fs)) (filas wb)
    /\ Forall (fun fila : gmap Z value =>
                 is_Some (fila !! 4) /\ fila !! 4 = fila !! col_stock wb)
              (filas wb).
Proof.
  intros Hdias H.
  apply crear_reporte_excel_filas in H as (Hdb & fs & Hfs & _ & _ & _ & Hfilas); [|lia].
  exists fs. split; [done|]. split; [congruence|]. split; [done|].
  clear -Hfilas.
  induction Hfilas as [|med fila meds filas (stock & _ & H4 & _ & Hcs) _ IH];
    constructor; [|done].
  rewrite H4, Hcs. split; [by eexists|done].
Qed.

Lemma crear_reporte_excel_existencias_witness :
  exists wb : workbook,
    crear_reporte_excel 738886 738892 Ejemplo.w = (Ok (Some wb), Ejemplo.w)
    /\ (fun fila : gmap Z value => fila !! 4) <$> filas wb
       = [Some (VInt 5); Some (VInt (-3))]
    /\ (fun fila : gmap Z value => fila !! col_demanda wb) <$> filas wb
       = [Some (VInt 3); Some (VInt 3)]
    /\ (fun fila : gmap Z value => fila !! col_stock wb) <$> filas wb
       = [Some (VInt 5); Some (VInt (-3))].
Proof.
  assert (1 <= 738886) as H1 by lia.
  assert (738892 <= Fecha.MAXORDINAL) as H2 by (unfold Fecha.MAXORDINAL; lia).
  assert (738892 - 738886 < 6090) as H3 by lia.
  assert (738886 <= 738892 + 1) as H4 by lia.
  destruct (crear_reporte_excel_entrega Ejemplo.fs [] 738886 738892
              eq_refl eq_refl eq_refl eq_refl H1 H2 H3) as (wb & Hwb & _).
  exists wb. split; [exact Hwb|].
  destruct (crear_reporte_excel_existencias _ _ _ _ _ H4 Hwb) as (fs & Hfs & _ & Hfilas & _).
  injection Hfs as <-.
  assert (order_by "orden" (medicamentos Ejemplo.fs)
          = [("m1", Ejemplo.medicamento "Atropina" 10 1);
             ("m2", Ejemplo.medicamento "Morfina" 10 2)]) as Horden
    by (vm_compute; reflexivity).
  rewrite Horden in Hfilas. clear Horden Hwb.
  apply Forall2_cons_inv_l in Hfilas as (f1 & filas1 & Hf1 & Hfilas & ->).
  apply Forall2_cons_inv_l in Hfilas as (f2 & filas2 & Hf2 & ->%Forall2_nil_inv_l & ->).
  destruct Hf1 as (s1 & Hs1 & Ha1 & Hb1 & Hc1). destruct Hf2 as (s2 & Hs2 & Ha2 & Hb2 & Hc2).
  assert (fst (calcular_stock_medicamento (VStr "m1") Ejemplo.w) = Ok 5) as E1
    by (vm_compute; reflexivity).
  assert (fst (calcular_stock_medicamento (VStr "m2") Ejemplo.w) = Ok (-3)) as E2
    by (vm_compute; reflexivity).
  assert (demanda_de Ejemplo.fs 738886 738892 "m1" = 3) as D1 by (vm_compute; reflexivity).
  assert (demanda_de Ejemplo.fs 738886 738892 "m2" = 3) as D2 by (vm_compute; reflexivity).
  change {| db := Some Ejemplo.fs; consola := [] |} with Ejemplo.w in Hs1, Hs2.
  cbn [fst] in Hs1, Hs2. rewrite E1 in Hs1. rewrite E2 in Hs2.
  injection Hs1 as <-. injection Hs2 as <-.
  cbn [fst] in Hb1, Hb2. rewrite D1 in Hb1. rewrite D2 in Hb2.
  rewrite !fmap_cons, !fmap_nil, Ha1, Ha2, Hb1, Hb2, Hc1, Hc2.
  split; [|split]; reflexivity.
Defined.

Lemma generar_reporte_quincenal_excel_Ok (fecha_inicio : Z) (w w' : world)
    (wb : workbook) (code : Z) :
  generar_reporte_quincenal_excel (Some fecha_inicio) w = ((JArchivo wb, code), w') ->
  code = 200
  /\ crear_reporte_excel fecha_inicio (fecha_inicio + 14) w = (Ok (Some wb), w').
Proof.
  unfold generar_reporte_quincenal_excel, route. intros H.
  match type of H with
  | (let (_, _) := ?body w in _) = _ => destruct (body w) as [[r|e] w1] eqn:Hbody
  end; [|discriminate].
  injection H as -> ->.
  apply bindM_Ok in Hbody as (fecha_fin & w2 & [->%add_days_Ok ->]%lift_Ok & Hbody).
  apply bindM_Ok in Hbody as ([wb0|] & w3 & Hwb & Hbody);
    [|by apply ret_Ok in Hbody as [[=] _]].
  apply bindM_Ok in Hbody as ([] & w4 & [_ ->]%lift_Ok & [[= <- ->] <-]%ret_Ok).
  by split.
Qed.

(** X17.  The fortnightly workbook covers fifteen days, from the start
    date to the fourteenth day after it.  Whenever the route delivers a
    workbook the status is 200, the total is in column [5 + 15·3 = 50]
    and the stock in column 51, there is one row per medication of the
    ordered query, and every row has a cell in each of the columns 1 to
    51 and in no other, 45 of them for the days and shifts.  The route
    does deliver when the backend answers, the stored dates are texts
    and the stored quantities numbers, the sheet can hold what it is
    given (no time stamp in the dates of the movements, no control
    character in a name or a date), and the period lies in the
    calendar. *)
Theorem generar_reporte_quincenal_excel_celdas (w : world) (fecha_inicio : Z) :
  (forall (wb : workbook) (code : Z) (w' : world),
      generar_reporte_quincenal_excel (Some fecha_inicio) w = ((JArchivo wb, code), w') ->
      code = 200
      /\ col_demanda wb = 5 + 15 * 3
      /\ col_stock wb = col_demanda wb + 1
      /\ (forall fs : firestore, db w = Some fs ->
          length (filas wb) = length (order_by "orden" (medicamentos fs)))
      /\ Forall (fun fila : gmap Z value =>
                   (forall c : Z, is_Some (fila !! c) <-> 1 <= c <= col_stock wb)
                   /\ size (filter (fun c => 5 <= c < col_demanda wb) (dom fila)) = 45%nat)
                (filas wb))
  /\ (forall fs : firestore,
        db w = Some fs ->
        reachable fs = true ->
        forallb (fun p => movimiento_legible (snd p)) (movimientos fs) = true ->
        forallb (fun p => movimiento_escribible (snd p)) (movimientos fs) = true ->
        forallb (fun p => medicamento_escribible (snd p)) (medicamentos fs) = true ->
        1 <= fecha_inicio -> fecha_inicio + 14 <= Fecha.MAXORDINAL ->
        exists wb : workbook,
          generar_reporte_quincenal_excel (Some fecha_inicio) w = ((JArchivo wb, 200), w)).
Proof.
  split.
  - intros wb code w' H.
    apply generar_reporte_quincenal_excel_Ok in H as [-> Hwb].
    split; [done|].
    apply crear_reporte_excel_Ok in Hwb as (fs & w1 & w2 & Hdb & Hcd & Hcs & Hrows).
    replace (fecha_inicio + 14 - fecha_inicio + 1) with 15 in * by lia.
    change (Z.of_nat (length (seqZ 0 15))) with 15 in Hcd.
    rewrite Hcs, Hcd in *. clear Hcs Hcd.
    eapply (mapM_Ok _ (fun fila : gmap Z value =>
              (forall c : Z, is_Some (fila !! c) <-> 1 <= c <= 5 + 3 * 15 + 1)
              /\ exists demanda : Z, fila !! (5 + 3 * 15) = Some (VInt demanda)))
      in Hrows as [Hfilas Hlen].
    2:{ intros med wa wb' fila Hfila.
        by apply (fila_medicamento_celdas _ _ 15 _ _ _ _ ltac:(lia)) in Hfila. }
    split; [lia|]. split; [done|]. split.
    + intros fs' Hfs'. rewrite Hdb in Hfs'. by injection Hfs' as <-.
    + eapply Forall_impl; [exact Hfilas|]. intros fila [Hdom _].
      split; [done|].
      assert (dom fila = list_to_set (seqZ 1 51)) as ->.
      { apply set_eq. intros c.
        rewrite elem_of_dom, Hdom, elem_of_list_to_set, elem_of_seqZ. lia. }
      vm_compute. reflexivity.
  - intros fs Hdb Hr Hleg Hesc Hmeds H1 H2. destruct w as [d log]. cbn in Hdb. subst d.
    destruct (crear_reporte_excel_entrega fs log fecha_inicio (fecha_inicio + 14)
                Hr Hleg Hesc Hmeds H1 H2 ltac:(lia)) as (wb & Hwb & Hsave).
    exists wb. unfold generar_reporte_quincenal_excel, route.
    unfold bindM at 1, lift at 1, Fecha.add_days at 1.
    assert (((1 <=? fecha_inicio + 14) && (fecha_inicio + 14 <=? Fecha.MAXORDINAL)) = true)
      as -> by (apply andb_true_iff; rewrite !Z.leb_le; lia).
    unfold bindM at 1. rewrite Hwb. unfold bindM, lift, ret. by rewrite Hsave.
Qed.

Lemma generar_reporte_quincenal_excel_celdas_witness :
  exists wb : workbook,
    generar_reporte_quincenal_excel (Some 738886) Ejemplo.w
    = ((JArchivo wb, 200), Ejemplo.w)
    /\ col_demanda wb = 50
    /\ length (filas wb) = 2%nat.
Proof.
  assert (1 <= 738886) as H1 by lia.
  assert (738886 + 14 <= Fecha.MAXORDINAL) as H2 by (unfold Fecha.MAXORDINAL; lia).
  destruct (generar_reporte_quincenal_excel_celdas Ejemplo.w 738886) as [Hforma Hentrega].
  destruct (Hentrega Ejemplo.fs eq_refl eq_refl eq_refl eq_refl eq_refl H1 H2)
    as [wb Hwb].
  exists wb. split; [exact Hwb|].
  destruct (Hforma _ _ _ Hwb) as (_ & Hcol & _ & Hlen & _).
  split; [exact Hcol|]. rewrite (Hlen _ eq_refl). reflexivity.
Defined.

(** *** The PDF tables *)

Lemma dias_pdf_Ok (salidas : list (gmap string value)) (fecha_inicio : Z)
    (l : list Z) (row row' : list value) (total total' : Z) :
  foldM (dia_pdf salidas fecha_inicio) (row, total) l = Ok (row', total') ->
  exists dias : list Z,
    Forall2 (fun i demanda =>
               demanda_dia salidas (Fecha.isoformat (fecha_inicio + i)) = Ok demanda)
            l dias
    /\ row' = row ++ (VInt <$> dias)
    /\ total' = total + sumZ dias.
Proof.
  revert row total. induction l as [|i l IH]; intros row total; cbn [foldM].
  - intros [= <- <-]. exists []. cbn. split; [done|]. split; [by rewrite app_nil_r|lia].
  - intros ([row1 total1] & Hdia & Hresto)%bindR_Ok.
    unfold dia_pdf in Hdia.
    apply bindR_Ok in Hdia as (fecha_dia & ->%add_days_Ok & Hdia).
    apply bindR_Ok in Hdia as (demanda & Hdem & [= <- <-]). cbn [fst snd] in Hresto.
    apply IH in Hresto as (dias & Hdias & -> & ->).
    exists (demanda :: dias). split; [by constructor|].
    rewrite fmap_cons, sumZ_cons, <- app_assoc. split; [done|lia].
Qed.

Lemma fila_pdf_semanal_Ok (fecha_inicio : Z) (med_doc : string * gmap string value)
    (fs : firestore) (w w' : world) (row : list value) :
  db w = Some fs ->
  fila_pdf_semanal fecha_inicio med_doc w = (Ok row, w') ->
  db w' = Some fs /\ fila_pdf_semanal_de fs fecha_inicio med_doc row.
Proof.
  intros Hfs H. unfold fila_pdf_semanal, movimientos_salida_de in H. cbv zeta in H.
  apply bindM_Ok in H as (stock & w1 & [Hdb1 Hs]%calcular_stock_medicamento_Ok_db & H).
  apply bindM_Ok in H as (salidas & w2 & Hsal & H).
  apply bindM_Ok in Hsal
    as (movs & w3 & [-> (fs' & Hfs' & _ & ->)]%stream_movimientos_Ok & [-> ->]%ret_Ok).
  apply bindM_Ok in H as ([row1 total] & w4 & [Hdias ->]%lift_Ok & H).
  apply ret_Ok in H as [-> ->]. cbn [fst snd].
  split; [congruence|]. rewrite Hdb1, Hfs in Hfs'. injection Hfs' as <-.
  apply dias_pdf_Ok in Hdias as (dias & Hdias & -> & ->).
  exists stock, dias. split; [|split; [|split; [done|]]].
  - by rewrite (calcular_stock_medicamento_valor _ _ w) by by rewrite Hfs.
  - apply Forall2_length in Hdias. by rewrite <- Hdias.
  - rewrite Z.add_0_l, <- !app_assoc. reflexivity.
Qed.

Lemma fila_pdf_quincenal_Ok (fecha_inicio fecha_fin : Z)
    (med_doc : string * gmap string value) (fs : firestore) (w w' : world)
    (row : list value) :
  db w = Some fs ->
  fila_pdf_quincenal fecha_inicio fecha_fin med_doc w = (Ok row, w') ->
  db w' = Some fs /\ fila_pdf_quincenal_de fs fecha_inicio fecha_fin med_doc row.
Proof.
  intros Hfs H. unfold fila_pdf_quincenal in H. cbv zeta in H.
  apply bindM_Ok in H as (stock & w1 & [Hdb1 Hs]%calcular_stock_medicamento_Ok_db & H).
  apply bindM_Ok in H
    as (movs & w2 & [-> (fs' & Hfs' & _ & ->)]%stream_movimientos_Ok & H).
  apply bindM_Ok in H as (demanda & w3 & [Hdem ->]%lift_Ok & H).
  apply ret_Ok in H as [-> ->].
  split; [congruence|]. rewrite Hdb1, Hfs in Hfs'. injection Hfs' as <-.
  exists stock. rewrite sumar_salidas_entre_eq in Hdem.
  apply demanda_periodo_demanda_de in Hdem as ->.
  split; [|done].
  by rewrite (calcular_stock_medicamento_valor _ _ w) by by rewrite Hfs.
Qed.

Lemma generar_reporte_semanal_pdf_Ok (fecha_inicio : Z) (w w' : world)
    (data : list (list value)) :
  generar_reporte_semanal_pdf (Some fecha_inicio) w = (inl data, w') ->
  exists fs : firestore,
    db w = Some fs /\ db w' = Some fs /\ reachable fs = true
    /\ Forall2 (fila_pdf_semanal_de fs fecha_inicio)
               (limit 20 (order_by "orden" (medicamentos fs))) data.
Proof.
  unfold generar_reporte_semanal_pdf, route_de. intros H.
  match type of H with
  | (let (_, _) := ?body w in _) = _ => destruct (body w) as [[r|e] w1] eqn:Hbody
  end; [|discriminate].
  injection H as -> ->.
  apply bindM_Ok in Hbody as (fecha_fin & w2 & [_ ->]%lift_Ok & Hbody).
  apply bindM_Ok in Hbody
    as (meds & w3 & [-> (fs & Hfs & Hr & ->)]%stream_medicamentos_Ok & Hbody).
  apply bindM_Ok in Hbody as (rows & w4 & Hrows & Hbody).
  apply ret_Ok in Hbody as [[= ->] ->].
  eapply (mapM_db _ (fila_pdf_semanal_de fs fecha_inicio) (Some fs)) in Hrows
    as [Hdb' Hfilas]; [|clear Hrows|done].
  - by exists fs.
  - intros med wa wb row Hwa Hrow. by apply (fila_pdf_semanal_Ok _ _ _ wa wb).
Qed.

(** X18.  The rows of the weekly PDF.  Whenever the route delivers a
    table it has one row for each of the first twenty medications of the
    ordered query and no more, and every row has eleven cells: the name,
    the stock that the ledger derives from the movements now stored, the
    demand of each of the seven days, the sum of the seven, and the stock
    less that sum.  The database is not changed. *)
Theorem generar_reporte_semanal_pdf_filas (fecha_inicio : Z) (w w' : world)
    (data : list (list value)) :
  generar_reporte_semanal_pdf (Some fecha_inicio) w = (inl data, w') ->
  exists fs : firestore,
    db w = Some fs /\ db w' = Some fs
    /\ length data = (length (order_by "orden" (medicamentos fs)) `min` 20)%nat
    /\ Forall2 (fila_pdf_semanal_de fs fecha_inicio)
               (take 20 (order_by "orden" (medicamentos fs))) data
    /\ Forall (fun row : list value =>
                 length row = 11%nat
                 /\ exists (stock total : Z) (dias : list Z),
                      row !! 1%nat = Some (VInt stock)
                      /\ take 7 (drop 2 row) = VInt <$> dias
                      /\ total = sumZ dias
                      /\ row !! 9%nat = Some (VInt total)
                      /\ row !! 10%nat = Some (VInt (stock - total)))
              data.
Proof.
  intros H. apply generar_reporte_semanal_pdf_Ok in H as (fs & Hfs & Hfs' & _ & Hfilas).
  exists fs. split; [done|]. split; [done|]. unfold limit in Hfilas.
  split; [|split; [done|]].
  - apply Forall2_length in Hfilas. rewrite <- Hfilas, length_take. lia.
  - clear -Hfilas.
    induction Hfilas as [|med row meds rows (stock & dias & _ & Hlen & _ & ->) _ IH];
      constructor; [|done].
    do 8 (destruct dias as [|? dias]; try done).
    cbn. split; [done|]. eexists stock, _, [_; _; _; _; _; _; _].
    repeat split; reflexivity.
Qed.

Lemma generar_reporte_semanal_pdf_filas_witness :
  exists fs : firestore,
    db Ejemplo.w = Some fs
    /\ Forall2 (fila_pdf_semanal_de fs 738886)
               (take 20 (order_by "orden" (medicamentos fs)))
               [[VStr "Atropina"; VInt 5; VInt 0; VInt 3; VInt 0; VInt 0; VInt 0; VInt 0;
                 VInt 0; VInt 3; VInt 2];
                [VStr "Morfina"; VInt (-3); VInt 0; VInt 0; VInt 3; VInt 0; VInt 0;
                 VInt 0; VInt 0; VInt 3; VInt (-6)]].
Proof.
  assert (H : generar_reporte_semanal_pdf (Some 738886) Ejemplo.w
              = (inl [[VStr "Atropina"; VInt 5; VInt 0; VInt 3; VInt 0; VInt 0; VInt 0;
                       VInt 0; VInt 0; VInt 3; VInt 2];
                      [VStr "Morfina"; VInt (-3); VInt 0; VInt 0; VInt 3; VInt 0; VInt 0;
                       VInt 0; VInt 0; VInt 3; VInt (-6)]], Ejemplo.w))
    by (vm_compute; reflexivity).
  destruct (generar_reporte_semanal_pdf_filas _ _ _ _ H) as (fs & Hfs & _ & _ & Hf & _).
  exists fs. split; [exact Hfs | exact Hf].
Defined.

Lemma generar_reporte_quincenal_pdf_Ok (fecha_inicio : Z) (w w' : world)
    (data : list (list value)) :
  generar_reporte_quincenal_pdf (Some fecha_inicio) w = (inl data, w') ->
  exists fs : firestore,
    db w = Some fs /\ db w' = Some fs /\ reachable fs = true
    /\ Forall2 (fila_pdf_quincenal_de fs fecha_inicio (fecha_inicio + 14))
               (order_by "orden" (medicamentos fs)) data.
Proof.
  unfold generar_reporte_quincenal_pdf, route_de. intros H.
  match type of H with
  | (let (_, _) := ?body w in _) = _ => destruct (body w) as [[r|e] w1] eqn:Hbody
  end; [|discriminate].
  injection H as -> ->.
  apply bindM_Ok in Hbody as (fecha_fin & w2 & [->%add_days_Ok ->]%lift_Ok & Hbody).
  apply bindM_Ok in Hbody
    as (meds & w3 & [-> (fs & Hfs & Hr & ->)]%stream_medicamentos_Ok & Hbody).
  apply bindM_Ok in Hbody as (rows & w4 & Hrows & Hbody).
  apply ret_Ok in Hbody as [[= ->] ->].
  eapply (mapM_db _ (fila_pdf_quincenal_de fs fecha_inicio (fecha_inicio + 14)) (Some fs))
    in Hrows as [Hdb' Hfilas]; [|clear Hrows|done].
  - by exists fs.
  - intros med wa wb row Hwa Hrow. by apply (fila_pdf_quincenal_Ok _ _ _ _ wa wb).
Qed.

Lemma Forall2_comun {A B C : Type} (P : A -> B -> Prop) (Q : A -> C -> Prop)
    (l : list A) (xs : list B) (ys : list C) :
  Forall2 P l xs -> Forall2 Q l ys ->
  Forall2 (fun x y => exists a : A, P a x /\ Q a y) xs ys.
Proof.
  intros HP. revert ys. induction HP as [|a x l xs Hax _ IH]; intros ys HQ.
  - apply Forall2_nil_inv_l in HQ as ->. constructor.
  - apply Forall2_cons_inv_l in HQ as (y & ys' & Hay & HQ & ->).
    constructor; [by exists a|by apply IH].
Qed.

(** X19.  The fortnightly PDF and the fortnightly workbook agree.  When
    both routes deliver for the same start date on the same state, they
    have the same number of rows and, row by row, the PDF shows the stock
    that the workbook has in column 4 and in its last column, and as its
    total demand the number that the workbook has in its total column;
    the last cell of the PDF row is that stock less that demand. *)
Theorem reporte_quincenal_pdf_excel (fecha_inicio : Z) (w w1 w2 : world)
    (data : list (list value)) (wb : workbook) (code : Z) :
  generar_reporte_quincenal_pdf (Some fecha_inicio) w = (inl data, w1) ->
  generar_reporte_quincenal_excel (Some fecha_inicio) w = ((JArchivo wb, code), w2) ->
  Forall2 (fun (row : list value) (fila : gmap Z value) =>
             exists (nombre : value) (stock demanda : Z),
               row = [nombre; VInt stock; VInt demanda; VInt (stock - demanda)]
               /\ fila !! 4 = Some (VInt stock)
               /\ fila !! 50 = Some (VInt demanda)
               /\ fila !! 51 = Some (VInt stock))
          data (filas wb).
Proof.
  intros Hpdf Hxls.
  apply generar_reporte_quincenal_pdf_Ok in Hpdf as (fs & Hfs & _ & _ & Hrows).
  apply generar_reporte_quincenal_excel_Ok in Hxls as [_ Hwb].
  apply crear_reporte_excel_filas in Hwb
    as (_ & fs' & Hfs' & _ & Hcd & Hcs & Hfilas); [|lia].
  rewrite Hfs in Hfs'. injection Hfs' as <-.
  replace (fecha_inicio + 14 - fecha_inicio + 1) with 15 in Hcd by lia.
  rewrite Hcs, Hcd in Hfilas.
  eapply Forall2_impl; [exact (Forall2_comun _ _ _ _ _ Hrows Hfilas)|].
  intros row fila (med & (stock & Hs & ->) & (stock' & Hs' & H4 & H50 & H51)).
  exists (Py.get (snd med) "nombre" (VStr "N/A")), stock,
    (demanda_de fs fecha_inicio (fecha_inicio + 14) (fst med)).
  assert (stock' = stock) as -> by congruence.
  done.
Qed.

Lemma reporte_quincenal_pdf_excel_witness :
  exists (data : list (list value)) (wb : workbook),
    generar_reporte_quincenal_pdf (Some 738886) Ejemplo.w = (inl data, Ejemplo.w)
    /\ Forall2 (fun (row : list value) (fila : gmap Z value) =>
                  exists (nombre : value) (stock demanda : Z),
                    row = [nombre; VInt stock; VInt demanda; VInt (stock - demanda)]
                    /\ fila !! 4 = Some (VInt stock)
                    /\ fila !! 50 = Some (VInt demanda)
                    /\ fila !! 51 = Some (VInt stock))
               data (filas wb).
Proof.
  assert (1 <= 738886) as H1 by lia.
  assert (738886 + 14 <= Fecha.MAXORDINAL) as H2 by (unfold Fecha.MAXORDINAL; lia).
  assert (738886 + 14 - 738886 < 6090) as H3 by lia.
  destruct (crear_reporte_excel_entrega Ejemplo.fs [] 738886 (738886 + 14)
              eq_refl eq_refl eq_refl eq_refl H1 H2 H3) as (wb & Hwb & Hsave).
  assert (Hxls : generar_reporte_quincenal_excel (Some 738886) Ejemplo.w
                 = ((JArchivo wb, 200), Ejemplo.w)).
  { unfold generar_reporte_quincenal_excel, route.
    unfold bindM at 1, lift at 1, Fecha.add_days at 1.
    change ((1 <=? 738886 + 14) && (738886 + 14 <=? Fecha.MAXORDINAL)) with true.
    unfold bindM at 1. unfold Ejemplo.w. rewrite Hwb.
    unfold bindM, lift, ret. by rewrite Hsave. }
  assert (Hpdf : generar_reporte_quincenal_pdf (Some 738886) Ejemplo.w
                 = (inl [[VStr "Atropina"; VInt 5; VInt 5; VInt 0];
                         [VStr "Morfina"; VInt (-3); VInt 3; VInt (-6)]], Ejemplo.w))
    by (vm_compute; reflexivity).
  eexists _, wb. split; [exact Hpdf|].
  exact (reporte_quincenal_pdf_excel _ _ _ _ _ _ _ Hpdf Hxls).
Defined.

(** X20.  The report routes on a process without Firebase.  The PDF routes
    do not look at [db] before they use it, so that they end in the
    handler of the route (500, [AttributeError]), while the workbook
    routes answer 500 with "Error creando reporte" because the helper
    returns no workbook.  A missing start date is refused with 400 by all
    four before anything else.  The state is not changed. *)
Theorem reportes_sin_db (log : list log_entry) (fecha_inicio : Z) :
  1 <= fecha_inicio -> fecha_inicio + 14 <= Fecha.MAXORDINAL ->
  let w := {| db := None; consola := log |} in
  (generar_reporte_semanal_pdf (Some fecha_inicio) w
   = (inr (JExcepcion AttributeError, 500), w)
   /\ generar_reporte_quincenal_pdf (Some fecha_inicio) w
      = (inr (JExcepcion AttributeError, 500), w)
   /\ generar_reporte_semanal_excel (Some fecha_inicio) w
      = ((JError "Error creando reporte", 500), w)
   /\ generar_reporte_quincenal_excel (Some fecha_inicio) w
      = ((JError "Error creando reporte", 500), w))
  /\ (generar_reporte_semanal_pdf None w
      = (inr (JError "Fecha de inicio requerida", 400), w)
      /\ generar_reporte_quincenal_pdf None w
         = (inr (JError "Fecha de inicio requerida", 400), w)
      /\ generar_reporte_semanal_excel None w
         = ((JError "Fecha de inicio requerida", 400), w)
      /\ generar_reporte_quincenal_excel None w
         = ((JError "Fecha de inicio requerida", 400), w)).
Proof.
  intros H1 H2 w. split; [|done].
  assert (H6 : Fecha.add_days fecha_inicio 6 = Ok (fecha_inicio + 6)).
  { unfold Fecha.add_days.
    by rewrite (proj2 (andb_true_iff _ _))
      by (rewrite !Z.leb_le; unfold Fecha.MAXORDINAL in *; lia). }
  assert (H14 : Fecha.add_days fecha_inicio 14 = Ok (fecha_inicio + 14)).
  { unfold Fecha.add_days.
    by rewrite (proj2 (andb_true_iff _ _)) by (rewrite !Z.leb_le; lia). }
  unfold generar_reporte_semanal_pdf, generar_reporte_quincenal_pdf,
    generar_reporte_semanal_excel, generar_reporte_quincenal_excel, route, route_de,
    crear_reporte_excel, Firestore.stream_medicamentos, Firestore.client,
    bindM, lift, read_db, ret.
  by rewrite H6, H14.
Qed.

Lemma reportes_sin_db_witness :
  generar_reporte_semanal_pdf (Some 738886) Ejemplo.w_sin_db
  = (inr (JExcepcion AttributeError, 500), Ejemplo.w_sin_db)
  /\ generar_reporte_semanal_excel (Some 738886) Ejemplo.w_sin_db
     = ((JError "Error creando reporte", 500), Ejemplo.w_sin_db).
Proof.
  assert (1 <= 738886) as H1 by lia.
  assert (738886 + 14 <= Fecha.MAXORDINAL) as H2 by (unfold Fecha.MAXORDINAL; lia).
  destruct (reportes_sin_db [] 738886 H1 H2) as [(Ha & _ & Hb & _) _].
  by split.
Defined.

(** ** Inventory and statistics *)

Lemma estado_de_as_int (stock : Z) (v : value) (sm : Z) :
  Py.as_int v = Some sm -> estado_de stock v = get_inventario_estado stock sm.
Proof.
  intros Hv. unfold estado_de, get_inventario_estado, int_le, mul_1_5. rewrite Hv.
  cbn [bindR]. destruct (stock <=? 0); [done|]. destruct (stock <=? sm); [done|].
  by destruct (Doble.de_entero sm).
Qed.

Lemma estado_de_agotado (stock : Z) (v : value) (e : estado) :
  estado_de stock v = Ok e -> (e = AGOTADO <-> stock <= 0).
Proof.
  unfold estado_de. destruct (Z.leb_spec stock 0).
  - intros [= <-]. by split.
  - unfold int_le, mul_1_5. destruct (Py.as_int v) as [sm|]; cbn [bindR]; [|done].
    destruct (stock <=? sm); [intros [= <-]; split; [done|lia]|].
    destruct (Doble.de_entero sm) as [x|]; cbn [bindR]; [|done].
    destruct (Doble.entero_le _ _); intros [= <-]; split; (done || lia).
Qed.

Lemma entrada_inventario_de_Ok (hoy : Z) (med_doc : string * gmap string value)
    (fs : firestore) (w w' : world) (e : entrada_inventario) :
  db w = Some fs ->
  entrada_inventario_de hoy med_doc w = (Ok e, w') ->
  db w' = Some fs /\ entrada_de_medicamento fs med_doc e.
Proof.
  intros Hfs H. unfold entrada_inventario_de in H. cbv zeta in H.
  apply bindM_Ok in H as (stock & w1 & [Hdb1 Hs]%calcular_stock_medicamento_Ok_db & H).
  apply bindM_Ok in H as (est & w2 & [Hest ->]%lift_Ok & H).
  apply bindM_Ok in H as (movs & w3 & [-> _]%stream_movimientos_Ok & H).
  apply bindM_Ok in H as (ultimo & w4 & [_ ->]%lift_Ok & H).
  apply bindM_Ok in H as (ultimo_dia & w5 & [_ ->]%lift_Ok & H).
  apply bindM_Ok in H as (movs2 & w6 & [-> _]%stream_movimientos_Ok & H).
  apply bindM_Ok in H as (egresos & w7 & [_ ->]%lift_Ok & H).
  apply ret_Ok in H as [-> ->].
  split; [congruence|]. unfold entrada_de_medicamento.
  cbn [inv_id inv_nombre inv_stock_minimo inv_stock_actual inv_estado].
  repeat (split; [done|]). split; [|done].
  by rewrite (calcular_stock_medicamento_valor _ _ w) by by rewrite Hfs.
Qed.

Lemma get_inventario_Ok (hoy : Z) (w w' : world) (inventario : list entrada_inventario) :
  get_inventario hoy w = (inl inventario, w') ->
  exists fs : firestore,
    db w = Some fs /\ db w' = Some fs /\ reachable fs = true
    /\ Forall2 (entrada_de_medicamento fs) (order_by "orden" (medicamentos fs)) inventario.
Proof.
  unfold get_inventario, route_de. intros H.
  match type of H with
  | (let (_, _) := ?body w in _) = _ => destruct (body w) as [[r|e] w1] eqn:Hbody
  end; [|discriminate].
  injection H as -> ->.
  apply bindM_Ok in Hbody as (d & w0 & Hd & Hbody).
  unfold read_db in Hd. injection Hd as <- <-.
  destruct (db w) as [fs0|] eqn:Hdb; [|by apply ret_Ok in Hbody as [[=] _]].
  apply bindM_Ok in Hbody
    as (meds & w3 & [-> (fs & Hfs & Hr & ->)]%stream_medicamentos_Ok & Hbody).
  apply bindM_Ok in Hbody as (rows & w4 & Hrows & Hbody).
  apply ret_Ok in Hbody as [[= ->] ->].
  rewrite Hdb in Hfs. injection Hfs as ->.
  eapply (mapM_db _ (entrada_de_medicamento fs) (Some fs)) in Hrows
    as [Hdb' Hfilas]; [|clear Hrows|done].
  - by exists fs.
  - intros med wa wb row Hwa Hrow. by apply (entrada_inventario_de_Ok hoy _ _ wa wb).
Qed.

(** X21.  The entries of the inventory.  Whenever [get_inventario]
    delivers, it has one entry per medication of the ordered query, in
    that order, with the identifier, the name and the minimum stock of
    the medication (10 when none is stored) and the stock that the ledger
    derives.  An entry is [AGOTADO] exactly when that stock is zero or
    negative, whatever the stored minimum is; with a numeric minimum the
    state is the one that [get_inventario_estado] gives, the product by
    1.5 being the one of binary64; and a medication in stock has a
    numeric minimum, the route failing otherwise. *)
Theorem get_inventario_estados (hoy : Z) (w w' : world)
    (inventario : list entrada_inventario) :
  get_inventario hoy w = (inl inventario, w') ->
  exists fs : firestore,
    db w = Some fs /\ db w' = Some fs
    /\ Forall2 (entrada_de_medicamento fs) (order_by "orden" (medicamentos fs)) inventario
    /\ Forall (fun e : entrada_inventario =>
                 (inv_estado e = AGOTADO <-> inv_stock_actual e <= 0)
                 /\ (forall sm : Z, Py.as_int (inv_stock_minimo e) = Some sm ->
                       get_inventario_estado (inv_stock_actual e) sm = Ok (inv_estado e))
                 /\ (0 < inv_stock_actual e -> is_Some (Py.as_int (inv_stock_minimo e))))
              inventario.
Proof.
  intros H. apply get_inventario_Ok in H as (fs & Hfs & Hfs' & _ & Hinv).
  exists fs. split; [done|]. split; [done|]. split; [done|].
  clear -Hinv.
  induction Hinv as [|med e meds inv (_ & _ & _ & _ & Hest) _ IH]; constructor; [|done].
  split; [by apply (estado_de_agotado _ _ _ Hest)|]. split.
  - intros sm Hsm. by rewrite (estado_de_as_int _ _ _ Hsm) in Hest.
  - intros Hpos. unfold estado_de, int_le in Hest.
    destruct (Z.leb_spec (inv_stock_actual e) 0); [lia|].
    by destruct (Py.as_int (inv_stock_minimo e)).
Qed.

Lemma get_inventario_estados_witness :
  exists fs : firestore,
    db Ejemplo.w = Some fs
    /\ Forall2 (entrada_de_medicamento fs) (order_by "orden" (medicamentos fs))
         [{| inv_id := "m1"; inv_nombre := VStr "Atropina"; inv_stock_actual := 5;
             inv_stock_minimo := VInt 10; inv_estado := CRITICO;
             inv_ultimo_ingreso := Some (VStr "2024-01-01", VNone);
             inv_egresos_mes := 5 |};
          {| inv_id := "m2"; inv_nombre := VStr "Morfina"; inv_stock_actual := -3;
             inv_stock_minimo := VInt 10; inv_estado := AGOTADO;
             inv_ultimo_ingreso := None;
             inv_egresos_mes := 3 |}].
Proof.
  assert (H : get_inventario Ejemplo.hoy Ejemplo.w
              = (inl [{| inv_id := "m1"; inv_nombre := VStr "Atropina";
                         inv_stock_actual := 5; inv_stock_minimo := VInt 10;
                         inv_estado := CRITICO;
                         inv_ultimo_ingreso := Some (VStr "2024-01-01", VNone);
                         inv_egresos_mes := 5 |};
                      {| inv_id := "m2"; inv_nombre := VStr "Morfina";
                         inv_stock_actual := -3; inv_stock_minimo := VInt 10;
                         inv_estado := AGOTADO;
                         inv_ultimo_ingreso := None;
                         inv_egresos_mes := 3 |}], Ejemplo.w))
    by (vm_compute; reflexivity).
  destruct (get_inventario_estados _ _ _ _ H) as (fs & Hfs & _ & Hf & _).
  exists fs. split; [exact Hfs | exact Hf].
Defined.

Lemma alertas_Ok (fs : firestore) (meds : list (string * gmap string value))
    (alertas alertas' : Z) (w w' : world) :
  db w = Some fs ->
  foldM_M alerta_paso alertas meds w = (Ok alertas', w') ->
  db w' = Some fs
  /\ alertas' = alertas + Z.of_nat (length (List.filter (en_alerta fs) meds)).
Proof.
  revert alertas w. induction meds as [|med meds IH]; intros alertas w Hfs; cbn [foldM_M].
  - intros [-> ->]%ret_Ok. cbn. split; [done|lia].
  - intros (a1 & w1 & Hpaso & Hresto)%bindM_Ok. unfold alerta_paso in Hpaso.
    apply bindM_Ok in Hpaso
      as (stock & w2 & [Hdb2 Hs]%calcular_stock_medicamento_Ok_db & Hpaso).
    apply bindM_Ok in Hpaso as (bajo & w3 & [Hbajo ->]%lift_Ok & [-> ->]%ret_Ok).
    apply IH in Hresto as [Hdb' ->]; [|congruence]. split; [done|].
    cbn [List.filter]. unfold en_alerta at 2.
    rewrite <- (calcular_stock_medicamento_valor _ w) by by rewrite Hfs.
    rewrite Hs. unfold int_le in Hbajo.
    destruct (Py.as_int _) as [sm|]; [|done]. injection Hbajo as <-.
    destruct (stock <=? sm); cbn [length]; lia.
Qed.

Lemma get_estadisticas_Ok (hoy : Z) (w w' : world) (e : estadisticas) :
  get_estadisticas hoy w = (inl e, w') ->
  exists fs : firestore,
    db w = Some fs /\ db w' = Some fs /\ reachable fs = true
    /\ total_medicamentos e = Z.of_nat (length (medicamentos fs))
    /\ alertas_stock_bajo e
       = Z.of_nat (length (List.filter (en_alerta fs) (medicamentos fs)))
    /\ movimientos_hoy e
       = Z.of_nat (length (Firestore.where_eq "fecha" (VStr (Fecha.isoformat hoy))
                             (movimientos fs))).
Proof.
  unfold get_estadisticas, route_de. intros H.
  match type of H with
  | (let (_, _) := ?body w in _) = _ => destruct (body w) as [[r|ex] w1] eqn:Hbody
  end; [|discriminate].
  injection H as -> ->.
  apply bindM_Ok in Hbody as (d & w0 & Hd & Hbody).
  unfold read_db in Hd. injection Hd as <- <-.
  destruct (db w) as [fs0|] eqn:Hdb; [|by apply ret_Ok in Hbody as [[=] _]].
  apply bindM_Ok in Hbody
    as (meds & w3 & [-> (fs & Hfs & Hr & ->)]%stream_medicamentos_Ok & Hbody).
  apply bindM_Ok in Hbody
    as (meds2 & w4 & [-> (fs2 & Hfs2 & _ & ->)]%stream_medicamentos_Ok & Hbody).
  rewrite Hdb in Hfs, Hfs2. injection Hfs as <-. injection Hfs2 as <-.
  apply bindM_Ok in Hbody as (alertas & w5 & Halertas & Hbody).
  apply (alertas_Ok fs0) in Halertas as [Hdb5 ->]; [|done].
  apply bindM_Ok in Hbody
    as (movs & w6 & [-> (fs3 & Hfs3 & _ & ->)]%stream_movimientos_Ok & Hbody).
  rewrite Hdb5 in Hfs3. injection Hfs3 as <-.
  apply ret_Ok in Hbody as [[= ->] ->].
  cbn [total_medicamentos alertas_stock_bajo movimientos_hoy].
  exists fs0. rewrite Z.add_0_l. by repeat (split; [done|]).
Qed.

Lemma length_filter_le {A : Type} (f : A -> bool) (l : list A) :
  (length (List.filter f l) <= length l)%nat.
Proof.
  induction l as [|x l IH]; cbn [List.filter length]; [done|].
  destruct (f x); cbn [length]; lia.
Qed.

Lemma Forall2_filter_length {A B : Type} (f : A -> bool) (g : B -> bool)
    (l : list A) (l' : list B) :
  Forall2 (fun a b => f a = g b) l l' ->
  length (List.filter f l) = length (List.filter g l').
Proof.
  induction 1 as [|a b l l' Hab _ IH]; cbn [List.filter]; [done|].
  rewrite <- Hab. destruct (f a); cbn [length]; by rewrite IH.
Qed.

Lemma filter_todos {A : Type} (f : A -> bool) (l : list A) :
  forallb f l = true -> List.filter f l = l.
Proof.
  induction l as [|x l IH]; cbn [forallb List.filter]; [done|].
  intros [-> Hl]%andb_true_iff. by rewrite IH.
Qed.

(** A medication whose minimum is a number that is not negative is an
    alert of the statistics exactly when the inventory lists it as
    [AGOTADO] or [CRITICO]. *)
Lemma en_alerta_estado (fs : firestore) (med : string * gmap string value)
    (e : entrada_inventario) (sm : Z) :
  entrada_de_medicamento fs med e ->
  Py.as_int (Py.get (snd med) "stock_minimo" (VInt 10)) = Some sm -> 0 <= sm ->
  en_alerta fs med = estado_alerta (inv_estado e).
Proof.
  intros (_ & _ & Hmin & Hs & Hest) Hsm Hpos. unfold en_alerta. rewrite Hs, Hsm.
  rewrite Hmin, (estado_de_as_int _ _ _ Hsm) in Hest.
  unfold get_inventario_estado in Hest.
  destruct (Z.leb_spec (inv_stock_actual e) 0);
    destruct (Z.leb_spec (inv_stock_actual e) sm);
    try (by injection Hest as <-); try lia.
  destruct (Doble.de_entero sm) as [x|]; cbn [bindR] in Hest; [|done].
  by destruct (Doble.entero_le _ _); injection Hest as <-.
Qed.

(** X22.  The statistics against the inventory.  When both routes deliver
    on the same state, the number of alerts lies between zero and the
    number of medications, and the inventory has at most as many entries
    as the statistics count medications, a medication stored without a
    display order being counted but not listed.  When every medication
    has a display order and a minimum stock that is a number and not
    negative, the two agree: the inventory has one entry per counted
    medication, and the alerts are the entries listed as [AGOTADO] or
    [CRITICO]. *)
Theorem get_estadisticas_inventario (hoy : Z) (w w1 w2 : world)
    (e : estadisticas) (inventario : list entrada_inventario) :
  get_estadisticas hoy w = (inl e, w1) ->
  get_inventario hoy w = (inl inventario, w2) ->
  0 <= alertas_stock_bajo e <= total_medicamentos e
  /\ Z.of_nat (length inventario) <= total_medicamentos e
  /\ (forall fs : firestore,
        db w = Some fs ->
        todos_con_orden (medicamentos fs) = true ->
        minimos_no_negativos (medicamentos fs) = true ->
        total_medicamentos e = Z.of_nat (length inventario)
        /\ alertas_stock_bajo e
           = Z.of_nat (length (List.filter (fun x => estado_alerta (inv_estado x))
                                           inventario))).
Proof.
  intros He Hinv.
  apply get_estadisticas_Ok in He as (fs & Hfs & _ & _ & Htotal & Halertas & _).
  apply get_inventario_Ok in Hinv as (fs' & Hfs' & _ & _ & Hinv).
  rewrite Hfs in Hfs'. injection Hfs' as <-.
  pose proof (Forall2_length _ _ _ Hinv) as Hlen.
  pose proof (Permutation_length (order_by_Permutation "orden" (medicamentos fs))) as Hperm.
  pose proof (length_filter_le (en_alerta fs) (medicamentos fs)).
  pose proof (length_filter_le (fun p => bool_decide (is_Some (snd p !! "orden")))
                (medicamentos fs)).
  rewrite Htotal, Halertas. split; [lia|]. split; [lia|].
  intros fs0 Hfs0 Horden Hmin. rewrite Hfs in Hfs0. injection Hfs0 as <-.
  pose proof (order_by_Permutation "orden" (medicamentos fs)) as Hp.
  rewrite (filter_todos _ _ Horden) in Hp.
  split; [by rewrite <- Hlen, (Permutation_length Hp)|].
  rewrite <- (Permutation_length (filter_Permutation (en_alerta fs) _ _ Hp)).
  f_equal. apply Forall2_filter_length.
  assert (Hmin' : Forall (fun p => exists sm : Z,
                            Py.as_int (Py.get (snd p) "stock_minimo" (VInt 10)) = Some sm
                            /\ 0 <= sm) (order_by "orden" (medicamentos fs))).
  { rewrite Hp. unfold minimos_no_negativos in Hmin.
    apply Forall_forall. intros p Hin%list_elem_of_In.
    rewrite forallb_forall in Hmin. specialize (Hmin p Hin).
    destruct (Py.as_int _) as [sm|]; [|done]. exists sm. split; [done|].
    by apply Z.leb_le. }
  clear -Hinv Hmin'.
  induction Hinv as [|med x meds inv Hx _ IH]; [constructor|].
  apply Forall_cons in Hmin' as [(sm & Hsm & Hpos) Hmin'].
  constructor; [|by apply IH]. by apply (en_alerta_estado fs med x sm).
Qed.

Lemma get_estadisticas_inventario_witness :
  exists (e : estadisticas) (inventario : list entrada_inventario),
    get_estadisticas Ejemplo.hoy Ejemplo.w = (inl e, Ejemplo.w)
    /\ fst (get_inventario Ejemplo.hoy Ejemplo.w) = inl inventario
    /\ alertas_stock_bajo e
       = Z.of_nat (length (List.filter (fun x => estado_alerta (inv_estado x))
                                       inventario)).
Proof.
  destruct (get_estadisticas Ejemplo.hoy Ejemplo.w) as [[e|r] w1] eqn:He;
    [|vm_compute in He; discriminate].
  destruct (get_inventario Ejemplo.hoy Ejemplo.w) as [[inventario|r] w2] eqn:Hinv;
    [|vm_compute in Hinv; discriminate].
  assert (w1 = Ejemplo.w) as -> by (vm_compute in He; by injection He).
  exists e, inventario. split; [done|]. split; [done|].
  destruct (get_estadisticas_inventario _ _ _ _ _ _ He Hinv) as (_ & _ & H).
  by destruct (H Ejemplo.fs eq_refl eq_refl eq_refl).
Defined.
